(** * Creators File Manager: the client (src/src/App.tsx, api.ts, types.ts)

    A shallow embedding of the form logic of the desktop client: the text
    parsers ([parsePaths], [parseExts], [mergePathText]), the request
    builders of the six operation tabs, the IPC facade of api.ts, the
    settings import flow and the debounced output-directory autosave.

    Conventions.
    - A JavaScript string is a Rocq [string]; the character classes of the
      regular expressions and of [String.prototype.trim] are taken on the
      ASCII range (TAB, LF, VT, FF, CR and SPACE are white space), and
      [toLowerCase] folds A-Z.
    - A JavaScript number that the client only ever uses as an integer is a
      [Z]; the two fractional values (effective resize percent, tolerance)
      are [Q]; the size estimate, which goes through [Math.pow], is computed
      over [R].
    - React state is a record; an event handler is a function on it.  An
      [async] handler runs in the monad [App], which threads the state and
      the log of [invoke] calls and can throw. *)

From Stdlib Require Import String Ascii List ZArith QArith Qround Reals Lra Lia Bool.
From stdpp Require Import base gmap strings pretty.
Import ListNotations.

Local Open Scope string_scope.
Local Open Scope Z_scope.

(** ** JavaScript string primitives *)

Module Js.

(** The ASCII part of the ECMAScript WhiteSpace and LineTerminator classes,
    which is what [\s] and [trim] recognise. *)
Definition isWhiteSpace (c : ascii) : bool :=
  let n := N_of_ascii c in
  ((n =? 9) || (n =? 10) || (n =? 11) || (n =? 12) || (n =? 13) || (n =? 32))%N.

Definition isLF (c : ascii) : bool := (N_of_ascii c =? 10)%N.
Definition isCR (c : ascii) : bool := (N_of_ascii c =? 13)%N.
Definition isComma (c : ascii) : bool := (N_of_ascii c =? 44)%N.
Definition isDot (c : ascii) : bool := (N_of_ascii c =? 46)%N.

Fixpoint trimStart (s : string) : string :=
  match s with
  | EmptyString => EmptyString
  | String c s' => if isWhiteSpace c then trimStart s' else s
  end.

Fixpoint trimEnd (s : string) : string :=
  match s with
  | EmptyString => EmptyString
  | String c s' =>
      match trimEnd s' with
      | EmptyString => if isWhiteSpace c then EmptyString else String c EmptyString
      | t => String c t
      end
  end.

(** [s.trim()] *)
Definition trim (s : string) : string := trimEnd (trimStart s).

Definition lowerChar (c : ascii) : ascii :=
  let n := N_of_ascii c in
  if ((65 <=? n) && (n <=? 90))%N then ascii_of_N (n + 32) else c.

(** [s.toLowerCase()] *)
Fixpoint toLowerCase (s : string) : string :=
  match s with
  | EmptyString => EmptyString
  | String c s' => String (lowerChar c) (toLowerCase s')
  end.

(** [Boolean(s)] for a string: the empty string is the only falsy one. *)
Definition truthy (s : string) : bool :=
  match s with EmptyString => false | _ => true end.

(** [s.replace(/^\./, "")]: at most one dot, at the very start. *)
Definition dropLeadingDot (s : string) : string :=
  match s with
  | String c s' => if isDot c then s' else s
  | EmptyString => EmptyString
  end.

(** Puts a character in front of the first piece of a split. *)
Definition push (c : ascii) (pieces : list string) : list string :=
  match pieces with
  | [] => [String c EmptyString]
  | t :: ts => String c t :: ts
  end.

Definition startsWithLF (s : string) : bool :=
  match s with String c _ => isLF c | EmptyString => false end.

(** [s.split(/\r?\n|,/g)]: a separator is CR LF, LF or a comma; a CR that is
    not followed by LF is an ordinary character; empty pieces are kept. *)
Fixpoint splitLinesOrCommas (s : string) : list string :=
  match s with
  | EmptyString => [EmptyString]
  | String c s' =>
      if isComma c || isLF c then EmptyString :: splitLinesOrCommas s'
      else if isCR c && startsWithLF s' then splitLinesOrCommas s'
      else push c (splitLinesOrCommas s')
  end.

(** The class [[\r\n,\s]]. *)
Definition isExtSeparator (c : ascii) : bool := isComma c || isWhiteSpace c.

Definition startsWithExtSeparator (s : string) : bool :=
  match s with String c _ => isExtSeparator c | EmptyString => false end.

(** [s.split(/[\r\n,\s]+/g)]: a separator is a maximal run of commas and
    white space; empty pieces only arise at the two ends. *)
Fixpoint splitExtSeparators (s : string) : list string :=
  match s with
  | EmptyString => [EmptyString]
  | String c s' =>
      if isExtSeparator c then
        if startsWithExtSeparator s' then splitExtSeparators s'
        else EmptyString :: splitExtSeparators s'
      else push c (splitExtSeparators s')
  end.

(** [a.join("\n")] *)
Definition LF : string := String (ascii_of_N 10) EmptyString.
Definition joinLines (a : list string) : string := String.concat LF a.

(** [new Set(a)] keeps its elements in insertion order; adding an element
    that is already present changes nothing. *)
Definition Set_has (s : list string) (x : string) : bool :=
  existsb (String.eqb x) s.

Definition Set_add (s : list string) (x : string) : list string :=
  if Set_has s x then s else s ++ [x].

(** [Array.from(new Set(a))] *)
Definition Array_from_Set (a : list string) : list string :=
  fold_left Set_add a [].

End Js.

(** ** The text parsers of App.tsx *)

(** [parsePaths]: split on line breaks and commas, trim, drop the empty
    pieces. *)
Definition parsePaths (value : string) : list string :=
  List.filter Js.truthy (map Js.trim (Js.splitLinesOrCommas value)).

(** [parseExts]: split on runs of commas and white space, then trim, remove
    one leading dot, lower-case, and drop the empty pieces. *)
Definition parseExts (value : string) : list string :=
  List.filter Js.truthy
    (map (fun item => Js.toLowerCase (Js.dropLeadingDot (Js.trim item)))
         (Js.splitExtSeparators value)).

(** [mergePathText] *)
Definition mergePathText (current : string) (incoming : list string) : string :=
  let merged := Js.Array_from_Set (parsePaths current ++ List.filter Js.truthy incoming) in
  Js.joinLines merged.

(** ** The records of types.ts *)

Inductive RenameSource := captureThenModified | modifiedOnly | currentTime.
Inductive ConflictPolicy := overwrite | sequence | skip.
Inductive DeleteMode := direct | trash | retreat.
Inductive PlanStatus := ready | skipped.
Inductive ExecStatus := succeeded | failed | execSkipped.
Inductive Theme := themeSystem | themeLight | themeDark.
Inductive MetadataStripPreset := snsPublish | delivery | fullClean | custom.
Inductive ImportMode := importOverwrite | importMerge.
Inductive ImportPolicy := keepExisting | takeImport | cancelImport.
Inductive SizeUnit := GB | MB | KB.
Inductive OffsetSign := signPlus | signMinus.
Inductive TabKey :=
| tab_rename | tab_delete | tab_compress | tab_flatten
| tab_exif_offset | tab_metadata_strip | tab_settings | tab_about.
Inductive ToastType := toastSuccess | toastError | toastInfo.

Record RenamePreviewRequest := {
  rn_inputPaths : list string;
  rn_includeSubfolders : bool;
  rn_template : string;
  rn_source : RenameSource;
  rn_outputDir : option string;
  rn_conflictPolicy : ConflictPolicy;
  rn_useFfprobe : bool
}.

Record DeletePreviewRequest := {
  dl_inputPaths : list string;
  dl_includeSubfolders : bool;
  dl_extensions : list string;
  dl_mode : DeleteMode;
  dl_retreatDir : option string;
  dl_conflictPolicy : ConflictPolicy
}.

Record FlattenPreviewRequest := {
  fl_inputDir : string;
  fl_outputDir : option string;
  fl_conflictPolicy : ConflictPolicy
}.

Record CompressPreviewRequest := {
  cp_inputPaths : list string;
  cp_includeSubfolders : bool;
  cp_resizePercent : Z;
  cp_quality : Z;
  cp_targetSizeKb : option Z;
  cp_tolerancePercent : Q;
  cp_preserveExif : bool;
  cp_outputDir : option string;
  cp_conflictPolicy : ConflictPolicy
}.

Record ExifOffsetPreviewRequest := {
  ex_inputPaths : list string;
  ex_includeSubfolders : bool;
  ex_offsetSeconds : Z
}.

Record MetadataStripCategories := {
  gps : bool;
  cameraLens : bool;
  software : bool;
  authorCopyright : bool;
  comments : bool;
  thumbnail : bool;
  iptc : bool;
  xmp : bool;
  shootingSettings : bool;
  captureDateTime : bool
}.

Record MetadataStripPreviewRequest := {
  ms_inputPaths : list string;
  ms_includeSubfolders : bool;
  ms_preset : MetadataStripPreset;
  ms_categories : MetadataStripCategories
}.

(** One row of a preview or of an execution report.  The per-operation
    extras of a row (action, sizes, found categories), which only the result
    tables read, are left out. *)
Record PlanRow := {
  row_sourcePath : string;
  row_destinationPath : option string;
  row_status : PlanStatus;
  row_reason : option string
}.

Record ExecRow := {
  det_sourcePath : string;
  det_destinationPath : option string;
  det_status : ExecStatus;
  det_reason : option string
}.

(** The counts and rows that RenamePreviewResponse, DeletePreviewResponse,
    FlattenPreviewResponse, ExifOffsetPreviewResponse and
    MetadataStripPreviewResponse share. *)
Record PreviewResponse := {
  pv_items : list PlanRow;
  pv_total : Z;
  pv_ready : Z;
  pv_skipped : Z
}.

Record CompressPreviewResponse := {
  cpv_outputDir : string;
  cpv_effectiveResizePercent : Q;
  cpv_effectiveQuality : Z;
  cpv_items : list PlanRow;
  cpv_total : Z;
  cpv_ready : Z;
  cpv_skipped : Z;
  cpv_warnings : Z
}.

(** The counts and rows that the six execute responses share; what an
    operation adds to them (the output directory, the effective compress
    parameters) only reaches the result tables. *)
Record ExecuteResponse := {
  er_processed : Z;
  er_succeeded : Z;
  er_failed : Z;
  er_skipped : Z;
  er_details : list ExecRow
}.

Record CompressCollectInfoResponse := {
  fileCount : Z;
  totalSize : Z
}.

Record CompressEstimateResponse := {
  est_fileCount : Z;
  totalSourceSize : Z;
  estimatedTotalSize : Z
}.

Record OperationProgressEvent := {
  operation : string;
  processed : Z;
  total : Z;
  done : bool;
  canceled : bool
}.

Record DeletePattern := {
  dp_name : string;
  dp_extensions : list string;
  dp_mode : DeleteMode;
  dp_retreatDir : option string
}.

Record RenameTemplate := {
  rt_name : string;
  rt_template : string
}.

Record AppSettings := {
  deletePatterns : list DeletePattern;
  renameTemplates : list RenameTemplate;
  outputDirectories : gmap string string;
  theme : Theme
}.

Record ImportConflictPreview := {
  deletePatternNames : list string;
  renameTemplateNames : list string;
  outputDirectoryKeys : list string;
  themeConflict : bool
}.

(** ** api.ts: one constructor per [invoke] *)

Inductive IpcCall :=
| preview_rename (request : RenamePreviewRequest)
| execute_rename (request : RenamePreviewRequest)
| preview_delete (request : DeletePreviewRequest)
| execute_delete (request : DeletePreviewRequest)
| preview_flatten (request : FlattenPreviewRequest)
| execute_flatten (request : FlattenPreviewRequest)
| preview_compress (request : CompressPreviewRequest)
| execute_compress (request : CompressPreviewRequest)
| preview_exif_offset (request : ExifOffsetPreviewRequest)
| execute_exif_offset (request : ExifOffsetPreviewRequest)
| preview_metadata_strip (request : MetadataStripPreviewRequest)
| execute_metadata_strip (request : MetadataStripPreviewRequest)
| save_settings (settings : AppSettings)
| import_settings (inputPath : string) (mode : ImportMode) (conflictPolicy : ImportPolicy)
| preview_import_conflicts (inputPath : string)
| is_directory_path (path : string).

(** The command name handed to [invoke]. *)
Definition commandName (c : IpcCall) : string :=
  match c with
  | preview_rename _ => "preview_rename"
  | execute_rename _ => "execute_rename"
  | preview_delete _ => "preview_delete"
  | execute_delete _ => "execute_delete"
  | preview_flatten _ => "preview_flatten"
  | execute_flatten _ => "execute_flatten"
  | preview_compress _ => "preview_compress"
  | execute_compress _ => "execute_compress"
  | preview_exif_offset _ => "preview_exif_offset"
  | execute_exif_offset _ => "execute_exif_offset"
  | preview_metadata_strip _ => "preview_metadata_strip"
  | execute_metadata_strip _ => "execute_metadata_strip"
  | save_settings _ => "save_settings"
  | import_settings _ _ _ => "import_settings"
  | preview_import_conflicts _ => "preview_import_conflicts"
  | is_directory_path _ => "is_directory_path"
  end.

(** The commands that change the file system or the settings file. *)
Definition isExecute (c : IpcCall) : bool :=
  match c with
  | execute_rename _ | execute_delete _ | execute_flatten _
  | execute_compress _ | execute_exif_offset _ | execute_metadata_strip _ => true
  | _ => false
  end.

Definition isMutating (c : IpcCall) : bool :=
  match c with
  | save_settings _ | import_settings _ _ _ => true
  | _ => isExecute c
  end.

(** What a promise returned by [invoke] settles to. *)
Inductive Reply (A : Type) :=
| Rejected (reason : string)
| Resolved (value : A).
Arguments Rejected {A} reason.
Arguments Resolved {A} value.

(** The engine behind the bridge.  It is not part of the client; every
    answer may depend on the request and on how many calls came before. *)
Record Backend := {
  on_preview_rename : nat -> RenamePreviewRequest -> Reply PreviewResponse;
  on_execute_rename : nat -> RenamePreviewRequest -> Reply ExecuteResponse;
  on_preview_delete : nat -> DeletePreviewRequest -> Reply PreviewResponse;
  on_execute_delete : nat -> DeletePreviewRequest -> Reply ExecuteResponse;
  on_preview_flatten : nat -> FlattenPreviewRequest -> Reply PreviewResponse;
  on_execute_flatten : nat -> FlattenPreviewRequest -> Reply ExecuteResponse;
  on_preview_compress : nat -> CompressPreviewRequest -> Reply CompressPreviewResponse;
  on_execute_compress : nat -> CompressPreviewRequest -> Reply ExecuteResponse;
  on_preview_exif_offset : nat -> ExifOffsetPreviewRequest -> Reply PreviewResponse;
  on_execute_exif_offset : nat -> ExifOffsetPreviewRequest -> Reply ExecuteResponse;
  on_preview_metadata_strip : nat -> MetadataStripPreviewRequest -> Reply PreviewResponse;
  on_execute_metadata_strip : nat -> MetadataStripPreviewRequest -> Reply ExecuteResponse;
  on_save_settings : nat -> AppSettings -> Reply unit;
  on_import_settings : nat -> string -> ImportMode -> ImportPolicy -> Reply AppSettings;
  on_preview_import_conflicts : nat -> string -> Reply ImportConflictPreview;
  on_is_directory_path : nat -> string -> Reply bool
}.

(** ** The component state

    [App] keeps its state in [useState] hooks and a few refs.  The hooks are
    grouped here by the tab they belong to, in the order of their
    declaration; the hooks of the template and pattern editors, of the drag
    and drop overlay and of the window geometry are not read by any handler
    embedded below and are left out.  [toastIdRef] is a ref; [tabRef] always
    holds [tab] (an effect copies it after every render that changes it). *)

Record Toast := {
  toast_id : Z;
  toast_type : ToastType;
  toast_message : string
}.

Record ShellState := {
  tab : TabKey;
  settings : AppSettings;
  settingsStatus : string;
  isBusy : bool;
  busyLabel : option string;
  progressMap : gmap string OperationProgressEvent;
  toasts : list Toast;
  toastIdRef : Z
}.

Record RenameForm := {
  renamePaths : string;
  renameSubfolders : bool;
  renameTemplate : string;
  renameSource : RenameSource;
  renameOutputDir : string;
  renameConflictPolicy : ConflictPolicy;
  useFfprobe : bool;
  renamePreview : option PreviewResponse;
  renameExec : option ExecuteResponse
}.

Record DeleteForm := {
  deletePaths : string;
  deleteSubfolders : bool;
  deleteExtensions : string;
  deleteMode : DeleteMode;
  deleteRetreatDir : string;
  deleteConflictPolicy : ConflictPolicy;
  deletePreview : option PreviewResponse;
  deleteExec : option ExecuteResponse
}.

Record CompressForm := {
  compressPaths : string;
  compressSubfolders : bool;
  compressResizePercent : Z;
  compressQuality : Z;
  compressTargetSizeKb : string;
  compressTargetSizeUnit : SizeUnit;
  compressTolerancePercent : Q;
  compressPreserveExif : bool;
  compressOutputDir : string;
  compressConflictPolicy : ConflictPolicy;
  compressSourceInfo : option CompressCollectInfoResponse;
  compressEstimateResult : option CompressEstimateResponse;
  compressPreview : option CompressPreviewResponse;
  compressExec : option ExecuteResponse
}.

Record FlattenForm := {
  flattenInputDir : string;
  flattenOutputDir : string;
  flattenConflictPolicy : ConflictPolicy;
  flattenPreview : option PreviewResponse;
  flattenExec : option ExecuteResponse
}.

Record ExifOffsetForm := {
  exifOffsetPaths : string;
  exifOffsetSubfolders : bool;
  exifOffsetSign : OffsetSign;
  exifOffsetDays : Z;
  exifOffsetHours : Z;
  exifOffsetMinutes : Z;
  exifOffsetSeconds : Z;
  exifOffsetPreview : option PreviewResponse;
  exifOffsetExec : option ExecuteResponse
}.

Record MetadataStripForm := {
  metadataStripPaths : string;
  metadataStripSubfolders : bool;
  metadataStripPreset : MetadataStripPreset;
  metadataStripCategories : MetadataStripCategories;
  metadataStripPreview : option PreviewResponse;
  metadataStripExec : option ExecuteResponse
}.

Record ImportForm := {
  importPath : string;
  importMode : ImportMode;
  importConflictPolicy : ImportPolicy;
  importConflictPreview : option ImportConflictPreview
}.

Record AppState := {
  shell : ShellState;
  renameForm : RenameForm;
  deleteForm : DeleteForm;
  compressForm : CompressForm;
  flattenForm : FlattenForm;
  exifOffsetForm : ExifOffsetForm;
  metadataStripForm : MetadataStripForm;
  importForm : ImportForm
}.

(** The state setters returned by [useState].  A setter replaces one hook
    and leaves every other one as it is. *)

Definition inShell (f : ShellState -> ShellState) (s : AppState) : AppState :=
  {| shell := f (shell s);
     renameForm := renameForm s;
     deleteForm := deleteForm s;
     compressForm := compressForm s;
     flattenForm := flattenForm s;
     exifOffsetForm := exifOffsetForm s;
     metadataStripForm := metadataStripForm s;
     importForm := importForm s |}.

Definition setTab (v : TabKey) : AppState -> AppState :=
  inShell (fun r =>
    {| tab := v;
       settings := settings r;
       settingsStatus := settingsStatus r;
       isBusy := isBusy r;
       busyLabel := busyLabel r;
       progressMap := progressMap r;
       toasts := toasts r;
       toastIdRef := toastIdRef r |}).

Definition setSettings (v : AppSettings) : AppState -> AppState :=
  inShell (fun r =>
    {| tab := tab r;
       settings := v;
       settingsStatus := settingsStatus r;
       isBusy := isBusy r;
       busyLabel := busyLabel r;
       progressMap := progressMap r;
       toasts := toasts r;
       toastIdRef := toastIdRef r |}).

Definition setSettingsStatus (v : string) : AppState -> AppState :=
  inShell (fun r =>
    {| tab := tab r;
       settings := settings r;
       settingsStatus := v;
       isBusy := isBusy r;
       busyLabel := busyLabel r;
       progressMap := progressMap r;
       toasts := toasts r;
       toastIdRef := toastIdRef r |}).

Definition setIsBusy (v : bool) : AppState -> AppState :=
  inShell (fun r =>
    {| tab := tab r;
       settings := settings r;
       settingsStatus := settingsStatus r;
       isBusy := v;
       busyLabel := busyLabel r;
       progressMap := progressMap r;
       toasts := toasts r;
       toastIdRef := toastIdRef r |}).

Definition setBusyLabel (v : option string) : AppState -> AppState :=
  inShell (fun r =>
    {| tab := tab r;
       settings := settings r;
       settingsStatus := settingsStatus r;
       isBusy := isBusy r;
       busyLabel := v;
       progressMap := progressMap r;
       toasts := toasts r;
       toastIdRef := toastIdRef r |}).

Definition setProgressMap (v : gmap string OperationProgressEvent) : AppState -> AppState :=
  inShell (fun r =>
    {| tab := tab r;
       settings := settings r;
       settingsStatus := settingsStatus r;
       isBusy := isBusy r;
       busyLabel := busyLabel r;
       progressMap := v;
       toasts := toasts r;
       toastIdRef := toastIdRef r |}).

Definition setToasts (v : list Toast) : AppState -> AppState :=
  inShell (fun r =>
    {| tab := tab r;
       settings := settings r;
       settingsStatus := settingsStatus r;
       isBusy := isBusy r;
       busyLabel := busyLabel r;
       progressMap := progressMap r;
       toasts := v;
       toastIdRef := toastIdRef r |}).

Definition setToastIdRef (v : Z) : AppState -> AppState :=
  inShell (fun r =>
    {| tab := tab r;
       settings := settings r;
       settingsStatus := settingsStatus r;
       isBusy := isBusy r;
       busyLabel := busyLabel r;
       progressMap := progressMap r;
       toasts := toasts r;
       toastIdRef := v |}).

Definition inRenameForm (f : RenameForm -> RenameForm) (s : AppState) : AppState :=
  {| shell := shell s;
     renameForm := f (renameForm s);
     deleteForm := deleteForm s;
     compressForm := compressForm s;
     flattenForm := flattenForm s;
     exifOffsetForm := exifOffsetForm s;
     metadataStripForm := metadataStripForm s;
     importForm := importForm s |}.

Definition setRenamePaths (v : string) : AppState -> AppState :=
  inRenameForm (fun r =>
    {| renamePaths := v;
       renameSubfolders := renameSubfolders r;
       renameTemplate := renameTemplate r;
       renameSource := renameSource r;
       renameOutputDir := renameOutputDir r;
       renameConflictPolicy := renameConflictPolicy r;
       useFfprobe := useFfprobe r;
       renamePreview := renamePreview r;
       renameExec := renameExec r |}).

Definition setRenameOutputDir (v : string) : AppState -> AppState :=
  inRenameForm (fun r =>
    {| renamePaths := renamePaths r;
       renameSubfolders := renameSubfolders r;
       renameTemplate := renameTemplate r;
       renameSource := renameSource r;
       renameOutputDir := v;
       renameConflictPolicy := renameConflictPolicy r;
       useFfprobe := useFfprobe r;
       renamePreview := renamePreview r;
       renameExec := renameExec r |}).

Definition setRenamePreview (v : option PreviewResponse) : AppState -> AppState :=
  inRenameForm (fun r =>
    {| renamePaths := renamePaths r;
       renameSubfolders := renameSubfolders r;
       renameTemplate := renameTemplate r;
       renameSource := renameSource r;
       renameOutputDir := renameOutputDir r;
       renameConflictPolicy := renameConflictPolicy r;
       useFfprobe := useFfprobe r;
       renamePreview := v;
       renameExec := renameExec r |}).

Definition setRenameExec (v : option ExecuteResponse) : AppState -> AppState :=
  inRenameForm (fun r =>
    {| renamePaths := renamePaths r;
       renameSubfolders := renameSubfolders r;
       renameTemplate := renameTemplate r;
       renameSource := renameSource r;
       renameOutputDir := renameOutputDir r;
       renameConflictPolicy := renameConflictPolicy r;
       useFfprobe := useFfprobe r;
       renamePreview := renamePreview r;
       renameExec := v |}).

Definition inDeleteForm (f : DeleteForm -> DeleteForm) (s : AppState) : AppState :=
  {| shell := shell s;
     renameForm := renameForm s;
     deleteForm := f (deleteForm s);
     compressForm := compressForm s;
     flattenForm := flattenForm s;
     exifOffsetForm := exifOffsetForm s;
     metadataStripForm := metadataStripForm s;
     importForm := importForm s |}.

Definition setDeletePaths (v : string) : AppState -> AppState :=
  inDeleteForm (fun r =>
    {| deletePaths := v;
       deleteSubfolders := deleteSubfolders r;
       deleteExtensions := deleteExtensions r;
       deleteMode := deleteMode r;
       deleteRetreatDir := deleteRetreatDir r;
       deleteConflictPolicy := deleteConflictPolicy r;
       deletePreview := deletePreview r;
       deleteExec := deleteExec r |}).

Definition setDeleteRetreatDir (v : string) : AppState -> AppState :=
  inDeleteForm (fun r =>
    {| deletePaths := deletePaths r;
       deleteSubfolders := deleteSubfolders r;
       deleteExtensions := deleteExtensions r;
       deleteMode := deleteMode r;
       deleteRetreatDir := v;
       deleteConflictPolicy := deleteConflictPolicy r;
       deletePreview := deletePreview r;
       deleteExec := deleteExec r |}).

Definition setDeletePreview (v : option PreviewResponse) : AppState -> AppState :=
  inDeleteForm (fun r =>
    {| deletePaths := deletePaths r;
       deleteSubfolders := deleteSubfolders r;
       deleteExtensions := deleteExtensions r;
       deleteMode := deleteMode r;
       deleteRetreatDir := deleteRetreatDir r;
       deleteConflictPolicy := deleteConflictPolicy r;
       deletePreview := v;
       deleteExec := deleteExec r |}).

Definition setDeleteExec (v : option ExecuteResponse) : AppState -> AppState :=
  inDeleteForm (fun r =>
    {| deletePaths := deletePaths r;
       deleteSubfolders := deleteSubfolders r;
       deleteExtensions := deleteExtensions r;
       deleteMode := deleteMode r;
       deleteRetreatDir := deleteRetreatDir r;
       deleteConflictPolicy := deleteConflictPolicy r;
       deletePreview := deletePreview r;
       deleteExec := v |}).

Definition inCompressForm (f : CompressForm -> CompressForm) (s : AppState) : AppState :=
  {| shell := shell s;
     renameForm := renameForm s;
     deleteForm := deleteForm s;
     compressForm := f (compressForm s);
     flattenForm := flattenForm s;
     exifOffsetForm := exifOffsetForm s;
     metadataStripForm := metadataStripForm s;
     importForm := importForm s |}.

Definition setCompressPaths (v : string) : AppState -> AppState :=
  inCompressForm (fun r =>
    {| compressPaths := v;
       compressSubfolders := compressSubfolders r;
       compressResizePercent := compressResizePercent r;
       compressQuality := compressQuality r;
       compressTargetSizeKb := compressTargetSizeKb r;
       compressTargetSizeUnit := compressTargetSizeUnit r;
       compressTolerancePercent := compressTolerancePercent r;
       compressPreserveExif := compressPreserveExif r;
       compressOutputDir := compressOutputDir r;
       compressConflictPolicy := compressConflictPolicy r;
       compressSourceInfo := compressSourceInfo r;
       compressEstimateResult := compressEstimateResult r;
       compressPreview := compressPreview r;
       compressExec := compressExec r |}).

Definition setCompressResizePercent (v : Z) : AppState -> AppState :=
  inCompressForm (fun r =>
    {| compressPaths := compressPaths r;
       compressSubfolders := compressSubfolders r;
       compressResizePercent := v;
       compressQuality := compressQuality r;
       compressTargetSizeKb := compressTargetSizeKb r;
       compressTargetSizeUnit := compressTargetSizeUnit r;
       compressTolerancePercent := compressTolerancePercent r;
       compressPreserveExif := compressPreserveExif r;
       compressOutputDir := compressOutputDir r;
       compressConflictPolicy := compressConflictPolicy r;
       compressSourceInfo := compressSourceInfo r;
       compressEstimateResult := compressEstimateResult r;
       compressPreview := compressPreview r;
       compressExec := compressExec r |}).

Definition setCompressQuality (v : Z) : AppState -> AppState :=
  inCompressForm (fun r =>
    {| compressPaths := compressPaths r;
       compressSubfolders := compressSubfolders r;
       compressResizePercent := compressResizePercent r;
       compressQuality := v;
       compressTargetSizeKb := compressTargetSizeKb r;
       compressTargetSizeUnit := compressTargetSizeUnit r;
       compressTolerancePercent := compressTolerancePercent r;
       compressPreserveExif := compressPreserveExif r;
       compressOutputDir := compressOutputDir r;
       compressConflictPolicy := compressConflictPolicy r;
       compressSourceInfo := compressSourceInfo r;
       compressEstimateResult := compressEstimateResult r;
       compressPreview := compressPreview r;
       compressExec := compressExec r |}).

Definition setCompressTargetSizeKb (v : string) : AppState -> AppState :=
  inCompressForm (fun r =>
    {| compressPaths := compressPaths r;
       compressSubfolders := compressSubfolders r;
       compressResizePercent := compressResizePercent r;
       compressQuality := compressQuality r;
       compressTargetSizeKb := v;
       compressTargetSizeUnit := compressTargetSizeUnit r;
       compressTolerancePercent := compressTolerancePercent r;
       compressPreserveExif := compressPreserveExif r;
       compressOutputDir := compressOutputDir r;
       compressConflictPolicy := compressConflictPolicy r;
       compressSourceInfo := compressSourceInfo r;
       compressEstimateResult := compressEstimateResult r;
       compressPreview := compressPreview r;
       compressExec := compressExec r |}).

Definition setCompressTargetSizeUnit (v : SizeUnit) : AppState -> AppState :=
  inCompressForm (fun r =>
    {| compressPaths := compressPaths r;
       compressSubfolders := compressSubfolders r;
       compressResizePercent := compressResizePercent r;
       compressQuality := compressQuality r;
       compressTargetSizeKb := compressTargetSizeKb r;
       compressTargetSizeUnit := v;
       compressTolerancePercent := compressTolerancePercent r;
       compressPreserveExif := compressPreserveExif r;
       compressOutputDir := compressOutputDir r;
       compressConflictPolicy := compressConflictPolicy r;
       compressSourceInfo := compressSourceInfo r;
       compressEstimateResult := compressEstimateResult r;
       compressPreview := compressPreview r;
       compressExec := compressExec r |}).

Definition setCompressOutputDir (v : string) : AppState -> AppState :=
  inCompressForm (fun r =>
    {| compressPaths := compressPaths r;
       compressSubfolders := compressSubfolders r;
       compressResizePercent := compressResizePercent r;
       compressQuality := compressQuality r;
       compressTargetSizeKb := compressTargetSizeKb r;
       compressTargetSizeUnit := compressTargetSizeUnit r;
       compressTolerancePercent := compressTolerancePercent r;
       compressPreserveExif := compressPreserveExif r;
       compressOutputDir := v;
       compressConflictPolicy := compressConflictPolicy r;
       compressSourceInfo := compressSourceInfo r;
       compressEstimateResult := compressEstimateResult r;
       compressPreview := compressPreview r;
       compressExec := compressExec r |}).

Definition setCompressPreview (v : option CompressPreviewResponse) : AppState -> AppState :=
  inCompressForm (fun r =>
    {| compressPaths := compressPaths r;
       compressSubfolders := compressSubfolders r;
       compressResizePercent := compressResizePercent r;
       compressQuality := compressQuality r;
       compressTargetSizeKb := compressTargetSizeKb r;
       compressTargetSizeUnit := compressTargetSizeUnit r;
       compressTolerancePercent := compressTolerancePercent r;
       compressPreserveExif := compressPreserveExif r;
       compressOutputDir := compressOutputDir r;
       compressConflictPolicy := compressConflictPolicy r;
       compressSourceInfo := compressSourceInfo r;
       compressEstimateResult := compressEstimateResult r;
       compressPreview := v;
       compressExec := compressExec r |}).

Definition setCompressExec (v : option ExecuteResponse) : AppState -> AppState :=
  inCompressForm (fun r =>
    {| compressPaths := compressPaths r;
       compressSubfolders := compressSubfolders r;
       compressResizePercent := compressResizePercent r;
       compressQuality := compressQuality r;
       compressTargetSizeKb := compressTargetSizeKb r;
       compressTargetSizeUnit := compressTargetSizeUnit r;
       compressTolerancePercent := compressTolerancePercent r;
       compressPreserveExif := compressPreserveExif r;
       compressOutputDir := compressOutputDir r;
       compressConflictPolicy := compressConflictPolicy r;
       compressSourceInfo := compressSourceInfo r;
       compressEstimateResult := compressEstimateResult r;
       compressPreview := compressPreview r;
       compressExec := v |}).

Definition inFlattenForm (f : FlattenForm -> FlattenForm) (s : AppState) : AppState :=
  {| shell := shell s;
     renameForm := renameForm s;
     deleteForm := deleteForm s;
     compressForm := compressForm s;
     flattenForm := f (flattenForm s);
     exifOffsetForm := exifOffsetForm s;
     metadataStripForm := metadataStripForm s;
     importForm := importForm s |}.

Definition setFlattenInputDir (v : string) : AppState -> AppState :=
  inFlattenForm (fun r =>
    {| flattenInputDir := v;
       flattenOutputDir := flattenOutputDir r;
       flattenConflictPolicy := flattenConflictPolicy r;
       flattenPreview := flattenPreview r;
       flattenExec := flattenExec r |}).

Definition setFlattenOutputDir (v : string) : AppState -> AppState :=
  inFlattenForm (fun r =>
    {| flattenInputDir := flattenInputDir r;
       flattenOutputDir := v;
       flattenConflictPolicy := flattenConflictPolicy r;
       flattenPreview := flattenPreview r;
       flattenExec := flattenExec r |}).

Definition setFlattenPreview (v : option PreviewResponse) : AppState -> AppState :=
  inFlattenForm (fun r =>
    {| flattenInputDir := flattenInputDir r;
       flattenOutputDir := flattenOutputDir r;
       flattenConflictPolicy := flattenConflictPolicy r;
       flattenPreview := v;
       flattenExec := flattenExec r |}).

Definition setFlattenExec (v : option ExecuteResponse) : AppState -> AppState :=
  inFlattenForm (fun r =>
    {| flattenInputDir := flattenInputDir r;
       flattenOutputDir := flattenOutputDir r;
       flattenConflictPolicy := flattenConflictPolicy r;
       flattenPreview := flattenPreview r;
       flattenExec := v |}).

Definition inExifOffsetForm (f : ExifOffsetForm -> ExifOffsetForm) (s : AppState) : AppState :=
  {| shell := shell s;
     renameForm := renameForm s;
     deleteForm := deleteForm s;
     compressForm := compressForm s;
     flattenForm := flattenForm s;
     exifOffsetForm := f (exifOffsetForm s);
     metadataStripForm := metadataStripForm s;
     importForm := importForm s |}.

Definition setExifOffsetPaths (v : string) : AppState -> AppState :=
  inExifOffsetForm (fun r =>
    {| exifOffsetPaths := v;
       exifOffsetSubfolders := exifOffsetSubfolders r;
       exifOffsetSign := exifOffsetSign r;
       exifOffsetDays := exifOffsetDays r;
       exifOffsetHours := exifOffsetHours r;
       exifOffsetMinutes := exifOffsetMinutes r;
       exifOffsetSeconds := exifOffsetSeconds r;
       exifOffsetPreview := exifOffsetPreview r;
       exifOffsetExec := exifOffsetExec r |}).

Definition setExifOffsetPreview (v : option PreviewResponse) : AppState -> AppState :=
  inExifOffsetForm (fun r =>
    {| exifOffsetPaths := exifOffsetPaths r;
       exifOffsetSubfolders := exifOffsetSubfolders r;
       exifOffsetSign := exifOffsetSign r;
       exifOffsetDays := exifOffsetDays r;
       exifOffsetHours := exifOffsetHours r;
       exifOffsetMinutes := exifOffsetMinutes r;
       exifOffsetSeconds := exifOffsetSeconds r;
       exifOffsetPreview := v;
       exifOffsetExec := exifOffsetExec r |}).

Definition setExifOffsetExec (v : option ExecuteResponse) : AppState -> AppState :=
  inExifOffsetForm (fun r =>
    {| exifOffsetPaths := exifOffsetPaths r;
       exifOffsetSubfolders := exifOffsetSubfolders r;
       exifOffsetSign := exifOffsetSign r;
       exifOffsetDays := exifOffsetDays r;
       exifOffsetHours := exifOffsetHours r;
       exifOffsetMinutes := exifOffsetMinutes r;
       exifOffsetSeconds := exifOffsetSeconds r;
       exifOffsetPreview := exifOffsetPreview r;
       exifOffsetExec := v |}).

Definition inMetadataStripForm (f : MetadataStripForm -> MetadataStripForm) (s : AppState) : AppState :=
  {| shell := shell s;
     renameForm := renameForm s;
     deleteForm := deleteForm s;
     compressForm := compressForm s;
     flattenForm := flattenForm s;
     exifOffsetForm := exifOffsetForm s;
     metadataStripForm := f (metadataStripForm s);
     importForm := importForm s |}.

Definition setMetadataStripPaths (v : string) : AppState -> AppState :=
  inMetadataStripForm (fun r =>
    {| metadataStripPaths := v;
       metadataStripSubfolders := metadataStripSubfolders r;
       metadataStripPreset := metadataStripPreset r;
       metadataStripCategories := metadataStripCategories r;
       metadataStripPreview := metadataStripPreview r;
       metadataStripExec := metadataStripExec r |}).

Definition setMetadataStripPreset (v : MetadataStripPreset) : AppState -> AppState :=
  inMetadataStripForm (fun r =>
    {| metadataStripPaths := metadataStripPaths r;
       metadataStripSubfolders := metadataStripSubfolders r;
       metadataStripPreset := v;
       metadataStripCategories := metadataStripCategories r;
       metadataStripPreview := metadataStripPreview r;
       metadataStripExec := metadataStripExec r |}).

Definition setMetadataStripCategories (v : MetadataStripCategories) : AppState -> AppState :=
  inMetadataStripForm (fun r =>
    {| metadataStripPaths := metadataStripPaths r;
       metadataStripSubfolders := metadataStripSubfolders r;
       metadataStripPreset := metadataStripPreset r;
       metadataStripCategories := v;
       metadataStripPreview := metadataStripPreview r;
       metadataStripExec := metadataStripExec r |}).

Definition setMetadataStripPreview (v : option PreviewResponse) : AppState -> AppState :=
  inMetadataStripForm (fun r =>
    {| metadataStripPaths := metadataStripPaths r;
       metadataStripSubfolders := metadataStripSubfolders r;
       metadataStripPreset := metadataStripPreset r;
       metadataStripCategories := metadataStripCategories r;
       metadataStripPreview := v;
       metadataStripExec := metadataStripExec r |}).

Definition setMetadataStripExec (v : option ExecuteResponse) : AppState -> AppState :=
  inMetadataStripForm (fun r =>
    {| metadataStripPaths := metadataStripPaths r;
       metadataStripSubfolders := metadataStripSubfolders r;
       metadataStripPreset := metadataStripPreset r;
       metadataStripCategories := metadataStripCategories r;
       metadataStripPreview := metadataStripPreview r;
       metadataStripExec := v |}).

Definition inImportForm (f : ImportForm -> ImportForm) (s : AppState) : AppState :=
  {| shell := shell s;
     renameForm := renameForm s;
     deleteForm := deleteForm s;
     compressForm := compressForm s;
     flattenForm := flattenForm s;
     exifOffsetForm := exifOffsetForm s;
     metadataStripForm := metadataStripForm s;
     importForm := f (importForm s) |}.

Definition setImportConflictPreview (v : option ImportConflictPreview) : AppState -> AppState :=
  inImportForm (fun r =>
    {| importPath := importPath r;
       importMode := importMode r;
       importConflictPolicy := importConflictPolicy r;
       importConflictPreview := v |}).

(** ** Asynchronous handlers

    A handler closes over the state of the render it was created in (the
    snapshot [s]), writes through the setters into the live state, and talks
    to the engine through [invoke].  [World] is the live state together with
    the log of the calls made so far, oldest first. *)

Inductive Exn :=
| JsError (message : string)
| PromiseRejection (reason : string).

(** [String(e)] *)
Definition String_of_exn (e : Exn) : string :=
  match e with
  | JsError message => "Error: " ++ message
  | PromiseRejection reason => reason
  end.

Record World := {
  ui : AppState;
  ipc : list IpcCall
}.

Inductive Outcome (A : Type) :=
| Returned (value : A)
| Thrown (e : Exn).
Arguments Returned {A} value.
Arguments Thrown {A} e.

Definition App (A : Type) : Type := World -> Outcome A * World.

Definition ret {A} (a : A) : App A := fun w => (Returned a, w).

Definition bind {A B} (m : App A) (k : A -> App B) : App B :=
  fun w =>
    match m w with
    | (Returned a, w') => k a w'
    | (Thrown e, w') => (Thrown e, w')
    end.

Definition throw {A} (message : string) : App A :=
  fun w => (Thrown (JsError message), w).

(** [try { body } catch (e) { handler(e) } finally { cleanup }] for a handler
    and a cleanup that do not throw. *)
Definition tryCatchFinally (body : App unit) (handler : Exn -> App unit)
    (cleanup : App unit) : App unit :=
  fun w =>
    match body w with
    | (Returned _, w') => cleanup w'
    | (Thrown e, w') => bind (handler e) (fun _ => cleanup) w'
    end.

(** A state setter called from a handler. *)
Definition update (f : AppState -> AppState) : App unit :=
  fun w => (Returned tt, {| ui := f (ui w); ipc := ipc w |}).

(** Reading a ref, or the state inside a functional setter. *)
Definition live : App AppState := fun w => (Returned (ui w), w).

(** [await invoke(cmd, args)]: the call is logged, then the promise settles. *)
Definition invoke {A} (call : IpcCall) (answer : nat -> Reply A) : App A :=
  fun w =>
    let w' := {| ui := ui w; ipc := ipc w ++ [call] |} in
    match answer (length (ipc w)) with
    | Resolved value => (Returned value, w')
    | Rejected reason => (Thrown (PromiseRejection reason), w')
    end.

Declare Scope app_scope.
Delimit Scope app_scope with app.
Notation "'let*' x ':=' m 'in' k" := (bind m (fun x => k))
  (at level 10, x name, m at level 100, k at level 200) : app_scope.
Notation "m ';;' k" := (bind m (fun _ => k))
  (at level 100, k at level 200, right associativity) : app_scope.
Local Open Scope app_scope.

(** [value || null] for a string. *)
Definition orNull (value : string) : option string :=
  if Js.truthy value then Some value else None.

(** [a.length] is zero *)
Definition isEmpty {A} (a : list A) : bool :=
  match a with [] => true | _ => false end.

(** A template literal prints an integer in decimal. *)
Definition showZ (n : Z) : string := pretty n.

(** [Number.parseInt(value, 10)]: leading white space, an optional sign, then
    the longest run of decimal digits; [None] is NaN. *)
Definition digitValue (c : ascii) : option Z :=
  let n := N_of_ascii c in
  if ((48 <=? n) && (n <=? 57))%N then Some (Z.of_N n - 48) else None.

Fixpoint parseDigits (acc : option Z) (s : string) : option Z :=
  match s with
  | EmptyString => acc
  | String c s' =>
      match digitValue c with
      | Some d => parseDigits (Some (10 * default 0 acc + d)) s'
      | None => acc
      end
  end.

Definition Number_parseInt (value : string) : option Z :=
  match Js.trimStart value with
  | EmptyString => None
  | String c rest =>
      if (N_of_ascii c =? 45)%N then option_map Z.opp (parseDigits None rest)
      else if (N_of_ascii c =? 43)%N then parseDigits None rest
      else parseDigits None (String c rest)
  end.

(** [x || fallback] for a number: NaN and zero are falsy. *)
Definition orNumber (x : option Z) (fallback : Z) : Z :=
  match x with
  | Some 0 | None => fallback
  | Some n => n
  end.

(** [Math.round]: to the nearest integer, halves upwards. *)
Definition Math_round (x : Q) : Z := Qfloor (x + (1 # 2)).

(** [parsePositiveInt] *)
Definition parsePositiveInt (value : string) : option Z :=
  match Number_parseInt (Js.trim value) with
  | Some parsed => if 0 <? parsed then Some parsed else None
  | None => None
  end.

Definition UNIT_TO_KB (unit : SizeUnit) : Z :=
  match unit with
  | GB => 1024 * 1024
  | MB => 1024
  | KB => 1
  end.

(** [hasImportConflicts] *)
Definition hasImportConflicts (preview : option ImportConflictPreview) : bool :=
  match preview with
  | None => false
  | Some preview =>
      (0 <? Z.of_nat (length (deletePatternNames preview)))
      || (0 <? Z.of_nat (length (renameTemplateNames preview)))
      || (0 <? Z.of_nat (length (outputDirectoryKeys preview)))
      || themeConflict preview
  end.

(** The categories of the SNS preset, as the component declares them. *)
Definition SNS_CATEGORIES : MetadataStripCategories :=
  {| gps := true; cameraLens := true; software := false; authorCopyright := false;
     comments := true; thumbnail := true; iptc := false; xmp := false;
     shootingSettings := false; captureDateTime := false |}.

(** *** Synchronous change handlers *)

(** The preset [select] of the metadata tab. *)
Definition onChangeMetadataStripPreset (preset : MetadataStripPreset) (s : AppState)
    : AppState :=
  let s := setMetadataStripPreset preset s in
  match preset with
  | snsPublish =>
      setMetadataStripCategories
        {| gps := true; cameraLens := true; software := false; authorCopyright := false;
           comments := true; thumbnail := true; iptc := false; xmp := false;
           shootingSettings := false; captureDateTime := false |} s
  | delivery =>
      setMetadataStripCategories
        {| gps := false; cameraLens := true; software := true; authorCopyright := false;
           comments := true; thumbnail := false; iptc := false; xmp := false;
           shootingSettings := false; captureDateTime := false |} s
  | fullClean =>
      setMetadataStripCategories
        {| gps := true; cameraLens := true; software := true; authorCopyright := true;
           comments := true; thumbnail := true; iptc := true; xmp := true;
           shootingSettings := true; captureDateTime := true |} s
  | custom => s
  end.

(** The two range sliders of the compress tab. *)
Definition onChangeCompressResizePercent (value : string) : AppState -> AppState :=
  setCompressResizePercent (Z.max 1 (Z.min 100 (orNumber (Number_parseInt value) 1))).

Definition onChangeCompressQuality (value : string) : AppState -> AppState :=
  setCompressQuality (Z.max 1 (Z.min 100 (orNumber (Number_parseInt value) 1))).

(** The path [textarea] of the compress tab. *)
Definition onChangeCompressPaths (value : string) : AppState -> AppState :=
  setCompressPaths value.

(** *** The state of the first render *)

Definition DEFAULT_SETTINGS : AppSettings :=
  {| deletePatterns := [];
     renameTemplates :=
       [ {| rt_name := "日付通番";
            rt_template := "{capture_date:YYYYMMDD}_{capture_time:HHmmss}_{seq:3}" |} ];
     outputDirectories := ∅;
     theme := themeSystem |}.

Definition initialState : AppState :=
  {| shell :=
       {| tab := tab_rename; settings := DEFAULT_SETTINGS; settingsStatus := "";
          isBusy := false; busyLabel := None; progressMap := ∅;
          toasts := []; toastIdRef := 0 |};
     renameForm :=
       {| renamePaths := ""; renameSubfolders := false;
          renameTemplate := "{capture_date:YYYYMMDD}_{capture_time:HHmmss}_{seq:3}";
          renameSource := captureThenModified; renameOutputDir := "";
          renameConflictPolicy := sequence; useFfprobe := false;
          renamePreview := None; renameExec := None |};
     deleteForm :=
       {| deletePaths := ""; deleteSubfolders := false; deleteExtensions := "jpg";
          deleteMode := trash; deleteRetreatDir := "";
          deleteConflictPolicy := sequence; deletePreview := None; deleteExec := None |};
     compressForm :=
       {| compressPaths := ""; compressSubfolders := false;
          compressResizePercent := 100; compressQuality := 82;
          compressTargetSizeKb := ""; compressTargetSizeUnit := MB;
          compressTolerancePercent := 10 # 1; compressPreserveExif := true;
          compressOutputDir := ""; compressConflictPolicy := sequence;
          compressSourceInfo := None; compressEstimateResult := None;
          compressPreview := None; compressExec := None |};
     flattenForm :=
       {| flattenInputDir := ""; flattenOutputDir := "";
          flattenConflictPolicy := sequence; flattenPreview := None; flattenExec := None |};
     exifOffsetForm :=
       {| exifOffsetPaths := ""; exifOffsetSubfolders := false; exifOffsetSign := signPlus;
          exifOffsetDays := 0; exifOffsetHours := 0; exifOffsetMinutes := 0;
          exifOffsetSeconds := 0; exifOffsetPreview := None; exifOffsetExec := None |};
     metadataStripForm :=
       {| metadataStripPaths := ""; metadataStripSubfolders := false;
          metadataStripPreset := snsPublish; metadataStripCategories := SNS_CATEGORIES;
          metadataStripPreview := None; metadataStripExec := None |};
     importForm :=
       {| importPath := ""; importMode := importMerge;
          importConflictPolicy := keepExisting; importConflictPreview := None |} |}.

Definition initialWorld : World := {| ui := initialState; ipc := [] |}.

Section Client.

(** The engine, and [Number.prototype.toFixed], which the client only uses
    to print the effective resize percent. *)
Variable backend : Backend.
Variable toFixed : Q -> nat -> string.

(** *** api.ts *)

Definition previewRename (payload : RenamePreviewRequest) : App PreviewResponse :=
  invoke (preview_rename payload) (fun n => on_preview_rename backend n payload).
Definition executeRename (payload : RenamePreviewRequest) : App ExecuteResponse :=
  invoke (execute_rename payload) (fun n => on_execute_rename backend n payload).
Definition previewDelete (payload : DeletePreviewRequest) : App PreviewResponse :=
  invoke (preview_delete payload) (fun n => on_preview_delete backend n payload).
Definition executeDelete (payload : DeletePreviewRequest) : App ExecuteResponse :=
  invoke (execute_delete payload) (fun n => on_execute_delete backend n payload).
Definition previewFlatten (payload : FlattenPreviewRequest) : App PreviewResponse :=
  invoke (preview_flatten payload) (fun n => on_preview_flatten backend n payload).
Definition executeFlatten (payload : FlattenPreviewRequest) : App ExecuteResponse :=
  invoke (execute_flatten payload) (fun n => on_execute_flatten backend n payload).
Definition previewCompress (payload : CompressPreviewRequest) : App CompressPreviewResponse :=
  invoke (preview_compress payload) (fun n => on_preview_compress backend n payload).
Definition executeCompress (payload : CompressPreviewRequest) : App ExecuteResponse :=
  invoke (execute_compress payload) (fun n => on_execute_compress backend n payload).
Definition previewExifOffset (payload : ExifOffsetPreviewRequest) : App PreviewResponse :=
  invoke (preview_exif_offset payload) (fun n => on_preview_exif_offset backend n payload).
Definition executeExifOffset (payload : ExifOffsetPreviewRequest) : App ExecuteResponse :=
  invoke (execute_exif_offset payload) (fun n => on_execute_exif_offset backend n payload).
Definition previewMetadataStrip (payload : MetadataStripPreviewRequest) : App PreviewResponse :=
  invoke (preview_metadata_strip payload)
         (fun n => on_preview_metadata_strip backend n payload).
Definition executeMetadataStrip (payload : MetadataStripPreviewRequest) : App ExecuteResponse :=
  invoke (execute_metadata_strip payload)
         (fun n => on_execute_metadata_strip backend n payload).
Definition saveSettings (settings : AppSettings) : App unit :=
  invoke (save_settings settings) (fun n => on_save_settings backend n settings).
Definition importSettings (inputPath : string) (mode : ImportMode)
    (conflictPolicy : ImportPolicy) : App AppSettings :=
  invoke (import_settings inputPath mode conflictPolicy)
         (fun n => on_import_settings backend n inputPath mode conflictPolicy).
Definition previewImportConflicts (inputPath : string) : App ImportConflictPreview :=
  invoke (preview_import_conflicts inputPath)
         (fun n => on_preview_import_conflicts backend n inputPath).
Definition isDirectoryPath (path : string) : App bool :=
  invoke (is_directory_path path) (fun n => on_is_directory_path backend n path).

(** *** Values derived from the state ([useMemo]) *)

Definition renameFiles (s : AppState) : list string := parsePaths (renamePaths (renameForm s)).
Definition deleteFiles (s : AppState) : list string := parsePaths (deletePaths (deleteForm s)).
Definition compressFiles (s : AppState) : list string :=
  parsePaths (compressPaths (compressForm s)).
Definition exifOffsetFiles (s : AppState) : list string :=
  parsePaths (exifOffsetPaths (exifOffsetForm s)).
Definition metadataStripFiles (s : AppState) : list string :=
  parsePaths (metadataStripPaths (metadataStripForm s)).

Definition totalOffsetSeconds (s : AppState) : Z :=
  let f := exifOffsetForm s in
  let abs := exifOffsetDays f * 86400 + exifOffsetHours f * 3600
             + exifOffsetMinutes f * 60 + exifOffsetSeconds f in
  match exifOffsetSign f with
  | signPlus => abs
  | signMinus => - abs
  end.

(** *** The requests the forms build *)

Definition renameRequest (s : AppState) : RenamePreviewRequest :=
  let f := renameForm s in
  {| rn_inputPaths := renameFiles s;
     rn_includeSubfolders := renameSubfolders f;
     rn_template := renameTemplate f;
     rn_source := renameSource f;
     rn_outputDir := orNull (Js.trim (renameOutputDir f));
     rn_conflictPolicy := renameConflictPolicy f;
     rn_useFfprobe := useFfprobe f |}.

Definition deleteRequest (s : AppState) (extensions : list string) : DeletePreviewRequest :=
  let f := deleteForm s in
  {| dl_inputPaths := deleteFiles s;
     dl_includeSubfolders := deleteSubfolders f;
     dl_extensions := extensions;
     dl_mode := deleteMode f;
     dl_retreatDir := match deleteMode f with
                      | retreat => Some (Js.trim (deleteRetreatDir f))
                      | _ => None
                      end;
     dl_conflictPolicy := deleteConflictPolicy f |}.

Definition compressRequest (s : AppState) (targetSizeKb : option Z) : CompressPreviewRequest :=
  let f := compressForm s in
  {| cp_inputPaths := compressFiles s;
     cp_includeSubfolders := compressSubfolders f;
     cp_resizePercent := compressResizePercent f;
     cp_quality := compressQuality f;
     cp_targetSizeKb := targetSizeKb;
     cp_tolerancePercent := compressTolerancePercent f;
     cp_preserveExif := compressPreserveExif f;
     cp_outputDir := orNull (Js.trim (compressOutputDir f));
     cp_conflictPolicy := compressConflictPolicy f |}.

Definition flattenRequest (s : AppState) : FlattenPreviewRequest :=
  let f := flattenForm s in
  {| fl_inputDir := Js.trim (flattenInputDir f);
     fl_outputDir := orNull (Js.trim (flattenOutputDir f));
     fl_conflictPolicy := flattenConflictPolicy f |}.

Definition exifOffsetRequest (s : AppState) : ExifOffsetPreviewRequest :=
  {| ex_inputPaths := exifOffsetFiles s;
     ex_includeSubfolders := exifOffsetSubfolders (exifOffsetForm s);
     ex_offsetSeconds := totalOffsetSeconds s |}.

Definition metadataStripRequest (s : AppState) : MetadataStripPreviewRequest :=
  let f := metadataStripForm s in
  {| ms_inputPaths := metadataStripFiles s;
     ms_includeSubfolders := metadataStripSubfolders f;
     ms_preset := metadataStripPreset f;
     ms_categories := metadataStripCategories f |}.

(** *** Toasts and the busy wrapper *)

Definition addToast (type : ToastType) (message : string) : App unit :=
  update (fun st =>
    let id := toastIdRef (shell st) + 1 in
    setToasts (toasts (shell st)
               ++ [ {| toast_id := id; toast_type := type; toast_message := message |} ])
              (setToastIdRef id st)).

(** [run(action, label)]: the action's exception, if any, ends as an error
    toast; [run] itself never throws. *)
Definition run (action : App unit) (label : option string) : App unit :=
  update (setIsBusy true) ;;
  update (setBusyLabel label) ;;
  tryCatchFinally action
    (fun runError => addToast toastError (String_of_exn runError))
    (update (setIsBusy false) ;; update (setBusyLabel None)).

Definition clearProgress (key : string) : App unit :=
  update (fun st => setProgressMap (delete key (progressMap (shell st))) st).

Definition previewDoneMessage (ready total : Z) : string :=
  "プレビュー完了: " ++ showZ ready ++ "/" ++ showZ total ++ "件".

Definition execDoneMessage (title : string) (result : ExecuteResponse) : string :=
  title ++ ": 成功" ++ showZ (er_succeeded result) ++ "件"
  ++ (if 0 <? er_failed result then " / 失敗" ++ showZ (er_failed result) ++ "件" else "").

(** *** [previewCurrentTab] *)

Definition previewCurrentTab (s : AppState) (tabKey : TabKey) : App unit :=
  match tabKey with
  | tab_rename =>
      if isEmpty (renameFiles s) then ret tt else
      update (setRenameExec None) ;;
      let* result := previewRename (renameRequest s) in
      update (setRenamePreview (Some result))
  | tab_delete =>
      if isEmpty (deleteFiles s) then ret tt else
      let extensions := parseExts (deleteExtensions (deleteForm s)) in
      if isEmpty extensions then ret tt else
      update (setDeleteExec None) ;;
      let* delResult := previewDelete (deleteRequest s extensions) in
      if pv_total delResult =? 0 then
        update (setDeletePreview None) ;;
        addToast toastInfo "削除対象のファイルが見つかりませんでした。"
      else update (setDeletePreview (Some delResult))
  | tab_compress =>
      if isEmpty (compressFiles s) then ret tt else
      update (setCompressExec None) ;;
      let* preview := previewCompress (compressRequest s None) in
      update (setCompressPreview (Some preview))
  | tab_flatten =>
      if negb (Js.truthy (Js.trim (flattenInputDir (flattenForm s)))) then ret tt else
      update (setFlattenExec None) ;;
      let* result := previewFlatten (flattenRequest s) in
      update (setFlattenPreview (Some result))
  | tab_exif_offset =>
      if isEmpty (exifOffsetFiles s) then ret tt else
      update (setExifOffsetExec None) ;;
      let* result := previewExifOffset (exifOffsetRequest s) in
      update (setExifOffsetPreview (Some result))
  | tab_metadata_strip =>
      if isEmpty (metadataStripFiles s) then ret tt else
      update (setMetadataStripExec None) ;;
      let* result := previewMetadataStrip (metadataStripRequest s) in
      update (setMetadataStripPreview (Some result))
  | tab_settings | tab_about => ret tt
  end.

(** *** The [onSubmit] handlers of the six forms (the preview buttons) *)

Definition renameSubmit (s : AppState) : App unit :=
  run (if isEmpty (renameFiles s) then throw "入力パスを指定してください。" else
       update (setRenameExec None) ;;
       let* result := previewRename (renameRequest s) in
       update (setRenamePreview (Some result)) ;;
       addToast toastSuccess (previewDoneMessage (pv_ready result) (pv_total result)))
      None.

Definition deleteSubmit (s : AppState) : App unit :=
  run (if isEmpty (deleteFiles s) then throw "入力パスを指定してください。" else
       let extensions := parseExts (deleteExtensions (deleteForm s)) in
       if isEmpty extensions then throw "削除対象拡張子を指定してください。" else
       update (setDeleteExec None) ;;
       let* result := previewDelete (deleteRequest s extensions) in
       if pv_total result =? 0 then
         update (setDeletePreview None) ;;
         addToast toastInfo "削除対象のファイルが見つかりませんでした。"
       else
         update (setDeletePreview (Some result)) ;;
         addToast toastSuccess (previewDoneMessage (pv_ready result) (pv_total result)))
      None.

Definition compressSubmit (s : AppState) : App unit :=
  run (if isEmpty (compressFiles s) then throw "入力パスを指定してください。" else
       update (setCompressExec None) ;;
       let* preview := previewCompress (compressRequest s None) in
       update (setCompressPreview (Some preview)) ;;
       addToast toastSuccess (previewDoneMessage (cpv_ready preview) (cpv_total preview)))
      (Some "プレビュー中...").

Definition flattenSubmit (s : AppState) : App unit :=
  run (if negb (Js.truthy (Js.trim (flattenInputDir (flattenForm s))))
       then throw "入力フォルダを指定してください。" else
       update (setFlattenExec None) ;;
       let* result := previewFlatten (flattenRequest s) in
       update (setFlattenPreview (Some result)) ;;
       addToast toastSuccess (previewDoneMessage (pv_ready result) (pv_total result)))
      None.

Definition exifOffsetSubmit (s : AppState) : App unit :=
  run (if isEmpty (exifOffsetFiles s) then throw "入力パスを指定してください。" else
       if totalOffsetSeconds s =? 0 then throw "オフセットを指定してください。" else
       update (setExifOffsetExec None) ;;
       let* result := previewExifOffset (exifOffsetRequest s) in
       update (setExifOffsetPreview (Some result)) ;;
       addToast toastSuccess (previewDoneMessage (pv_ready result) (pv_total result)))
      None.

Definition metadataStripSubmit (s : AppState) : App unit :=
  run (if isEmpty (metadataStripFiles s) then throw "入力パスを指定してください。" else
       update (setMetadataStripExec None) ;;
       let* result := previewMetadataStrip (metadataStripRequest s) in
       update (setMetadataStripPreview (Some result)) ;;
       addToast toastSuccess (previewDoneMessage (pv_ready result) (pv_total result)))
      None.

(** The preview button of the tab that is showing. *)
Definition submitPreview (s : AppState) (tabKey : TabKey) : App unit :=
  match tabKey with
  | tab_rename => renameSubmit s
  | tab_delete => deleteSubmit s
  | tab_compress => compressSubmit s
  | tab_flatten => flattenSubmit s
  | tab_exif_offset => exifOffsetSubmit s
  | tab_metadata_strip => metadataStripSubmit s
  | tab_settings | tab_about => ret tt
  end.

(** *** The [onClick] handlers of the six execute buttons *)

Definition renameExecute (s : AppState) : App unit :=
  run (if isEmpty (renameFiles s) then throw "入力パスを指定してください。" else
       clearProgress "rename" ;;
       let* result := executeRename (renameRequest s) in
       update (setRenameExec (Some result)) ;;
       addToast toastSuccess (execDoneMessage "リネーム完了" result))
      None.

Definition deleteExecute (s : AppState) : App unit :=
  run (if isEmpty (deleteFiles s) then throw "入力パスを指定してください。" else
       let extensions := parseExts (deleteExtensions (deleteForm s)) in
       if isEmpty extensions then throw "削除対象拡張子を指定してください。" else
       clearProgress "delete" ;;
       let* result := executeDelete (deleteRequest s extensions) in
       update (setDeleteExec (Some result)) ;;
       addToast toastSuccess (execDoneMessage "削除完了" result))
      None.

Definition compressExecute (s : AppState) : App unit :=
  run (if isEmpty (compressFiles s) then throw "入力パスを指定してください。" else
       clearProgress "compress" ;;
       let* result := executeCompress (compressRequest s None) in
       update (setCompressExec (Some result)) ;;
       addToast toastSuccess (execDoneMessage "圧縮完了" result))
      (Some "実行中...").

Definition flattenExecute (s : AppState) : App unit :=
  run (if negb (Js.truthy (Js.trim (flattenInputDir (flattenForm s))))
       then throw "入力フォルダを指定してください。" else
       clearProgress "flatten" ;;
       let* result := executeFlatten (flattenRequest s) in
       update (setFlattenExec (Some result)) ;;
       addToast toastSuccess (execDoneMessage "展開完了" result))
      None.

Definition exifOffsetExecute (s : AppState) : App unit :=
  run (if isEmpty (exifOffsetFiles s) then throw "入力パスを指定してください。" else
       if totalOffsetSeconds s =? 0 then throw "オフセットを指定してください。" else
       clearProgress "exifOffset" ;;
       let* result := executeExifOffset (exifOffsetRequest s) in
       update (setExifOffsetExec (Some result)) ;;
       addToast toastSuccess (execDoneMessage "EXIF日時補正完了" result))
      (Some "実行中...").

Definition metadataStripExecute (s : AppState) : App unit :=
  run (if isEmpty (metadataStripFiles s) then throw "入力パスを指定してください。" else
       clearProgress "metadataStrip" ;;
       let* result := executeMetadataStrip (metadataStripRequest s) in
       update (setMetadataStripExec (Some result)) ;;
       addToast toastSuccess (execDoneMessage "個人情報削除完了" result))
      (Some "実行中...").

(** *** The target-size button of the compress tab *)

Definition compressCalc (s : AppState) : App unit :=
  run (match parsePositiveInt (compressTargetSizeKb (compressForm s)) with
       | None => throw "目標サイズは正の整数で指定してください。"
       | Some parsed =>
           let targetSizeKb := parsed * UNIT_TO_KB (compressTargetSizeUnit (compressForm s)) in
           update (setCompressExec None) ;;
           let* preview := previewCompress (compressRequest s (Some targetSizeKb)) in
           update (setCompressPreview (Some preview)) ;;
           update (setCompressResizePercent (Math_round (cpv_effectiveResizePercent preview))) ;;
           update (setCompressQuality (cpv_effectiveQuality preview)) ;;
           addToast toastSuccess
             ("パラメータを自動計算しました: リサイズ "
              ++ toFixed (cpv_effectiveResizePercent preview) 1 ++ "% / 品質 "
              ++ showZ (cpv_effectiveQuality preview))
       end)
      (Some "計算中...").

(** *** Settings import *)

Definition applySettingsToInputs (next : AppSettings) : App unit :=
  update (setSettings next) ;;
  update (setRenameOutputDir (default "" (outputDirectories next !! "rename"))) ;;
  update (setDeleteRetreatDir (default "" (outputDirectories next !! "delete_retreat"))) ;;
  update (setCompressOutputDir (default "" (outputDirectories next !! "compress"))) ;;
  update (setFlattenOutputDir (default "" (outputDirectories next !! "flatten"))).

Definition refreshImportConflicts (s : AppState) : App (option ImportConflictPreview) :=
  if negb (Js.truthy (Js.trim (importPath (importForm s)))) then
    throw "インポート元JSONパスを指定してください。"
  else
    match importMode (importForm s) with
    | importOverwrite =>
        update (setImportConflictPreview None) ;;
        ret None
    | importMerge =>
        let* preview := previewImportConflicts (Js.trim (importPath (importForm s))) in
        update (setImportConflictPreview (Some preview)) ;;
        ret (Some preview)
    end.

(** The conflict-check button. *)
Definition importCheck (s : AppState) : App unit :=
  run (let* _ := refreshImportConflicts s in ret tt) None.

(** The import button. *)
Definition importClick (s : AppState) : App unit :=
  let f := importForm s in
  run (if negb (Js.truthy (Js.trim (importPath f))) then
         throw "インポート元パスを指定してください。"
       else
         (match importMode f, importConflictPreview f with
          | importMerge, None =>
              let* checked := refreshImportConflicts s in
              if hasImportConflicts checked then
                throw "衝突が見つかりました。方針を確認して再実行してください。"
              else ret tt
          | _, _ => ret tt
          end) ;;
         let* next := importSettings (Js.trim (importPath f)) (importMode f)
                                     (importConflictPolicy f) in
         applySettingsToInputs next ;;
         update (setSettingsStatus "設定をインポートしました。"))
      None.

(** *** Paths arriving from a dialog or a drop *)

Definition pathsAddedMessage (paths : list string) : string :=
  showZ (Z.of_nat (length paths)) ++ "件のパスを追加しました".

(** The [for] loop of the flatten case: the first directory wins. *)
Fixpoint firstDirectory (paths : list string) : App unit :=
  match paths with
  | [] => throw "フォルダ展開はフォルダ入力のみ対応です。"
  | path :: rest =>
      let* isDir := isDirectoryPath path in
      if isDir then
        update (setFlattenInputDir path) ;;
        addToast toastInfo "入力フォルダを設定しました"
      else firstDirectory rest
  end.

Definition applyPathsToCurrentTab (incoming : list string) : App unit :=
  let paths := List.filter Js.truthy incoming in
  if isEmpty paths then ret tt else
  let* now := live in
  match tab (shell now) with
  | tab_rename =>
      update (fun st => setRenamePaths (mergePathText (renamePaths (renameForm st)) paths) st) ;;
      addToast toastInfo (pathsAddedMessage paths)
  | tab_delete =>
      update (fun st => setDeletePaths (mergePathText (deletePaths (deleteForm st)) paths) st) ;;
      addToast toastInfo (pathsAddedMessage paths)
  | tab_compress =>
      update (fun st =>
        setCompressPaths (mergePathText (compressPaths (compressForm st)) paths) st) ;;
      addToast toastInfo (pathsAddedMessage paths)
  | tab_flatten => firstDirectory paths
  | tab_exif_offset =>
      update (fun st =>
        setExifOffsetPaths (mergePathText (exifOffsetPaths (exifOffsetForm st)) paths) st) ;;
      addToast toastInfo (pathsAddedMessage paths)
  | tab_metadata_strip =>
      update (fun st =>
        setMetadataStripPaths
          (mergePathText (metadataStripPaths (metadataStripForm st)) paths) st) ;;
      addToast toastInfo (pathsAddedMessage paths)
  | tab_settings | tab_about => ret tt
  end.

(** The drop branch of the window's drag-and-drop listener.  [s] is the
    render whose [previewCurrentTab] the listener closed over. *)
Definition onDrop (s : AppState) (paths : list string) : App unit :=
  run (let* now := live in
       let currentTab := tab (shell now) in
       applyPathsToCurrentTab paths ;;
       previewCurrentTab s currentTab)
      None.

(** *** The tabs as reactive systems

    An event runs its handler to completion on the world.  A handler that
    belongs to a rendered element is the one of the current render, so its
    snapshot is the live state.  The drag-and-drop listener is registered
    once, by an effect whose dependency list is empty, and therefore keeps
    the handlers of the first render: its snapshot is [initialState]. *)

Definition settle (m : App unit) (w : World) : World := snd (m w).

Inductive CompressEvent :=
| SelectTab (key : TabKey)
| EditCompressPaths (value : string)
| SlideResizePercent (value : string)
| SlideQuality (value : string)
| EditTargetSize (value : string)
| SelectTargetUnit (unit : SizeUnit)
| PressPreview
| PressCalc
| PressExecute
| DropPaths (paths : list string).

Definition compressStep (w : World) (e : CompressEvent) : World :=
  match e with
  | SelectTab key => settle (update (setTab key)) w
  | EditCompressPaths value => settle (update (onChangeCompressPaths value)) w
  | SlideResizePercent value => settle (update (onChangeCompressResizePercent value)) w
  | SlideQuality value => settle (update (onChangeCompressQuality value)) w
  | EditTargetSize value => settle (update (setCompressTargetSizeKb value)) w
  | SelectTargetUnit unit => settle (update (setCompressTargetSizeUnit unit)) w
  | PressPreview => settle (compressSubmit (ui w)) w
  | PressCalc => settle (compressCalc (ui w)) w
  | PressExecute => settle (compressExecute (ui w)) w
  | DropPaths paths => settle (onDrop initialState paths) w
  end.

Definition compressRun (events : list CompressEvent) : World :=
  fold_left compressStep events initialWorld.

(** For the EXIF offset tab every synchronous change handler of the
    component is covered at once by [Rerender]. *)
Inductive ExifOffsetEvent :=
| Rerender (change : AppState -> AppState)
| PressExifOffsetPreview
| PressExifOffsetExecute
| DropOnWindow (paths : list string).

Definition exifOffsetStep (w : World) (e : ExifOffsetEvent) : World :=
  match e with
  | Rerender change => settle (update change) w
  | PressExifOffsetPreview => settle (exifOffsetSubmit (ui w)) w
  | PressExifOffsetExecute => settle (exifOffsetExecute (ui w)) w
  | DropOnWindow paths => settle (onDrop initialState paths) w
  end.

Definition exifOffsetRun (events : list ExifOffsetEvent) : World :=
  fold_left exifOffsetStep events initialWorld.

(** *** The debounced autosave of the output directories

    The effect whose dependencies are the four output-directory hooks.  Time
    is a logical clock in milliseconds; [window.setTimeout] queues a timer
    that fires when the clock reaches its due time unless it is cleared
    first.  A timer keeps the render it was created in. *)

Inductive OutputField := fieldRename | fieldDeleteRetreat | fieldCompress | fieldFlatten.

Record Timer := {
  timer_id : nat;
  timer_due : nat;
  timer_render : AppState
}.

Record Runtime := {
  page : World;
  settingsRef : AppSettings;
  settingsLoadedRef : bool;
  outputSaveTimerRef : option nat;
  cleanupArmed : bool;
  timers : list Timer;
  nextTimerId : nat;
  clock : nat
}.

Definition mounted : Runtime :=
  {| page := initialWorld; settingsRef := DEFAULT_SETTINGS; settingsLoadedRef := false;
     outputSaveTimerRef := None; cleanupArmed := false; timers := [];
     nextTimerId := 1; clock := 0 |}.

(** [withOutputDirectories]; the timer callback builds the same object from
    [settingsRef.current]. *)
Definition withOutputDirectories (base : AppSettings) (s : AppState) : AppSettings :=
  {| deletePatterns := deletePatterns base;
     renameTemplates := renameTemplates base;
     outputDirectories :=
       <["flatten" := Js.trim (flattenOutputDir (flattenForm s))]>
         (<["compress" := Js.trim (compressOutputDir (compressForm s))]>
            (<["delete_retreat" := Js.trim (deleteRetreatDir (deleteForm s))]>
               (<["rename" := Js.trim (renameOutputDir (renameForm s))]>
                  (outputDirectories base))));
     theme := theme base |}.

Definition clearTimeout (id : nat) (rt : Runtime) : Runtime :=
  {| page := page rt; settingsRef := settingsRef rt;
     settingsLoadedRef := settingsLoadedRef rt;
     outputSaveTimerRef := outputSaveTimerRef rt; cleanupArmed := cleanupArmed rt;
     timers := List.filter (fun tm => negb (timer_id tm =? id)%nat) (timers rt);
     nextTimerId := nextTimerId rt; clock := clock rt |}.

(** [if (outputSaveTimerRef.current !== null) window.clearTimeout(...)] *)
Definition clearOutputSaveTimer (rt : Runtime) : Runtime :=
  match outputSaveTimerRef rt with
  | Some id => clearTimeout id rt
  | None => rt
  end.

(** The body of the effect, run after a render in which one of the four
    hooks changed. *)
Definition outputDirectoriesEffect (rt : Runtime) : Runtime :=
  if negb (settingsLoadedRef rt) then
    {| page := page rt; settingsRef := settingsRef rt;
       settingsLoadedRef := settingsLoadedRef rt;
       outputSaveTimerRef := outputSaveTimerRef rt; cleanupArmed := false;
       timers := timers rt; nextTimerId := nextTimerId rt; clock := clock rt |}
  else
    let rt1 := clearOutputSaveTimer rt in
    let id := nextTimerId rt1 in
    {| page := page rt1; settingsRef := settingsRef rt1;
       settingsLoadedRef := settingsLoadedRef rt1;
       outputSaveTimerRef := Some id; cleanupArmed := true;
       timers := timers rt1
                 ++ [ {| timer_id := id; timer_due := clock rt1 + 400;
                         timer_render := ui (page rt1) |} ];
       nextTimerId := S id; clock := clock rt1 |}.

(** A render with changed dependencies: the cleanup of the previous run,
    if it returned one, then the body. *)
Definition rerunOutputDirectoriesEffect (rt : Runtime) : Runtime :=
  outputDirectoriesEffect (if cleanupArmed rt then clearOutputSaveTimer rt else rt).

(** The callback handed to [setTimeout]. *)
Definition outputSaveCallback (s : AppState) (rt : Runtime) : Runtime :=
  let next := withOutputDirectories (settingsRef rt) s in
  {| page := settle (update (setSettings next) ;;
                     tryCatchFinally (saveSettings next)
                       (fun saveError => addToast toastError (String_of_exn saveError))
                       (ret tt))
                    (page rt);
     settingsRef := next;
     settingsLoadedRef := settingsLoadedRef rt;
     outputSaveTimerRef := outputSaveTimerRef rt; cleanupArmed := cleanupArmed rt;
     timers := timers rt; nextTimerId := nextTimerId rt; clock := clock rt |}.

Definition outputField (field : OutputField) (s : AppState) : string :=
  match field with
  | fieldRename => renameOutputDir (renameForm s)
  | fieldDeleteRetreat => deleteRetreatDir (deleteForm s)
  | fieldCompress => compressOutputDir (compressForm s)
  | fieldFlatten => flattenOutputDir (flattenForm s)
  end.

Definition setOutputField (field : OutputField) (value : string) : AppState -> AppState :=
  match field with
  | fieldRename => setRenameOutputDir value
  | fieldDeleteRetreat => setDeleteRetreatDir value
  | fieldCompress => setCompressOutputDir value
  | fieldFlatten => setFlattenOutputDir value
  end.

Definition sameOutputDirs (a b : AppState) : bool :=
  String.eqb (renameOutputDir (renameForm a)) (renameOutputDir (renameForm b))
  && String.eqb (deleteRetreatDir (deleteForm a)) (deleteRetreatDir (deleteForm b))
  && String.eqb (compressOutputDir (compressForm a)) (compressOutputDir (compressForm b))
  && String.eqb (flattenOutputDir (flattenForm a)) (flattenOutputDir (flattenForm b)).

Definition onPage (m : App unit) (rt : Runtime) : Runtime :=
  {| page := settle m (page rt); settingsRef := settingsRef rt;
     settingsLoadedRef := settingsLoadedRef rt;
     outputSaveTimerRef := outputSaveTimerRef rt; cleanupArmed := cleanupArmed rt;
     timers := timers rt; nextTimerId := nextTimerId rt; clock := clock rt |}.

(** The clock moves on by [ms]; the timers that fall due fire in the order
    in which they were queued. *)
Definition elapse (ms : nat) (rt : Runtime) : Runtime :=
  let limit := (clock rt + ms)%nat in
  let due := List.filter (fun tm => (timer_due tm <=? limit)%nat) (timers rt) in
  let rest := List.filter (fun tm => negb (timer_due tm <=? limit)%nat) (timers rt) in
  fold_left (fun r tm => outputSaveCallback (timer_render tm) r) due
    {| page := page rt; settingsRef := settingsRef rt;
       settingsLoadedRef := settingsLoadedRef rt;
       outputSaveTimerRef := outputSaveTimerRef rt; cleanupArmed := cleanupArmed rt;
       timers := rest; nextTimerId := nextTimerId rt; clock := limit |}.

Inductive AutosaveEvent :=
| SettingsLoaded (loaded : AppSettings)
| EditOutputDir (field : OutputField) (value : string)
| Elapse (ms : nat).

(** [SettingsLoaded] is the success branch of the mount effect: the four
    hooks are filled from the loaded settings, [settingsLoadedRef] is set,
    and the batched render follows.  An edit that leaves the hook as it was
    does not render. *)
Definition autosaveStep (rt : Runtime) (e : AutosaveEvent) : Runtime :=
  match e with
  | SettingsLoaded loaded =>
      let before := ui (page rt) in
      let rt1 := onPage (applySettingsToInputs loaded) rt in
      let rt2 :=
        {| page := page rt1; settingsRef := loaded; settingsLoadedRef := true;
           outputSaveTimerRef := outputSaveTimerRef rt1; cleanupArmed := cleanupArmed rt1;
           timers := timers rt1; nextTimerId := nextTimerId rt1; clock := clock rt1 |} in
      if sameOutputDirs before (ui (page rt2)) then rt2
      else rerunOutputDirectoriesEffect rt2
  | EditOutputDir field value =>
      if String.eqb (outputField field (ui (page rt))) value then rt
      else rerunOutputDirectoriesEffect (onPage (update (setOutputField field value)) rt)
  | Elapse ms => elapse ms rt
  end.

Definition autosaveRun (rt : Runtime) (events : list AutosaveEvent) : Runtime :=
  fold_left autosaveStep events rt.

(** A burst: the first edit, then further edits each after a pause. *)
Definition burst (first : OutputField * string)
    (more : list (nat * (OutputField * string))) : list AutosaveEvent :=
  EditOutputDir (fst first) (snd first)
  :: flat_map (fun p => [Elapse (fst p); EditOutputDir (fst (snd p)) (snd (snd p))]) more.

(** Every edit of the burst changes the hook it writes. *)
Fixpoint allChange (s : AppState) (edits : list (OutputField * string)) : bool :=
  match edits with
  | [] => true
  | (field, value) :: rest =>
      negb (String.eqb (outputField field s) value)
      && allChange (setOutputField field value s) rest
  end.

Definition applyEdits (s : AppState) (edits : list (OutputField * string)) : AppState :=
  fold_left (fun st e => setOutputField (fst e) (snd e) st) edits s.

End Client.

(** ** The size summary of the compress tab

    [Math.pow] on a positive base is [Rpower]; on zero with a positive
    exponent it is zero; on a negative base with a fractional exponent it is
    NaN, which is [None] here and absorbs the products it enters. *)

Definition Math_pow (x y : R) : option R :=
  if Rlt_dec 0 x then Some (Rpower x y)
  else if Req_dec_T x 0 then Some 0%R
  else None.

Record CompressSizeSummary := {
  totalSource : R;
  totalEstimated : option R;
  targetBytes : option Z;
  isSampled : bool
}.

Definition compressSizeSummary (s : AppState) : option CompressSizeSummary :=
  let f := compressForm s in
  match compressSourceInfo f with
  | None => None
  | Some info =>
      let totalSource := IZR (totalSize info) in
      let totalEstimated :=
        match compressEstimateResult f with
        | Some estimate => Some (IZR (estimatedTotalSize estimate))
        | None =>
            let resizeRatio := (IZR (compressResizePercent f) / 100)%R in
            let qualityFactor := Math_pow (IZR (compressQuality f) / 100)%R 1.25%R in
            option_map (fun qf => (totalSource * resizeRatio * resizeRatio * qf)%R)
                       qualityFactor
        end in
      let parsed := parsePositiveInt (compressTargetSizeKb f) in
      let targetBytes :=
        option_map (fun p => p * UNIT_TO_KB (compressTargetSizeUnit f) * 1024) parsed in
      Some {| totalSource := totalSource; totalEstimated := totalEstimated;
              targetBytes := targetBytes;
              isSampled := match compressEstimateResult f with
                           | Some _ => true
                           | None => false
                           end |}
  end.

(** The estimate of the planner as the specification words it, item by
    item: the sum of [source_i * (r/100)^2 * (q/100)^1.25]. *)
Definition plannerModel (sources : list Z) (r q : Z) : R :=
  fold_right (fun source acc =>
                (IZR source * (IZR r / 100) ^ 2 * Rpower (IZR q / 100) 1.25 + acc)%R)
             0%R sources.

(** ** Predicates used in the statements *)

(** Every character of [s] satisfies [p]. *)
Fixpoint allChars (p : ascii -> bool) (s : string) : bool :=
  match s with
  | EmptyString => true
  | String c s' => p c && allChars p s'
  end.

Definition startsWithDot (s : string) : bool :=
  match s with String c _ => Js.isDot c | EmptyString => false end.

Definition startsWithTwoDots (s : string) : bool :=
  match s with
  | String c s' => Js.isDot c && startsWithDot s'
  | EmptyString => false
  end.

(** An extension in the form the engine's ExtensionSet wants it. *)
Definition normalisedExt (e : string) : Prop :=
  e <> "" /\ Js.toLowerCase e = e /\ startsWithDot e = false.

(** The first occurrences of a list, in order. *)
Fixpoint firstOccurrences (l : list string) : list string :=
  match l with
  | [] => []
  | x :: xs => x :: List.filter (fun y => negb (String.eqb x y)) (firstOccurrences xs)
  end.

(** A path that the path text area can hold: parsing it gives it back. *)
Definition holdsPath (p : string) : Prop := parsePaths p = [p].

(** Membership in an insertion-ordered set, negated. *)
Definition notIn (acc : list string) (x : string) : bool := negb (Js.Set_has acc x).

(** Neither a comma nor a line feed. *)
Definition plainChar (c : ascii) : bool := negb (Js.isComma c || Js.isLF c).

(** The last character of a string, if any, is not white space. *)
Fixpoint tidyEnd (s : string) : bool :=
  match s with
  | EmptyString => true
  | String c EmptyString => negb (Js.isWhiteSpace c)
  | String _ s' => tidyEnd s'
  end.

(** The first character of a string, if any, is not white space. *)
Definition tidyStart (s : string) : bool :=
  match s with
  | EmptyString => true
  | String c _ => negb (Js.isWhiteSpace c)
  end.

(** What [parsePaths] returns: non-empty, free of commas and line feeds,
    trimmed. *)
Definition cleanPath (p : string) : Prop :=
  p <> "" /\ allChars plainChar p = true /\ tidyStart p = true /\ tidyEnd p = true.

(** The preview command of api.ts that belongs to a tab. *)
Definition previewCommand (tabKey : TabKey) : option string :=
  match tabKey with
  | tab_rename => Some "preview_rename"
  | tab_delete => Some "preview_delete"
  | tab_compress => Some "preview_compress"
  | tab_flatten => Some "preview_flatten"
  | tab_exif_offset => Some "preview_exif_offset"
  | tab_metadata_strip => Some "preview_metadata_strip"
  | tab_settings | tab_about => None
  end.

(** The execute result a tab keeps ([renameExec], [deleteExec], ...). *)
Definition storedExecResult (tabKey : TabKey) (s : AppState) : option ExecuteResponse :=
  match tabKey with
  | tab_rename => renameExec (renameForm s)
  | tab_delete => deleteExec (deleteForm s)
  | tab_compress => compressExec (compressForm s)
  | tab_flatten => flattenExec (flattenForm s)
  | tab_exif_offset => exifOffsetExec (exifOffsetForm s)
  | tab_metadata_strip => metadataStripExec (metadataStripForm s)
  | tab_settings | tab_about => None
  end.

(** The input check at the head of [previewCurrentTab], tab by tab: paths
    have been entered (on the delete tab extensions too, on the flatten tab
    an input folder). *)
Definition inputsPresent (tabKey : TabKey) (s : AppState) : bool :=
  match tabKey with
  | tab_rename => negb (isEmpty (renameFiles s))
  | tab_delete =>
      negb (isEmpty (deleteFiles s))
      && negb (isEmpty (parseExts (deleteExtensions (deleteForm s))))
  | tab_compress => negb (isEmpty (compressFiles s))
  | tab_flatten => Js.truthy (Js.trim (flattenInputDir (flattenForm s)))
  | tab_exif_offset => negb (isEmpty (exifOffsetFiles s))
  | tab_metadata_strip => negb (isEmpty (metadataStripFiles s))
  | tab_settings | tab_about => false
  end.

(** The checks of the preview button: the same, and on the EXIF offset tab
    an offset other than zero. *)
Definition submitAccepts (tabKey : TabKey) (s : AppState) : bool :=
  inputsPresent tabKey s
  && match tabKey with
     | tab_exif_offset => negb (totalOffsetSeconds s =? 0)
     | _ => true
     end.

(** The check of the target-size button: the target parses. *)
Definition targetGiven (s : AppState) : bool :=
  match parsePositiveInt (compressTargetSizeKb (compressForm s)) with
  | Some _ => true
  | None => false
  end.

(** What a preview flow of a tab has done between two worlds.  When its
    checks pass it has made one call, the [preview_*] command of the tab,
    and the execute result of the tab is cleared; when they do not, it has
    made no call and the execute result is the one that was kept. *)
Definition previewedOnce (tabKey : TabKey) (accepted : bool) (before after : World) : Prop :=
  if accepted then
    (exists call,
       ipc after = (ipc before ++ [call])%list
       /\ previewCommand tabKey = Some (commandName call)
       /\ isExecute call = false /\ isMutating call = false)
    /\ storedExecResult tabKey (ui after) = None
  else
    ipc after = ipc before
    /\ storedExecResult tabKey (ui after) = storedExecResult tabKey (ui before).

(** An error toast has been added to the ones that were showing. *)
Definition errorShown (before after : World) : Prop :=
  exists message,
    toasts (shell (ui after))
    = (toasts (shell (ui before))
       ++ [ {| toast_id := toastIdRef (shell (ui before)) + 1;
               toast_type := toastError;
               toast_message := message |} ])%list.

(** A delete request, preview or execute, with its payload. *)
Definition deleteRequestOf (call : IpcCall) : option DeletePreviewRequest :=
  match call with
  | preview_delete request | execute_delete request => Some request
  | _ => None
  end.

Definition exifOffsetRequestOf (call : IpcCall) : option ExifOffsetPreviewRequest :=
  match call with
  | preview_exif_offset request | execute_exif_offset request => Some request
  | _ => None
  end.

Definition compressRequestOf (call : IpcCall) : option CompressPreviewRequest :=
  match call with
  | preview_compress request | execute_compress request => Some request
  | _ => None
  end.

Definition metadataStripRequestOf (call : IpcCall) : option MetadataStripPreviewRequest :=
  match call with
  | preview_metadata_strip request | execute_metadata_strip request => Some request
  | _ => None
  end.

(** An engine that resolves every call with an empty result; it serves as a
    concrete instance. *)
Definition emptyPreview : PreviewResponse :=
  {| pv_items := []; pv_total := 0; pv_ready := 0; pv_skipped := 0 |}.
Definition emptyExecution : ExecuteResponse :=
  {| er_processed := 0; er_succeeded := 0; er_failed := 0; er_skipped := 0;
     er_details := [] |}.
Definition quietEngine : Backend :=
  {| on_preview_rename := fun _ _ => Resolved emptyPreview;
     on_execute_rename := fun _ _ => Resolved emptyExecution;
     on_preview_delete := fun _ _ => Resolved emptyPreview;
     on_execute_delete := fun _ _ => Resolved emptyExecution;
     on_preview_flatten := fun _ _ => Resolved emptyPreview;
     on_execute_flatten := fun _ _ => Resolved emptyExecution;
     on_preview_compress := fun _ _ =>
       Resolved {| cpv_outputDir := "";
                   cpv_effectiveResizePercent := 125 # 2;
                   cpv_effectiveQuality := 70;
                   cpv_items := []; cpv_total := 0; cpv_ready := 0; cpv_skipped := 0;
                   cpv_warnings := 0 |};
     on_execute_compress := fun _ _ => Resolved emptyExecution;
     on_preview_exif_offset := fun _ _ => Resolved emptyPreview;
     on_execute_exif_offset := fun _ _ => Resolved emptyExecution;
     on_preview_metadata_strip := fun _ _ => Resolved emptyPreview;
     on_execute_metadata_strip := fun _ _ => Resolved emptyExecution;
     on_save_settings := fun _ _ => Resolved tt;
     on_import_settings := fun _ _ _ _ => Resolved DEFAULT_SETTINGS;
     on_preview_import_conflicts := fun _ _ =>
       Resolved {| deletePatternNames := ["temps"]; renameTemplateNames := [];
                   outputDirectoryKeys := []; themeConflict := false |};
     on_is_directory_path := fun _ _ => Resolved true |}.

(** An engine whose target-size solver settles on a resize of 0.4 per cent
    at quality 1; in everything else it is [quietEngine]. *)
Definition steepSolver : Backend :=
  {| on_preview_rename := on_preview_rename quietEngine;
     on_execute_rename := on_execute_rename quietEngine;
     on_preview_delete := on_preview_delete quietEngine;
     on_execute_delete := on_execute_delete quietEngine;
     on_preview_flatten := on_preview_flatten quietEngine;
     on_execute_flatten := on_execute_flatten quietEngine;
     on_preview_compress := fun _ _ =>
       Resolved {| cpv_outputDir := "";
                   cpv_effectiveResizePercent := 2 # 5;
                   cpv_effectiveQuality := 1;
                   cpv_items := []; cpv_total := 0; cpv_ready := 0; cpv_skipped := 0;
                   cpv_warnings := 0 |};
     on_execute_compress := on_execute_compress quietEngine;
     on_preview_exif_offset := on_preview_exif_offset quietEngine;
     on_execute_exif_offset := on_execute_exif_offset quietEngine;
     on_preview_metadata_strip := on_preview_metadata_strip quietEngine;
     on_execute_metadata_strip := on_execute_metadata_strip quietEngine;
     on_save_settings := on_save_settings quietEngine;
     on_import_settings := on_import_settings quietEngine;
     on_preview_import_conflicts := on_preview_import_conflicts quietEngine;
     on_is_directory_path := on_is_directory_path quietEngine |}.

(** [m] keeps the property [I] of worlds. *)
Definition preserves {A} (I : World -> Prop) (m : App A) : Prop :=
  forall w, I w -> I (snd (m w)).

(** An EXIF offset request, if the call is one, shifts by a non-zero amount. *)
Definition nonzeroOffset (call : IpcCall) : Prop :=
  forall request, exifOffsetRequestOf call = Some request -> ex_offsetSeconds request <> 0.

Definition percent (x : Z) : Prop := 1 <= x <= 100.

(** A compress request, if the call is one, has both parameters in 1..100. *)
Definition percentParameters (call : IpcCall) : Prop :=
  forall request, compressRequestOf call = Some request ->
    percent (cp_resizePercent request) /\ percent (cp_quality request).

(** The engine answers a target-size request with effective parameters
    that, once rounded as the client rounds them, are percentages. *)
Definition solverInRange (backend : Backend) : Prop :=
  forall n request targetSizeKb preview,
    cp_targetSizeKb request = Some targetSizeKb ->
    on_preview_compress backend n request = Resolved preview ->
    percent (Math_round (cpv_effectiveResizePercent preview))
    /\ percent (cpv_effectiveQuality preview).

(** Every call in the log of [w] satisfies [Q]. *)
Definition logged (Q : IpcCall -> Prop) (w : World) : Prop := Forall Q (ipc w).

(** What holds of the compress tab at all times. *)
Definition compressInvariant (w : World) : Prop :=
  percent (compressResizePercent (compressForm (ui w)))
  /\ percent (compressQuality (compressForm (ui w)))
  /\ logged percentParameters w.

(** Concrete states that serve as instances. *)
Definition sampleCompressState : AppState :=
  inCompressForm (fun f =>
    {| compressPaths := "C:/in/a.jpg"; compressSubfolders := compressSubfolders f;
       compressResizePercent := compressResizePercent f;
       compressQuality := compressQuality f;
       compressTargetSizeKb := compressTargetSizeKb f;
       compressTargetSizeUnit := compressTargetSizeUnit f;
       compressTolerancePercent := compressTolerancePercent f;
       compressPreserveExif := compressPreserveExif f;
       compressOutputDir := compressOutputDir f;
       compressConflictPolicy := compressConflictPolicy f;
       compressSourceInfo := Some {| fileCount := 2; totalSize := 1000 |};
       compressEstimateResult := None;
       compressPreview := compressPreview f; compressExec := compressExec f |})
    initialState.

Definition sampleImportState : AppState :=
  setTab tab_settings
    (inImportForm (fun f =>
       {| importPath := " C:/backup/settings.json ";
          importMode := importMode f;
          importConflictPolicy := importConflictPolicy f;
          importConflictPreview := importConflictPreview f |}) initialState).

Definition sampleRenameState : AppState :=
  setRenameExec (Some emptyExecution) (setRenamePaths "C:/in/IMG.JPG" initialState).

(** A save is pending: exactly one timer is queued, it is the one the ref
    holds, it is due 400 ms after the present instant and it keeps the
    present render. *)
Definition savePending (rt : Runtime) : Prop :=
  settingsLoadedRef rt = true
  /\ exists tm,
       timers rt = [tm]
       /\ timer_due tm = (clock rt + 400)%nat
       /\ timer_render tm = ui (page rt)
       /\ outputSaveTimerRef rt = Some (timer_id tm).

(** At most one timer is queued, and the ref holds it. *)
Definition oneTimer (rt : Runtime) : Prop :=
  timers rt = []
  \/ exists tm, timers rt = [tm] /\ outputSaveTimerRef rt = Some (timer_id tm).

(** An event other than the arrival of the settings. *)
Definition beforeLoad (e : AutosaveEvent) : Prop :=
  match e with
  | SettingsLoaded _ => False
  | _ => True
  end.

(** ** Further parts of the client

    What follows embeds handlers, effects and helpers of App.tsx beyond the
    ones above, with the same conventions.

    *** The remaining state setters *)

Definition setRenameSubfolders (v : bool) : AppState -> AppState :=
  inRenameForm (fun r =>
    {| renamePaths := renamePaths r;
       renameSubfolders := v;
       renameTemplate := renameTemplate r;
       renameSource := renameSource r;
       renameOutputDir := renameOutputDir r;
       renameConflictPolicy := renameConflictPolicy r;
       useFfprobe := useFfprobe r;
       renamePreview := renamePreview r;
       renameExec := renameExec r |}).

Definition setRenameTemplate (v : string) : AppState -> AppState :=
  inRenameForm (fun r =>
    {| renamePaths := renamePaths r;
       renameSubfolders := renameSubfolders r;
       renameTemplate := v;
       renameSource := renameSource r;
       renameOutputDir := renameOutputDir r;
       renameConflictPolicy := renameConflictPolicy r;
       useFfprobe := useFfprobe r;
       renamePreview := renamePreview r;
       renameExec := renameExec r |}).

Definition setRenameSource (v : RenameSource) : AppState -> AppState :=
  inRenameForm (fun r =>
    {| renamePaths := renamePaths r;
       renameSubfolders := renameSubfolders r;
       renameTemplate := renameTemplate r;
       renameSource := v;
       renameOutputDir := renameOutputDir r;
       renameConflictPolicy := renameConflictPolicy r;
       useFfprobe := useFfprobe r;
       renamePreview := renamePreview r;
       renameExec := renameExec r |}).

Definition setRenameConflictPolicy (v : ConflictPolicy) : AppState -> AppState :=
  inRenameForm (fun r =>
    {| renamePaths := renamePaths r;
       renameSubfolders := renameSubfolders r;
       renameTemplate := renameTemplate r;
       renameSource := renameSource r;
       renameOutputDir := renameOutputDir r;
       renameConflictPolicy := v;
       useFfprobe := useFfprobe r;
       renamePreview := renamePreview r;
       renameExec := renameExec r |}).

Definition setUseFfprobe (v : bool) : AppState -> AppState :=
  inRenameForm (fun r =>
    {| renamePaths := renamePaths r;
       renameSubfolders := renameSubfolders r;
       renameTemplate := renameTemplate r;
       renameSource := renameSource r;
       renameOutputDir := renameOutputDir r;
       renameConflictPolicy := renameConflictPolicy r;
       useFfprobe := v;
       renamePreview := renamePreview r;
       renameExec := renameExec r |}).

Definition setDeleteSubfolders (v : bool) : AppState -> AppState :=
  inDeleteForm (fun r =>
    {| deletePaths := deletePaths r;
       deleteSubfolders := v;
       deleteExtensions := deleteExtensions r;
       deleteMode := deleteMode r;
       deleteRetreatDir := deleteRetreatDir r;
       deleteConflictPolicy := deleteConflictPolicy r;
       deletePreview := deletePreview r;
       deleteExec := deleteExec r |}).

Definition setDeleteExtensions (v : string) : AppState -> AppState :=
  inDeleteForm (fun r =>
    {| deletePaths := deletePaths r;
       deleteSubfolders := deleteSubfolders r;
       deleteExtensions := v;
       deleteMode := deleteMode r;
       deleteRetreatDir := deleteRetreatDir r;
       deleteConflictPolicy := deleteConflictPolicy r;
       deletePreview := deletePreview r;
       deleteExec := deleteExec r |}).

Definition setDeleteMode (v : DeleteMode) : AppState -> AppState :=
  inDeleteForm (fun r =>
    {| deletePaths := deletePaths r;
       deleteSubfolders := deleteSubfolders r;
       deleteExtensions := deleteExtensions r;
       deleteMode := v;
       deleteRetreatDir := deleteRetreatDir r;
       deleteConflictPolicy := deleteConflictPolicy r;
       deletePreview := deletePreview r;
       deleteExec := deleteExec r |}).

Definition setDeleteConflictPolicy (v : ConflictPolicy) : AppState -> AppState :=
  inDeleteForm (fun r =>
    {| deletePaths := deletePaths r;
       deleteSubfolders := deleteSubfolders r;
       deleteExtensions := deleteExtensions r;
       deleteMode := deleteMode r;
       deleteRetreatDir := deleteRetreatDir r;
       deleteConflictPolicy := v;
       deletePreview := deletePreview r;
       deleteExec := deleteExec r |}).

Definition setCompressSubfolders (v : bool) : AppState -> AppState :=
  inCompressForm (fun r =>
    {| compressPaths := compressPaths r;
       compressSubfolders := v;
       compressResizePercent := compressResizePercent r;
       compressQuality := compressQuality r;
       compressTargetSizeKb := compressTargetSizeKb r;
       compressTargetSizeUnit := compressTargetSizeUnit r;
       compressTolerancePercent := compressTolerancePercent r;
       compressPreserveExif := compressPreserveExif r;
       compressOutputDir := compressOutputDir r;
       compressConflictPolicy := compressConflictPolicy r;
       compressSourceInfo := compressSourceInfo r;
       compressEstimateResult := compressEstimateResult r;
       compressPreview := compressPreview r;
       compressExec := compressExec r |}).

Definition setCompressTolerancePercent (v : Q) : AppState -> AppState :=
  inCompressForm (fun r =>
    {| compressPaths := compressPaths r;
       compressSubfolders := compressSubfolders r;
       compressResizePercent := compressResizePercent r;
       compressQuality := compressQuality r;
       compressTargetSizeKb := compressTargetSizeKb r;
       compressTargetSizeUnit := compressTargetSizeUnit r;
       compressTolerancePercent := v;
       compressPreserveExif := compressPreserveExif r;
       compressOutputDir := compressOutputDir r;
       compressConflictPolicy := compressConflictPolicy r;
       compressSourceInfo := compressSourceInfo r;
       compressEstimateResult := compressEstimateResult r;
       compressPreview := compressPreview r;
       compressExec := compressExec r |}).

Definition setCompressPreserveExif (v : bool) : AppState -> AppState :=
  inCompressForm (fun r =>
    {| compressPaths := compressPaths r;
       compressSubfolders := compressSubfolders r;
       compressResizePercent := compressResizePercent r;
       compressQuality := compressQuality r;
       compressTargetSizeKb := compressTargetSizeKb r;
       compressTargetSizeUnit := compressTargetSizeUnit r;
       compressTolerancePercent := compressTolerancePercent r;
       compressPreserveExif := v;
       compressOutputDir := compressOutputDir r;
       compressConflictPolicy := compressConflictPolicy r;
       compressSourceInfo := compressSourceInfo r;
       compressEstimateResult := compressEstimateResult r;
       compressPreview := compressPreview r;
       compressExec := compressExec r |}).

Definition setCompressConflictPolicy (v : ConflictPolicy) : AppState -> AppState :=
  inCompressForm (fun r =>
    {| compressPaths := compressPaths r;
       compressSubfolders := compressSubfolders r;
       compressResizePercent := compressResizePercent r;
       compressQuality := compressQuality r;
       compressTargetSizeKb := compressTargetSizeKb r;
       compressTargetSizeUnit := compressTargetSizeUnit r;
       compressTolerancePercent := compressTolerancePercent r;
       compressPreserveExif := compressPreserveExif r;
       compressOutputDir := compressOutputDir r;
       compressConflictPolicy := v;
       compressSourceInfo := compressSourceInfo r;
       compressEstimateResult := compressEstimateResult r;
       compressPreview := compressPreview r;
       compressExec := compressExec r |}).

Definition setCompressSourceInfo (v : option CompressCollectInfoResponse) : AppState -> AppState :=
  inCompressForm (fun r =>
    {| compressPaths := compressPaths r;
       compressSubfolders := compressSubfolders r;
       compressResizePercent := compressResizePercent r;
       compressQuality := compressQuality r;
       compressTargetSizeKb := compressTargetSizeKb r;
       compressTargetSizeUnit := compressTargetSizeUnit r;
       compressTolerancePercent := compressTolerancePercent r;
       compressPreserveExif := compressPreserveExif r;
       compressOutputDir := compressOutputDir r;
       compressConflictPolicy := compressConflictPolicy r;
       compressSourceInfo := v;
       compressEstimateResult := compressEstimateResult r;
       compressPreview := compressPreview r;
       compressExec := compressExec r |}).

Definition setCompressEstimateResult (v : option CompressEstimateResponse) : AppState -> AppState :=
  inCompressForm (fun r =>
    {| compressPaths := compressPaths r;
       compressSubfolders := compressSubfolders r;
       compressResizePercent := compressResizePercent r;
       compressQuality := compressQuality r;
       compressTargetSizeKb := compressTargetSizeKb r;
       compressTargetSizeUnit := compressTargetSizeUnit r;
       compressTolerancePercent := compressTolerancePercent r;
       compressPreserveExif := compressPreserveExif r;
       compressOutputDir := compressOutputDir r;
       compressConflictPolicy := compressConflictPolicy r;
       compressSourceInfo := compressSourceInfo r;
       compressEstimateResult := v;
       compressPreview := compressPreview r;
       compressExec := compressExec r |}).

Definition setFlattenConflictPolicy (v : ConflictPolicy) : AppState -> AppState :=
  inFlattenForm (fun r =>
    {| flattenInputDir := flattenInputDir r;
       flattenOutputDir := flattenOutputDir r;
       flattenConflictPolicy := v;
       flattenPreview := flattenPreview r;
       flattenExec := flattenExec r |}).

Definition setExifOffsetSubfolders (v : bool) : AppState -> AppState :=
  inExifOffsetForm (fun r =>
    {| exifOffsetPaths := exifOffsetPaths r;
       exifOffsetSubfolders := v;
       exifOffsetSign := exifOffsetSign r;
       exifOffsetDays := exifOffsetDays r;
       exifOffsetHours := exifOffsetHours r;
       exifOffsetMinutes := exifOffsetMinutes r;
       exifOffsetSeconds := exifOffsetSeconds r;
       exifOffsetPreview := exifOffsetPreview r;
       exifOffsetExec := exifOffsetExec r |}).

Definition setExifOffsetSign (v : OffsetSign) : AppState -> AppState :=
  inExifOffsetForm (fun r =>
    {| exifOffsetPaths := exifOffsetPaths r;
       exifOffsetSubfolders := exifOffsetSubfolders r;
       exifOffsetSign := v;
       exifOffsetDays := exifOffsetDays r;
       exifOffsetHours := exifOffsetHours r;
       exifOffsetMinutes := exifOffsetMinutes r;
       exifOffsetSeconds := exifOffsetSeconds r;
       exifOffsetPreview := exifOffsetPreview r;
       exifOffsetExec := exifOffsetExec r |}).

Definition setExifOffsetDays (v : Z) : AppState -> AppState :=
  inExifOffsetForm (fun r =>
    {| exifOffsetPaths := exifOffsetPaths r;
       exifOffsetSubfolders := exifOffsetSubfolders r;
       exifOffsetSign := exifOffsetSign r;
       exifOffsetDays := v;
       exifOffsetHours := exifOffsetHours r;
       exifOffsetMinutes := exifOffsetMinutes r;
       exifOffsetSeconds := exifOffsetSeconds r;
       exifOffsetPreview := exifOffsetPreview r;
       exifOffsetExec := exifOffsetExec r |}).

Definition setExifOffsetHours (v : Z) : AppState -> AppState :=
  inExifOffsetForm (fun r =>
    {| exifOffsetPaths := exifOffsetPaths r;
       exifOffsetSubfolders := exifOffsetSubfolders r;
       exifOffsetSign := exifOffsetSign r;
       exifOffsetDays := exifOffsetDays r;
       exifOffsetHours := v;
       exifOffsetMinutes := exifOffsetMinutes r;
       exifOffsetSeconds := exifOffsetSeconds r;
       exifOffsetPreview := exifOffsetPreview r;
       exifOffsetExec := exifOffsetExec r |}).

Definition setExifOffsetMinutes (v : Z) : AppState -> AppState :=
  inExifOffsetForm (fun r =>
    {| exifOffsetPaths := exifOffsetPaths r;
       exifOffsetSubfolders := exifOffsetSubfolders r;
       exifOffsetSign := exifOffsetSign r;
       exifOffsetDays := exifOffsetDays r;
       exifOffsetHours := exifOffsetHours r;
       exifOffsetMinutes := v;
       exifOffsetSeconds := exifOffsetSeconds r;
       exifOffsetPreview := exifOffsetPreview r;
       exifOffsetExec := exifOffsetExec r |}).

Definition setExifOffsetSeconds (v : Z) : AppState -> AppState :=
  inExifOffsetForm (fun r =>
    {| exifOffsetPaths := exifOffsetPaths r;
       exifOffsetSubfolders := exifOffsetSubfolders r;
       exifOffsetSign := exifOffsetSign r;
       exifOffsetDays := exifOffsetDays r;
       exifOffsetHours := exifOffsetHours r;
       exifOffsetMinutes := exifOffsetMinutes r;
       exifOffsetSeconds := v;
       exifOffsetPreview := exifOffsetPreview r;
       exifOffsetExec := exifOffsetExec r |}).

Definition setMetadataStripSubfolders (v : bool) : AppState -> AppState :=
  inMetadataStripForm (fun r =>
    {| metadataStripPaths := metadataStripPaths r;
       metadataStripSubfolders := v;
       metadataStripPreset := metadataStripPreset r;
       metadataStripCategories := metadataStripCategories r;
       metadataStripPreview := metadataStripPreview r;
       metadataStripExec := metadataStripExec r |}).

Definition setImportPath (v : string) : AppState -> AppState :=
  inImportForm (fun r =>
    {| importPath := v;
       importMode := importMode r;
       importConflictPolicy := importConflictPolicy r;
       importConflictPreview := importConflictPreview r |}).

Definition setImportMode (v : ImportMode) : AppState -> AppState :=
  inImportForm (fun r =>
    {| importPath := importPath r;
       importMode := v;
       importConflictPolicy := importConflictPolicy r;
       importConflictPreview := importConflictPreview r |}).

Definition setImportConflictPolicy (v : ImportPolicy) : AppState -> AppState :=
  inImportForm (fun r =>
    {| importPath := importPath r;
       importMode := importMode r;
       importConflictPolicy := v;
       importConflictPreview := importConflictPreview r |}).

(** *** Strings *)

(** [a.join(", ")], as the pattern selector writes a stored extension list
    back into the extension field. *)
Definition joinCommaSpace (a : list string) : string := String.concat ", " a.

(** An extension without a comma or white space in it. *)
Definition separatorFree (e : string) : bool :=
  allChars (fun c => negb (Js.isExtSeparator c)) e.

(** [s.length]: the number of UTF-16 code units of a string held as UTF-8.
    A continuation byte adds nothing, the lead byte of a four-byte sequence
    stands for a surrogate pair. *)
Definition utf16Units (c : ascii) : Z :=
  let n := N_of_ascii c in
  if (n <? 128)%N then 1
  else if (n <? 192)%N then 0
  else if (n <? 240)%N then 1
  else 2.

Fixpoint String_length (s : string) : Z :=
  match s with
  | EmptyString => 0
  | String c s' => utf16Units c + String_length s'
  end.

(** [Number.parseInt(value)] without a radix: as with radix ten, except that
    a [0x] or [0X] after the sign switches to hexadecimal. *)
Definition hexDigitValue (c : ascii) : option Z :=
  let n := N_of_ascii c in
  if ((48 <=? n) && (n <=? 57))%N then Some (Z.of_N n - 48)
  else if ((65 <=? n) && (n <=? 70))%N then Some (Z.of_N n - 55)
  else if ((97 <=? n) && (n <=? 102))%N then Some (Z.of_N n - 87)
  else None.

Fixpoint parseHexDigits (acc : option Z) (s : string) : option Z :=
  match s with
  | EmptyString => acc
  | String c s' =>
      match hexDigitValue c with
      | Some d => parseHexDigits (Some (16 * default 0 acc + d)) s'
      | None => acc
      end
  end.

Definition parseDigitsAnyRadix (s : string) : option Z :=
  match s with
  | String zero (String x rest) =>
      if ((N_of_ascii zero =? 48) && ((N_of_ascii x =? 120) || (N_of_ascii x =? 88)))%N
      then parseHexDigits None rest
      else parseDigits None s
  | _ => parseDigits None s
  end.

Definition Number_parseInt_noRadix (value : string) : option Z :=
  match Js.trimStart value with
  | EmptyString => None
  | String c rest =>
      if (N_of_ascii c =? 45)%N then option_map Z.opp (parseDigitsAnyRadix rest)
      else if (N_of_ascii c =? 43)%N then parseDigitsAnyRadix rest
      else parseDigitsAnyRadix (String c rest)
  end.

(** [a.toLowerCase() === b.toLowerCase()], the comparison of names. *)
Definition sameName (a b : string) : bool :=
  String.eqb (Js.toLowerCase a) (Js.toLowerCase b).

(** *** Tabs and operations *)

(** The string a [TabKey] is. *)
Definition tabKeyString (tabKey : TabKey) : string :=
  match tabKey with
  | tab_rename => "rename"
  | tab_delete => "delete"
  | tab_compress => "compress"
  | tab_flatten => "flatten"
  | tab_exif_offset => "exif-offset"
  | tab_metadata_strip => "metadata-strip"
  | tab_settings => "settings"
  | tab_about => "about"
  end.

Definition tabToOperation (tabKey : string) : string :=
  if String.eqb tabKey "exif-offset" then "exifOffset"
  else if String.eqb tabKey "metadata-strip" then "metadataStrip"
  else tabKey.

(** *** Synchronous handlers of the forms *)

Definition onChangeExifOffsetDays (value : string) : AppState -> AppState :=
  setExifOffsetDays (Z.max 0 (orNumber (Number_parseInt_noRadix value) 0)).

Definition onChangeExifOffsetHours (value : string) : AppState -> AppState :=
  setExifOffsetHours (Z.max 0 (Z.min 23 (orNumber (Number_parseInt_noRadix value) 0))).

Definition onChangeExifOffsetMinutes (value : string) : AppState -> AppState :=
  setExifOffsetMinutes (Z.max 0 (Z.min 59 (orNumber (Number_parseInt_noRadix value) 0))).

Definition onChangeExifOffsetSeconds (value : string) : AppState -> AppState :=
  setExifOffsetSeconds (Z.max 0 (Z.min 59 (orNumber (Number_parseInt_noRadix value) 0))).

(** The keys of [MetadataStripCategories], one check box each. *)
Inductive MetadataCategory :=
| key_gps | key_cameraLens | key_software | key_authorCopyright | key_comments
| key_thumbnail | key_iptc | key_xmp | key_shootingSettings | key_captureDateTime.

(** [{ ...prev, [key]: checked }] *)
Definition withCategory (key : MetadataCategory) (checked : bool)
    (prev : MetadataStripCategories) : MetadataStripCategories :=
  {| gps := match key with key_gps => checked | _ => gps prev end;
     cameraLens := match key with key_cameraLens => checked | _ => cameraLens prev end;
     software := match key with key_software => checked | _ => software prev end;
     authorCopyright :=
       match key with key_authorCopyright => checked | _ => authorCopyright prev end;
     comments := match key with key_comments => checked | _ => comments prev end;
     thumbnail := match key with key_thumbnail => checked | _ => thumbnail prev end;
     iptc := match key with key_iptc => checked | _ => iptc prev end;
     xmp := match key with key_xmp => checked | _ => xmp prev end;
     shootingSettings :=
       match key with key_shootingSettings => checked | _ => shootingSettings prev end;
     captureDateTime :=
       match key with key_captureDateTime => checked | _ => captureDateTime prev end |}.

Definition onChangeMetadataStripCategory (key : MetadataCategory) (checked : bool)
    : AppState -> AppState :=
  fun st =>
    setMetadataStripPreset custom
      (setMetadataStripCategories
         (withCategory key checked (metadataStripCategories (metadataStripForm st))) st).

(** [{ ...current, theme }] and the like. *)
Definition withTheme (v : Theme) (base : AppSettings) : AppSettings :=
  {| deletePatterns := deletePatterns base; renameTemplates := renameTemplates base;
     outputDirectories := outputDirectories base; theme := v |}.

Definition withDeletePatterns (v : list DeletePattern) (base : AppSettings) : AppSettings :=
  {| deletePatterns := v; renameTemplates := renameTemplates base;
     outputDirectories := outputDirectories base; theme := theme base |}.

Definition withRenameTemplates (v : list RenameTemplate) (base : AppSettings) : AppSettings :=
  {| deletePatterns := deletePatterns base; renameTemplates := v;
     outputDirectories := outputDirectories base; theme := theme base |}.

Definition onChangeTheme (v : Theme) : AppState -> AppState :=
  fun st => setSettings (withTheme v (settings (shell st))) st.

Definition onChangeImportPath (value : string) : AppState -> AppState :=
  fun st => setImportConflictPreview None (setImportPath value st).

Definition onChangeImportMode (v : ImportMode) : AppState -> AppState :=
  fun st => setImportConflictPreview None (setImportMode v st).

(** *** Toasts and the progress banner *)

Definition removeToast (id : Z) : App unit :=
  update (fun st =>
    setToasts (List.filter (fun t => negb (toast_id t =? id)) (toasts (shell st))) st).

(** The listener of [operation-progress]. *)
Definition onOperationProgress (p : OperationProgressEvent) : App unit :=
  update (fun st => setProgressMap (<[operation p := p]> (progressMap (shell st))) st).

(** The close button of the banner; [s] is the render it belongs to. *)
Definition closeProgressBanner (s : AppState) : App unit :=
  clearProgress (tabToOperation (tabKeyString (tab (shell s)))).

(** *** The clear buttons *)

Definition renameClear : App unit :=
  update (setRenamePaths "") ;; update (setRenamePreview None) ;;
  update (setRenameExec None) ;; clearProgress "rename".

Definition deleteClear : App unit :=
  update (setDeletePaths "") ;; update (setDeletePreview None) ;;
  update (setDeleteExec None) ;; clearProgress "delete".

Definition compressClear : App unit :=
  update (setCompressPaths "") ;; update (setCompressSourceInfo None) ;;
  update (setCompressEstimateResult None) ;; update (setCompressPreview None) ;;
  update (setCompressExec None) ;; clearProgress "compress".

Definition flattenClear : App unit :=
  update (setFlattenInputDir "") ;; update (setFlattenPreview None) ;;
  update (setFlattenExec None) ;; clearProgress "flatten".

Definition exifOffsetClear : App unit :=
  update (setExifOffsetPaths "") ;; update (setExifOffsetPreview None) ;;
  update (setExifOffsetExec None) ;; clearProgress "exifOffset".

Definition metadataStripClear : App unit :=
  update (setMetadataStripPaths "") ;; update (setMetadataStripPreview None) ;;
  update (setMetadataStripExec None) ;; clearProgress "metadataStrip".

(** The clear button of the tab that is showing. *)
Definition clearTab (tabKey : TabKey) : App unit :=
  match tabKey with
  | tab_rename => renameClear
  | tab_delete => deleteClear
  | tab_compress => compressClear
  | tab_flatten => flattenClear
  | tab_exif_offset => exifOffsetClear
  | tab_metadata_strip => metadataStripClear
  | tab_settings | tab_about => ret tt
  end.

(** The execute button of the tab that is showing. *)
Definition executeTab (backend : Backend) (s : AppState) (tabKey : TabKey) : App unit :=
  match tabKey with
  | tab_rename => renameExecute backend s
  | tab_delete => deleteExecute backend s
  | tab_compress => compressExecute backend s
  | tab_flatten => flattenExecute backend s
  | tab_exif_offset => exifOffsetExecute backend s
  | tab_metadata_strip => metadataStripExecute backend s
  | tab_settings | tab_about => ret tt
  end.

(** *** The file and folder dialogs

    [open] of the dialog plugin settles with an array, a string or [null];
    what the user picked is a parameter of the handler. *)

Inductive DialogAnswer :=
| dialogPaths (paths : list string)
| dialogPath (path : string)
| dialogNull.

Definition openDialog (answer : Reply DialogAnswer) : App DialogAnswer :=
  fun w =>
    match answer with
    | Resolved selected => (Returned selected, w)
    | Rejected reason => (Thrown (PromiseRejection reason), w)
    end.

Definition openFilesDialog (backend : Backend) (s : AppState)
    (answer : Reply DialogAnswer) : App unit :=
  run (match tab (shell s) with
       | tab_flatten => throw "フォルダ展開はファイル選択に対応していません。"
       | _ =>
           let* selected := openDialog answer in
           let paths :=
             match selected with
             | dialogPaths paths => paths
             | dialogPath path => if Js.truthy path then [path] else []
             | dialogNull => []
             end in
           applyPathsToCurrentTab backend paths
       end)
      None.

Definition openFolderDialog (backend : Backend) (s : AppState)
    (answer : Reply DialogAnswer) : App unit :=
  run (let* selected := openDialog answer in
       let path :=
         match selected with
         | dialogPaths paths => head paths
         | dialogPath path => Some path
         | dialogNull => None
         end in
       match path with
       | None => ret tt
       | Some path =>
           if negb (Js.truthy path) then ret tt
           else applyPathsToCurrentTab backend [path]
       end)
      None.

(** *** The save button of the settings tab *)

Definition settingsSave (backend : Backend) (s : AppState) : App unit :=
  run (let next := withOutputDirectories (settings (shell s)) s in
       applySettingsToInputs next ;;
       saveSettings backend next ;;
       update (setSettingsStatus "設定を保存しました。"))
      None.

(** *** The pattern and template editors

    The hooks of the two editors are kept apart from [AppState]: [Desk] is
    the page together with them, and [Studio.t] is the monad of the handlers
    that write to both. *)

Record Editors := {
  templateSelected : string;
  templateOriginal : option RenameTemplate;
  isCreatingNewTemplate : bool;
  newTemplateName : string;
  patternSelected : string;
  patternOriginal : option DeletePattern;
  isCreatingNewPattern : bool;
  newPatternName : string
}.

Definition setTemplateSelected (v : string) (r : Editors) : Editors :=
  {| templateSelected := v;
     templateOriginal := templateOriginal r;
     isCreatingNewTemplate := isCreatingNewTemplate r;
     newTemplateName := newTemplateName r;
     patternSelected := patternSelected r;
     patternOriginal := patternOriginal r;
     isCreatingNewPattern := isCreatingNewPattern r;
     newPatternName := newPatternName r |}.

Definition setTemplateOriginal (v : option RenameTemplate) (r : Editors) : Editors :=
  {| templateSelected := templateSelected r;
     templateOriginal := v;
     isCreatingNewTemplate := isCreatingNewTemplate r;
     newTemplateName := newTemplateName r;
     patternSelected := patternSelected r;
     patternOriginal := patternOriginal r;
     isCreatingNewPattern := isCreatingNewPattern r;
     newPatternName := newPatternName r |}.

Definition setIsCreatingNewTemplate (v : bool) (r : Editors) : Editors :=
  {| templateSelected := templateSelected r;
     templateOriginal := templateOriginal r;
     isCreatingNewTemplate := v;
     newTemplateName := newTemplateName r;
     patternSelected := patternSelected r;
     patternOriginal := patternOriginal r;
     isCreatingNewPattern := isCreatingNewPattern r;
     newPatternName := newPatternName r |}.

Definition setNewTemplateName (v : string) (r : Editors) : Editors :=
  {| templateSelected := templateSelected r;
     templateOriginal := templateOriginal r;
     isCreatingNewTemplate := isCreatingNewTemplate r;
     newTemplateName := v;
     patternSelected := patternSelected r;
     patternOriginal := patternOriginal r;
     isCreatingNewPattern := isCreatingNewPattern r;
     newPatternName := newPatternName r |}.

Definition setPatternSelected (v : string) (r : Editors) : Editors :=
  {| templateSelected := templateSelected r;
     templateOriginal := templateOriginal r;
     isCreatingNewTemplate := isCreatingNewTemplate r;
     newTemplateName := newTemplateName r;
     patternSelected := v;
     patternOriginal := patternOriginal r;
     isCreatingNewPattern := isCreatingNewPattern r;
     newPatternName := newPatternName r |}.

Definition setPatternOriginal (v : option DeletePattern) (r : Editors) : Editors :=
  {| templateSelected := templateSelected r;
     templateOriginal := templateOriginal r;
     isCreatingNewTemplate := isCreatingNewTemplate r;
     newTemplateName := newTemplateName r;
     patternSelected := patternSelected r;
     patternOriginal := v;
     isCreatingNewPattern := isCreatingNewPattern r;
     newPatternName := newPatternName r |}.

Definition setIsCreatingNewPattern (v : bool) (r : Editors) : Editors :=
  {| templateSelected := templateSelected r;
     templateOriginal := templateOriginal r;
     isCreatingNewTemplate := isCreatingNewTemplate r;
     newTemplateName := newTemplateName r;
     patternSelected := patternSelected r;
     patternOriginal := patternOriginal r;
     isCreatingNewPattern := v;
     newPatternName := newPatternName r |}.

Definition setNewPatternName (v : string) (r : Editors) : Editors :=
  {| templateSelected := templateSelected r;
     templateOriginal := templateOriginal r;
     isCreatingNewTemplate := isCreatingNewTemplate r;
     newTemplateName := newTemplateName r;
     patternSelected := patternSelected r;
     patternOriginal := patternOriginal r;
     isCreatingNewPattern := isCreatingNewPattern r;
     newPatternName := v |}.

Definition initialEditors : Editors :=
  {| templateSelected := ""; templateOriginal := None; isCreatingNewTemplate := false;
     newTemplateName := ""; patternSelected := ""; patternOriginal := None;
     isCreatingNewPattern := false; newPatternName := "" |}.

Record Desk := {
  editors : Editors;
  world : World
}.

Definition initialDesk : Desk := {| editors := initialEditors; world := initialWorld |}.

Module Studio.

Definition t (A : Type) : Type := Desk -> Outcome A * Desk.

Definition ret {A} (a : A) : t A := fun d => (Returned a, d).

Definition bind {A B} (m : t A) (k : A -> t B) : t B :=
  fun d =>
    match m d with
    | (Returned a, d') => k a d'
    | (Thrown e, d') => (Thrown e, d')
    end.

Definition throw {A} (message : string) : t A :=
  fun d => (Thrown (JsError message), d).

Definition tryCatchFinally (body : t unit) (handler : Exn -> t unit)
    (cleanup : t unit) : t unit :=
  fun d =>
    match body d with
    | (Returned _, d') => cleanup d'
    | (Thrown e, d') => bind (handler e) (fun _ => cleanup) d'
    end.

(** A handler of the page, run on the desk. *)
Definition lift {A} (m : App A) : t A :=
  fun d =>
    match m (world d) with
    | (outcome, w') => (outcome, {| editors := editors d; world := w' |})
    end.

(** A setter of one of the editors' hooks. *)
Definition edit (f : Editors -> Editors) : t unit :=
  fun d => (Returned tt, {| editors := f (editors d); world := world d |}).

(** [run], for an action that also writes to the editors. *)
Definition run (action : t unit) (label : option string) : t unit :=
  bind (lift (update (setIsBusy true))) (fun _ =>
  bind (lift (update (setBusyLabel label))) (fun _ =>
  tryCatchFinally action
    (fun runError => lift (addToast toastError (String_of_exn runError)))
    (bind (lift (update (setIsBusy false))) (fun _ => lift (update (setBusyLabel None)))))).

Definition settle (m : t unit) (d : Desk) : Desk := snd (m d).

End Studio.

Declare Scope studio_scope.
Delimit Scope studio_scope with studio.
Notation "'let*' x ':=' m 'in' k" := (Studio.bind m (fun x => k))
  (at level 10, x name, m at level 100, k at level 200) : studio_scope.
Notation "m ';;' k" := (Studio.bind m (fun _ => k))
  (at level 100, k at level 200, right associativity) : studio_scope.

Section Editors.

Variable backend : Backend.

Local Open Scope studio_scope.

(** [!value] for a value that is an object or [null]. *)
Definition isNull {A} (value : option A) : bool :=
  match value with None => true | Some _ => false end.

Definition isRetreat (mode : DeleteMode) : bool :=
  match mode with retreat => true | _ => false end.

Definition DeleteMode_eqb (a b : DeleteMode) : bool :=
  match a, b with
  | direct, direct | trash, trash | retreat, retreat => true
  | _, _ => false
  end.

(** [applyDeletePattern] *)
Definition applyDeletePattern (s : AppState) (name : string) : Studio.t unit :=
  match List.find (fun pattern => sameName (dp_name pattern) name)
                  (deletePatterns (settings (shell s))) with
  | None => Studio.lift (addToast toastError "選択した削除パターンが見つかりません。")
  | Some selected =>
      Studio.lift (update (setDeleteExtensions (joinCommaSpace (dp_extensions selected)))) ;;
      Studio.lift (update (setDeleteMode (dp_mode selected))) ;;
      Studio.lift (update (setDeleteRetreatDir (default "" (dp_retreatDir selected)))) ;;
      Studio.edit (setPatternOriginal (Some selected))
  end.

(** [applyRenameTemplate] *)
Definition applyRenameTemplate (s : AppState) (name : string) : Studio.t unit :=
  match List.find (fun t => sameName (rt_name t) name)
                  (renameTemplates (settings (shell s))) with
  | None => Studio.lift (addToast toastError "選択したテンプレートが見つかりません。")
  | Some selected =>
      Studio.lift (update (setRenameTemplate (rt_template selected))) ;;
      Studio.edit (setTemplateOriginal (Some selected))
  end.

(** The [select] of the pattern editor. *)
Definition onChangePatternSelect (s : AppState) (val : string) : Studio.t unit :=
  if String.eqb val "__new__" then
    Studio.edit (setIsCreatingNewPattern true) ;;
    Studio.edit (setPatternSelected "") ;;
    Studio.edit (setPatternOriginal None) ;;
    Studio.edit (setNewPatternName "")
  else
    Studio.edit (setIsCreatingNewPattern false) ;;
    Studio.edit (setPatternSelected val) ;;
    Studio.edit (setNewPatternName "") ;;
    if Js.truthy val then applyDeletePattern s val
    else Studio.edit (setPatternOriginal None).

(** The [select] of the template editor. *)
Definition onChangeTemplateSelect (s : AppState) (val : string) : Studio.t unit :=
  if String.eqb val "__new__" then
    Studio.edit (setIsCreatingNewTemplate true) ;;
    Studio.edit (setTemplateSelected "") ;;
    Studio.edit (setTemplateOriginal None) ;;
    Studio.edit (setNewTemplateName "")
  else
    Studio.edit (setIsCreatingNewTemplate false) ;;
    Studio.edit (setTemplateSelected val) ;;
    Studio.edit (setNewTemplateName "") ;;
    if Js.truthy val then applyRenameTemplate s val
    else Studio.edit (setTemplateOriginal None).

(** The two cancel buttons. *)
Definition cancelNewPattern : Studio.t unit :=
  Studio.edit (setIsCreatingNewPattern false) ;; Studio.edit (setNewPatternName "").

Definition cancelNewTemplate : Studio.t unit :=
  Studio.edit (setIsCreatingNewTemplate false) ;; Studio.edit (setNewTemplateName "").

(** [overwriteTemplate] *)
Definition overwriteTemplate (s : AppState) (ed : Editors) : Studio.t unit :=
  Studio.run
    (if negb (Js.truthy (templateSelected ed)) || isNull (templateOriginal ed)
     then Studio.throw "上書き保存するテンプレートを選択してください。"
     else
         if negb (Js.truthy (Js.trim (renameTemplate (renameForm s))))
         then Studio.throw "テンプレートが空です。"
         else
         let updated := {| rt_name := templateSelected ed;
                           rt_template := renameTemplate (renameForm s) |} in
         let next :=
           withOutputDirectories
             (withRenameTemplates
                (map (fun t => if sameName (rt_name t) (templateSelected ed)
                               then updated else t)
                     (renameTemplates (settings (shell s))))
                (settings (shell s))) s in
         Studio.lift (applySettingsToInputs next) ;;
         Studio.lift (saveSettings backend next) ;;
         Studio.edit (setTemplateOriginal (Some updated)) ;;
         Studio.lift (addToast toastSuccess
                        ("テンプレートを上書き保存しました: " ++ templateSelected ed)))
    None.

(** [saveNewTemplate] *)
Definition saveNewTemplate (s : AppState) (ed : Editors) : Studio.t unit :=
  Studio.run
    (let name := Js.trim (newTemplateName ed) in
     if (String_length name <? 1) || (40 <? String_length name)
     then Studio.throw "テンプレート名は1〜40文字で入力してください。"
     else
     if existsb (fun t => sameName (rt_name t) name) (renameTemplates (settings (shell s)))
     then Studio.throw "同名テンプレートが既に存在します。"
     else
     if negb (Js.truthy (Js.trim (renameTemplate (renameForm s))))
     then Studio.throw "テンプレートが空です。"
     else
     let newTmpl := {| rt_name := name; rt_template := renameTemplate (renameForm s) |} in
     let next :=
       withOutputDirectories
         (withRenameTemplates (renameTemplates (settings (shell s)) ++ [newTmpl])
                              (settings (shell s))) s in
     Studio.lift (applySettingsToInputs next) ;;
     Studio.lift (saveSettings backend next) ;;
     Studio.edit (setTemplateSelected name) ;;
     Studio.edit (setTemplateOriginal (Some newTmpl)) ;;
     Studio.edit (setIsCreatingNewTemplate false) ;;
     Studio.edit (setNewTemplateName "") ;;
     Studio.lift (addToast toastSuccess ("テンプレートを作成しました: " ++ name)))
    None.

(** [deleteTemplateByName] *)
Definition deleteTemplateByName (s : AppState) (ed : Editors) : Studio.t unit :=
  Studio.run
    (if negb (Js.truthy (templateSelected ed))
     then Studio.throw "削除するテンプレートを選択してください。"
     else
     let next :=
       withOutputDirectories
         (withRenameTemplates
            (List.filter (fun t => negb (sameName (rt_name t) (templateSelected ed)))
                         (renameTemplates (settings (shell s))))
            (settings (shell s))) s in
     Studio.lift (applySettingsToInputs next) ;;
     Studio.lift (saveSettings backend next) ;;
     Studio.edit (setTemplateSelected "") ;;
     Studio.edit (setTemplateOriginal None) ;;
     Studio.lift (addToast toastSuccess "テンプレートを削除しました。"))
    None.

(** The pattern the delete form describes, under a name. *)
Definition patternOfForm (s : AppState) (name : string) (extensions : list string)
    : DeletePattern :=
  {| dp_name := name;
     dp_extensions := extensions;
     dp_mode := deleteMode (deleteForm s);
     dp_retreatDir := if isRetreat (deleteMode (deleteForm s))
                      then Some (Js.trim (deleteRetreatDir (deleteForm s)))
                      else None |}.

(** [overwritePattern] *)
Definition overwritePattern (s : AppState) (ed : Editors) : Studio.t unit :=
  Studio.run
    (if negb (Js.truthy (patternSelected ed)) || isNull (patternOriginal ed)
     then Studio.throw "上書き保存するパターンを選択してください。"
     else
         let extensions := parseExts (deleteExtensions (deleteForm s)) in
         if isEmpty extensions
         then Studio.throw "削除対象の拡張子を指定してください。"
         else
         if isRetreat (deleteMode (deleteForm s))
            && negb (Js.truthy (Js.trim (deleteRetreatDir (deleteForm s))))
         then Studio.throw "退避モードでは退避先フォルダが必須です。"
         else
         let updated := patternOfForm s (patternSelected ed) extensions in
         let next :=
           withOutputDirectories
             (withDeletePatterns
                (map (fun p => if sameName (dp_name p) (patternSelected ed)
                               then updated else p)
                     (deletePatterns (settings (shell s))))
                (settings (shell s))) s in
         Studio.lift (applySettingsToInputs next) ;;
         Studio.lift (saveSettings backend next) ;;
         Studio.edit (setPatternOriginal (Some updated)) ;;
         Studio.lift (addToast toastSuccess
                        ("パターンを上書き保存しました: " ++ patternSelected ed)))
    None.

(** [saveNewPattern] *)
Definition saveNewPattern (s : AppState) (ed : Editors) : Studio.t unit :=
  Studio.run
    (let name := Js.trim (newPatternName ed) in
     if (String_length name <? 1) || (40 <? String_length name)
     then Studio.throw "パターン名は1〜40文字で入力してください。"
     else
     if existsb (fun p => sameName (dp_name p) name) (deletePatterns (settings (shell s)))
     then Studio.throw "同名パターンが既に存在します。"
     else
     let extensions := parseExts (deleteExtensions (deleteForm s)) in
     if isEmpty extensions
     then Studio.throw "削除対象の拡張子を指定してください。"
     else
     if isRetreat (deleteMode (deleteForm s))
        && negb (Js.truthy (Js.trim (deleteRetreatDir (deleteForm s))))
     then Studio.throw "退避モードでは退避先フォルダが必須です。"
     else
     let newPattern := patternOfForm s name extensions in
     let next :=
       withOutputDirectories
         (withDeletePatterns (deletePatterns (settings (shell s)) ++ [newPattern])
                             (settings (shell s))) s in
     Studio.lift (applySettingsToInputs next) ;;
     Studio.lift (saveSettings backend next) ;;
     Studio.edit (setPatternSelected name) ;;
     Studio.edit (setPatternOriginal (Some newPattern)) ;;
     Studio.edit (setIsCreatingNewPattern false) ;;
     Studio.edit (setNewPatternName "") ;;
     Studio.lift (addToast toastSuccess ("パターンを作成しました: " ++ name)))
    None.

(** [deletePatternByName] *)
Definition deletePatternByName (s : AppState) (ed : Editors) : Studio.t unit :=
  Studio.run
    (if negb (Js.truthy (patternSelected ed))
     then Studio.throw "削除するパターンを選択してください。"
     else
     let next :=
       withOutputDirectories
         (withDeletePatterns
            (List.filter (fun pattern => negb (sameName (dp_name pattern) (patternSelected ed)))
                         (deletePatterns (settings (shell s))))
            (settings (shell s))) s in
     Studio.lift (applySettingsToInputs next) ;;
     Studio.lift (saveSettings backend next) ;;
     Studio.edit (setPatternSelected "") ;;
     Studio.edit (setPatternOriginal None) ;;
     Studio.lift (addToast toastSuccess "削除パターンを削除しました。"))
    None.

End Editors.

(** The effect that runs once after the first render: it awaits the
    settings, their path, whether ffprobe is there and the template tags,
    and fills the page from them.  None of the four calls is among the
    commands of the log; what they answer, the settings and the ffprobe
    flag as far as the hooks here go, is a parameter, and a rejection of
    any of them is the rejection of the whole. *)
Definition onMount (answer : Reply (AppSettings * bool)) : Studio.t unit :=
  match answer with
  | Resolved (loadedSettings, ffprobe) =>
      (Studio.lift (update (setSettings loadedSettings)) ;;
       Studio.lift (update (setUseFfprobe ffprobe)) ;;
       match head (renameTemplates loadedSettings) with
       | Some first =>
           Studio.lift (update (setRenameTemplate (rt_template first))) ;;
           Studio.edit (setTemplateSelected (rt_name first)) ;;
           Studio.edit (setTemplateOriginal (Some first))
       | None => Studio.ret tt
       end ;;
       Studio.lift (update (setRenameOutputDir
                              (default "" (outputDirectories loadedSettings !! "rename")))) ;;
       Studio.lift (update (setDeleteRetreatDir
                              (default "" (outputDirectories loadedSettings
                                           !! "delete_retreat")))) ;;
       Studio.lift (update (setCompressOutputDir
                              (default "" (outputDirectories loadedSettings !! "compress")))) ;;
       Studio.lift (update (setFlattenOutputDir
                              (default "" (outputDirectories loadedSettings !! "flatten")))))%studio
  | Rejected loadError => Studio.lift (addToast toastError loadError)
  end.

(** [templateModified] and [patternModified], which enable the two
    overwrite buttons. *)
Definition templateModified (s : AppState) (ed : Editors) : bool :=
  match templateOriginal ed with
  | None => false
  | Some original =>
      negb (String.eqb (renameTemplate (renameForm s)) (rt_template original))
  end.

(** [a.length !== b.length || a.some((e, i) => e !== b[i])] *)
Definition differs (a b : list string) : bool :=
  negb (length a =? length b)%nat
  || existsb (fun p => negb (String.eqb (fst p) (snd p))) (combine a b).

Definition patternModified (s : AppState) (ed : Editors) : bool :=
  match patternOriginal ed with
  | None => false
  | Some original =>
      if differs (parseExts (deleteExtensions (deleteForm s))) (dp_extensions original)
      then true
      else if negb (DeleteMode_eqb (deleteMode (deleteForm s)) (dp_mode original))
      then true
      else if isRetreat (deleteMode (deleteForm s))
              && negb (String.eqb (Js.trim (deleteRetreatDir (deleteForm s)))
                                  (default "" (dp_retreatDir original)))
      then true
      else false
  end.

(** *** The window as a reactive system

    An event is what one rendered element, the drop listener, the progress
    listener, a toast's timer or the effect of the first render does; its
    handler runs to completion on the desk, so nothing arrives while a
    handler waits for the engine.  The statements about sessions below are
    invariants that every single state update and call keeps.  A rendered element has the
    handler of the current render; the drop listener keeps the first
    render.  What a dialog or the engine answers is a parameter of the
    event, and so is what the effect of the first render loads.

    An element that is disabled does not fire.  An element that is not
    rendered at the time is not excluded, and the ffprobe check box, whose
    [disabled] depends on a hook that is not among the ones here, counts as
    enabled: the sessions here include all those of the window.

    Left out are the elements whose command is not among the calls of the
    log (cancel, export, the settings folder), the tolerance input, and the
    other effects, two of which have models of their own (the autosave
    above, the sampled estimate below).  Inserting a template tag is an
    instance of editing the template. *)

Inductive ShellEvent :=
| ev_mount (answer : Reply (AppSettings * bool))
| ev_nav (key : TabKey)
| ev_toast_dismiss (id : Z)
| ev_progress (p : OperationProgressEvent)
| ev_banner_close
| ev_drop (paths : list string)
| ev_files_dialog (answer : Reply DialogAnswer)
| ev_folder_dialog (answer : Reply DialogAnswer)
| ev_preview
| ev_execute
| ev_clear.

Inductive RenameEvent :=
| ev_renamePaths (value : string)
| ev_templateSelect (val : string)
| ev_overwriteTemplate
| ev_deleteTemplate
| ev_newTemplateName (value : string)
| ev_saveNewTemplate
| ev_cancelNewTemplate
| ev_renameTemplate (value : string)
| ev_renameSource (v : RenameSource)
| ev_renameConflictPolicy (v : ConflictPolicy)
| ev_renameOutputDir (value : string)
| ev_useFfprobe (checked : bool)
| ev_renameSubfolders (checked : bool).

Inductive DeleteEvent :=
| ev_deletePaths (value : string)
| ev_patternSelect (val : string)
| ev_overwritePattern
| ev_deletePattern
| ev_newPatternName (value : string)
| ev_saveNewPattern
| ev_cancelNewPattern
| ev_deleteExtensions (value : string)
| ev_deleteMode (v : DeleteMode)
| ev_deleteConflictPolicy (v : ConflictPolicy)
| ev_deleteRetreatDir (value : string)
| ev_deleteSubfolders (checked : bool).

Inductive CompressTabEvent :=
| ev_compressPaths (value : string)
| ev_compressResizePercent (value : string)
| ev_compressQuality (value : string)
| ev_compressTargetSizeKb (value : string)
| ev_compressTargetSizeUnit (v : SizeUnit)
| ev_compressCalc
| ev_compressOutputDir (value : string)
| ev_compressConflictPolicy (v : ConflictPolicy)
| ev_compressSubfolders (checked : bool)
| ev_compressPreserveExif (checked : bool).

Inductive FlattenEvent :=
| ev_flattenInputDir (value : string)
| ev_flattenOutputDir (value : string)
| ev_flattenConflictPolicy (v : ConflictPolicy).

Inductive ExifOffsetTabEvent :=
| ev_exifOffsetPaths (value : string)
| ev_exifOffsetSign (v : OffsetSign)
| ev_exifOffsetDays (value : string)
| ev_exifOffsetHours (value : string)
| ev_exifOffsetMinutes (value : string)
| ev_exifOffsetSeconds (value : string)
| ev_exifOffsetSubfolders (checked : bool).

Inductive MetadataStripEvent :=
| ev_metadataStripPaths (value : string)
| ev_metadataStripPreset (v : MetadataStripPreset)
| ev_metadataStripCategory (key : MetadataCategory) (checked : bool)
| ev_metadataStripSubfolders (checked : bool).

Inductive SettingsEvent :=
| ev_theme (v : Theme)
| ev_settingsSave
| ev_importPath (value : string)
| ev_importMode (v : ImportMode)
| ev_importConflictPolicy (v : ImportPolicy)
| ev_importCheck
| ev_importClick.

Inductive Event :=
| onShell (e : ShellEvent)
| onRename (e : RenameEvent)
| onDelete (e : DeleteEvent)
| onCompress (e : CompressTabEvent)
| onFlatten (e : FlattenEvent)
| onExifOffset (e : ExifOffsetTabEvent)
| onMetadataStrip (e : MetadataStripEvent)
| onSettings (e : SettingsEvent).

(** The [disabled] attribute: a disabled element does not fire. *)
Definition unlessDisabled (disabled : bool) (m : Studio.t unit) : Studio.t unit :=
  if disabled then Studio.ret tt else m.

(** The [disabled] attribute of the execute button of the tab showing. *)
Definition executeDisabled (s : AppState) : bool :=
  isBusy (shell s)
  || match tab (shell s) with
     | tab_rename => isEmpty (renameFiles s)
     | tab_delete =>
         isEmpty (deleteFiles s) || isEmpty (parseExts (deleteExtensions (deleteForm s)))
     | tab_compress => isEmpty (compressFiles s)
     | tab_flatten => negb (Js.truthy (Js.trim (flattenInputDir (flattenForm s))))
     | tab_exif_offset => isEmpty (exifOffsetFiles s) || (totalOffsetSeconds s =? 0)
     | tab_metadata_strip => isEmpty (metadataStripFiles s)
     | tab_settings | tab_about => false
     end.

(** That of the target-size button. *)
Definition calcDisabled (s : AppState) : bool :=
  isBusy (shell s) || isEmpty (compressFiles s)
  || negb (Js.truthy (Js.trim (compressTargetSizeKb (compressForm s)))).

Section Session.

Variable backend : Backend.
Variable toFixed : Q -> nat -> string.

(** The handler of an event in the render [s], [ed]. *)
Definition handler (s : AppState) (ed : Editors) (e : Event) : Studio.t unit :=
  match e with
  | onShell e =>
      match e with
      | ev_mount answer => onMount answer
      | ev_nav key => Studio.lift (update (setTab key))
      | ev_toast_dismiss id => Studio.lift (removeToast id)
      | ev_progress p => Studio.lift (onOperationProgress p)
      | ev_banner_close => Studio.lift (closeProgressBanner s)
      | ev_drop paths => Studio.lift (onDrop backend initialState paths)
      | ev_files_dialog answer =>
          unlessDisabled (isBusy (shell s)) (Studio.lift (openFilesDialog backend s answer))
      | ev_folder_dialog answer =>
          unlessDisabled (isBusy (shell s)) (Studio.lift (openFolderDialog backend s answer))
      | ev_preview =>
          unlessDisabled (isBusy (shell s))
            (Studio.lift (submitPreview backend s (tab (shell s))))
      | ev_execute =>
          unlessDisabled (executeDisabled s)
            (Studio.lift (executeTab backend s (tab (shell s))))
      | ev_clear => unlessDisabled (isBusy (shell s)) (Studio.lift (clearTab (tab (shell s))))
      end
  | onRename e =>
      match e with
      | ev_renamePaths value => Studio.lift (update (setRenamePaths value))
      | ev_templateSelect val => onChangeTemplateSelect s val
      | ev_overwriteTemplate =>
          unlessDisabled (negb (templateModified s ed)) (overwriteTemplate backend s ed)
      | ev_deleteTemplate => deleteTemplateByName backend s ed
      | ev_newTemplateName value => Studio.edit (setNewTemplateName value)
      | ev_saveNewTemplate => saveNewTemplate backend s ed
      | ev_cancelNewTemplate => cancelNewTemplate
      | ev_renameTemplate value => Studio.lift (update (setRenameTemplate value))
      | ev_renameSource v => Studio.lift (update (setRenameSource v))
      | ev_renameConflictPolicy v => Studio.lift (update (setRenameConflictPolicy v))
      | ev_renameOutputDir value => Studio.lift (update (setRenameOutputDir value))
      | ev_useFfprobe checked => Studio.lift (update (setUseFfprobe checked))
      | ev_renameSubfolders checked => Studio.lift (update (setRenameSubfolders checked))
      end
  | onDelete e =>
      match e with
      | ev_deletePaths value => Studio.lift (update (setDeletePaths value))
      | ev_patternSelect val => onChangePatternSelect s val
      | ev_overwritePattern =>
          unlessDisabled (negb (patternModified s ed)) (overwritePattern backend s ed)
      | ev_deletePattern => deletePatternByName backend s ed
      | ev_newPatternName value => Studio.edit (setNewPatternName value)
      | ev_saveNewPattern => saveNewPattern backend s ed
      | ev_cancelNewPattern => cancelNewPattern
      | ev_deleteExtensions value => Studio.lift (update (setDeleteExtensions value))
      | ev_deleteMode v => Studio.lift (update (setDeleteMode v))
      | ev_deleteConflictPolicy v =>
          unlessDisabled (DeleteMode_eqb (deleteMode (deleteForm s)) trash)
            (Studio.lift (update (setDeleteConflictPolicy v)))
      | ev_deleteRetreatDir value => Studio.lift (update (setDeleteRetreatDir value))
      | ev_deleteSubfolders checked => Studio.lift (update (setDeleteSubfolders checked))
      end
  | onCompress e =>
      match e with
      | ev_compressPaths value => Studio.lift (update (onChangeCompressPaths value))
      | ev_compressResizePercent value =>
          Studio.lift (update (onChangeCompressResizePercent value))
      | ev_compressQuality value => Studio.lift (update (onChangeCompressQuality value))
      | ev_compressTargetSizeKb value => Studio.lift (update (setCompressTargetSizeKb value))
      | ev_compressTargetSizeUnit v => Studio.lift (update (setCompressTargetSizeUnit v))
      | ev_compressCalc =>
          unlessDisabled (calcDisabled s) (Studio.lift (compressCalc backend toFixed s))
      | ev_compressOutputDir value => Studio.lift (update (setCompressOutputDir value))
      | ev_compressConflictPolicy v => Studio.lift (update (setCompressConflictPolicy v))
      | ev_compressSubfolders checked => Studio.lift (update (setCompressSubfolders checked))
      | ev_compressPreserveExif checked =>
          Studio.lift (update (setCompressPreserveExif checked))
      end
  | onFlatten e =>
      match e with
      | ev_flattenInputDir value => Studio.lift (update (setFlattenInputDir value))
      | ev_flattenOutputDir value => Studio.lift (update (setFlattenOutputDir value))
      | ev_flattenConflictPolicy v => Studio.lift (update (setFlattenConflictPolicy v))
      end
  | onExifOffset e =>
      match e with
      | ev_exifOffsetPaths value => Studio.lift (update (setExifOffsetPaths value))
      | ev_exifOffsetSign v => Studio.lift (update (setExifOffsetSign v))
      | ev_exifOffsetDays value => Studio.lift (update (onChangeExifOffsetDays value))
      | ev_exifOffsetHours value => Studio.lift (update (onChangeExifOffsetHours value))
      | ev_exifOffsetMinutes value => Studio.lift (update (onChangeExifOffsetMinutes value))
      | ev_exifOffsetSeconds value => Studio.lift (update (onChangeExifOffsetSeconds value))
      | ev_exifOffsetSubfolders checked =>
          Studio.lift (update (setExifOffsetSubfolders checked))
      end
  | onMetadataStrip e =>
      match e with
      | ev_metadataStripPaths value => Studio.lift (update (setMetadataStripPaths value))
      | ev_metadataStripPreset v => Studio.lift (update (onChangeMetadataStripPreset v))
      | ev_metadataStripCategory key checked =>
          Studio.lift (update (onChangeMetadataStripCategory key checked))
      | ev_metadataStripSubfolders checked =>
          Studio.lift (update (setMetadataStripSubfolders checked))
      end
  | onSettings e =>
      match e with
      | ev_theme v => Studio.lift (update (onChangeTheme v))
      | ev_settingsSave => Studio.lift (settingsSave backend s)
      | ev_importPath value => Studio.lift (update (onChangeImportPath value))
      | ev_importMode v => Studio.lift (update (onChangeImportMode v))
      | ev_importConflictPolicy v => Studio.lift (update (setImportConflictPolicy v))
      | ev_importCheck => Studio.lift (importCheck backend s)
      | ev_importClick => Studio.lift (importClick backend s)
      end
  end.

Definition step (d : Desk) (e : Event) : Desk :=
  Studio.settle (handler (ui (world d)) (editors d) e) d.

Definition session (events : list Event) : Desk := fold_left step events initialDesk.

End Session.

(** *** The sampled estimate of the compress tab

    The effect whose dependencies are the parsed paths, the subfolder flag
    and the two sliders.  Each run that has paths takes the next number
    from [estimateSeqRef] and queues a timer; the timer makes the call; the
    answer is written into the hook only if the ref still holds the number
    of its run.  An answer may arrive at any later time, and answers may
    arrive in any order. *)

Record EstimateDeps := {
  est_files : list string;
  est_subfolders : bool;
  est_resizePercent : Z;
  est_quality : Z
}.

(** A run of the effect, as its timer and its promise handlers close over
    it. *)
Record EstimateRun := {
  run_seq : nat;
  run_deps : EstimateDeps
}.

Record Estimator := {
  est_deps : EstimateDeps;
  estimateSeqRef : nat;
  estimateResult : option CompressEstimateResponse;
  estimateTimer : option EstimateRun;
  estimateInFlight : list EstimateRun
}.

Definition estimatorMounted : Estimator :=
  {| est_deps := {| est_files := []; est_subfolders := false;
                    est_resizePercent := 100; est_quality := 82 |};
     estimateSeqRef := 0; estimateResult := None; estimateTimer := None;
     estimateInFlight := [] |}.

Inductive EstimateEvent :=
| est_render (deps : EstimateDeps)
| est_timer
| est_settle (index : nat).

Section Estimate.

(** What the engine answers to the call of the run numbered [seq]. *)
Variable compressEstimate : nat -> EstimateDeps -> Reply CompressEstimateResponse.

(** A render with changed dependencies: the cleanup of the previous run
    clears its timer, then the body runs. *)
Definition estimateEffect (deps : EstimateDeps) (st : Estimator) : Estimator :=
  if isEmpty (est_files deps) then
    {| est_deps := deps; estimateSeqRef := estimateSeqRef st; estimateResult := None;
       estimateTimer := None; estimateInFlight := estimateInFlight st |}
  else
    let seq := S (estimateSeqRef st) in
    {| est_deps := deps; estimateSeqRef := seq; estimateResult := None;
       estimateTimer := Some {| run_seq := seq; run_deps := deps |};
       estimateInFlight := estimateInFlight st |}.

(** The timer fires: the call is made. *)
Definition estimateTimerFires (st : Estimator) : Estimator :=
  match estimateTimer st with
  | None => st
  | Some r =>
      {| est_deps := est_deps st; estimateSeqRef := estimateSeqRef st;
         estimateResult := estimateResult st; estimateTimer := None;
         estimateInFlight := estimateInFlight st ++ [r] |}
  end.

(** The promise of a call settles: [then] or [catch], both guarded. *)
Definition estimateSettles (index : nat) (st : Estimator) : Estimator :=
  match nth_error (estimateInFlight st) index with
  | None => st
  | Some r =>
      {| est_deps := est_deps st; estimateSeqRef := estimateSeqRef st;
         estimateResult :=
           if (estimateSeqRef st =? run_seq r)%nat then
             match compressEstimate (run_seq r) (run_deps r) with
             | Resolved result => Some result
             | Rejected _ => None
             end
           else estimateResult st;
         estimateTimer := estimateTimer st;
         estimateInFlight :=
           firstn index (estimateInFlight st) ++ skipn (S index) (estimateInFlight st) |}
  end.

Definition estimateStep (st : Estimator) (e : EstimateEvent) : Estimator :=
  match e with
  | est_render deps => estimateEffect deps st
  | est_timer => estimateTimerFires st
  | est_settle index => estimateSettles index st
  end.

Definition estimateRun (events : list EstimateEvent) : Estimator :=
  fold_left estimateStep events estimatorMounted.

End Estimate.

(** What holds of the estimator at all times: the timer and the calls
    under way belong to runs that have taken place, and the latest run, while
    there are paths, was made with what the page shows. *)
Definition latestRun (st : Estimator) (r : EstimateRun) : Prop :=
  (run_seq r <= estimateSeqRef st)%nat
  /\ (run_seq r = estimateSeqRef st -> est_files (est_deps st) <> [] ->
      run_deps r = est_deps st).

Definition estimatorInvariant
    (compressEstimate : nat -> EstimateDeps -> Reply CompressEstimateResponse)
    (st : Estimator) : Prop :=
  (forall r, estimateTimer st = Some r -> latestRun st r)
  /\ Forall (latestRun st) (estimateInFlight st)
  /\ (forall result, estimateResult st = Some result ->
        est_files (est_deps st) <> [] ->
        compressEstimate (estimateSeqRef st) (est_deps st) = Resolved result).

(** *** Further notions used in the statements *)

(** An invariant of the desk kept by a handler. *)
Definition keeps {A} (I : Desk -> Prop) (m : Studio.t A) : Prop :=
  forall d, I d -> I (snd (m d)).

(** The page is idle: nothing is shown as running. *)
Definition idle (w : World) : Prop :=
  isBusy (shell (ui w)) = false /\ busyLabel (shell (ui w)) = None.

(** The toasts that are showing carry ids given out so far, oldest first. *)
Fixpoint ascending (bound : Z) (ids : list Z) : Prop :=
  match ids with
  | [] => True
  | id :: rest => bound < id /\ ascending id rest
  end.

Definition toastsFresh (w : World) : Prop :=
  ascending 0 (map toast_id (toasts (shell (ui w))))
  /\ Forall (fun t => toast_id t <= toastIdRef (shell (ui w))) (toasts (shell (ui w)))
  /\ 0 <= toastIdRef (shell (ui w)).

(** The path text area of a tab, for the tabs that have one. *)
Definition pathsField (tabKey : TabKey) (s : AppState) : option string :=
  match tabKey with
  | tab_rename => Some (renamePaths (renameForm s))
  | tab_delete => Some (deletePaths (deleteForm s))
  | tab_compress => Some (compressPaths (compressForm s))
  | tab_exif_offset => Some (exifOffsetPaths (exifOffsetForm s))
  | tab_metadata_strip => Some (metadataStripPaths (metadataStripForm s))
  | tab_flatten | tab_settings | tab_about => None
  end.

(** The categories the preset [select] ticks for a preset; the custom
    preset ticks none of its own. *)
Definition presetCategories (preset : MetadataStripPreset) : option MetadataStripCategories :=
  match preset with
  | custom => None
  | _ => Some (metadataStripCategories
                 (metadataStripForm (onChangeMetadataStripPreset preset initialState)))
  end.

Definition presetAgrees (preset : MetadataStripPreset)
    (categories : MetadataStripCategories) : Prop :=
  forall mask, presetCategories preset = Some mask -> categories = mask.

Definition metadataAgrees (call : IpcCall) : Prop :=
  forall request,
    metadataStripRequestOf call = Some request ->
    presetAgrees (ms_preset request) (ms_categories request).

Definition metadataInvariant (w : World) : Prop :=
  presetAgrees (metadataStripPreset (metadataStripForm (ui w)))
               (metadataStripCategories (metadataStripForm (ui w)))
  /\ logged metadataAgrees w.

(** The four fields of the offset are within the ranges of a clock. *)
Definition offsetFieldsInRange (s : AppState) : Prop :=
  0 <= exifOffsetDays (exifOffsetForm s)
  /\ 0 <= exifOffsetHours (exifOffsetForm s) <= 23
  /\ 0 <= exifOffsetMinutes (exifOffsetForm s) <= 59
  /\ 0 <= exifOffsetSeconds (exifOffsetForm s) <= 59.

Definition offsetInvariant (w : World) : Prop := offsetFieldsInRange (ui w).

(** The tabs that run an operation, and the operations the engine reports
    progress of (types.ts). *)
Definition operationTabs : list TabKey :=
  [tab_rename; tab_delete; tab_compress; tab_flatten; tab_exif_offset; tab_metadata_strip].

Definition operationNames : list string :=
  ["rename"; "delete"; "flatten"; "compress"; "exifOffset"; "metadataStrip"].

(** What the progress banner shows on a tab: [progressMap[tabToOperation(tab)]]. *)
Definition banner (tabKey : TabKey) (s : AppState) : option OperationProgressEvent :=
  progressMap (shell s) !! tabToOperation (tabKeyString tabKey).

(** Names that differ even when case is ignored, as the editors compare
    them. *)
Definition distinctNames (names : list string) : Prop :=
  List.NoDup (map Js.toLowerCase names).

Definition namesDistinct (v : AppSettings) : Prop :=
  distinctNames (map dp_name (deletePatterns v))
  /\ distinctNames (map rt_name (renameTemplates v)).

Definition namesInvariant (w : World) : Prop := namesDistinct (settings (shell (ui w))).

(** The settings that the effect of the first render loads have distinct
    names. *)
Definition loadsDistinct (e : Event) : Prop :=
  forall loaded ffprobe,
    e = onShell (ev_mount (Resolved (loaded, ffprobe))) -> namesDistinct loaded.

(** The settings an import returns have distinct names. *)
Definition importsDistinct (backend : Backend) : Prop :=
  forall n inputPath mode policy next,
    on_import_settings backend n inputPath mode policy = Resolved next ->
    namesDistinct next.


(** A stored pattern that reads back as it was written: its extensions are
    normalised and its retreat folder, if any, is trimmed. *)
Definition readsBack (p : DeletePattern) : Prop :=
  Forall (fun e => normalisedExt e /\ separatorFree e = true) (dp_extensions p)
  /\ Js.trim (default "" (dp_retreatDir p)) = default "" (dp_retreatDir p).

(** The execute call that carries the payload of a preview call. *)
Definition asExecute (call : IpcCall) : IpcCall :=
  match call with
  | preview_rename request => execute_rename request
  | preview_delete request => execute_delete request
  | preview_flatten request => execute_flatten request
  | preview_compress request => execute_compress request
  | preview_exif_offset request => execute_exif_offset request
  | preview_metadata_strip request => execute_metadata_strip request
  | other => other
  end.

(** The four keys of the output folders, and what every save carries under
    them: a trimmed folder. *)
Definition outputKeys : list string := ["rename"; "delete_retreat"; "compress"; "flatten"].

Definition trimmedFolders (v : AppSettings) : Prop :=
  Forall (fun key => exists dir, outputDirectories v !! key = Some dir /\ Js.trim dir = dir)
         outputKeys.

Definition savesTrimmed (call : IpcCall) : Prop :=
  forall v, call = save_settings v -> trimmedFolders v.

(** A call names what it is to work on: an operation has input paths, all
    of them clean, or an input folder; a delete has extensions; an offset
    is not zero; an import or a conflict check has a path. *)
Definition inputsGiven (paths : list string) : Prop :=
  paths <> [] /\ Forall cleanPath paths.

Definition hasInputs (call : IpcCall) : Prop :=
  match call with
  | preview_rename request | execute_rename request =>
      inputsGiven (rn_inputPaths request)
  | preview_delete request | execute_delete request =>
      inputsGiven (dl_inputPaths request) /\ dl_extensions request <> []
  | preview_flatten request | execute_flatten request =>
      fl_inputDir request <> "" /\ Js.trim (fl_inputDir request) = fl_inputDir request
  | preview_compress request | execute_compress request =>
      inputsGiven (cp_inputPaths request)
  | preview_exif_offset request | execute_exif_offset request =>
      inputsGiven (ex_inputPaths request) /\ ex_offsetSeconds request <> 0
  | preview_metadata_strip request | execute_metadata_strip request =>
      inputsGiven (ms_inputPaths request)
  | import_settings inputPath _ _ | preview_import_conflicts inputPath =>
      inputPath <> "" /\ Js.trim inputPath = inputPath
  | save_settings _ | is_directory_path _ => True
  end.

(** * Properties *)

(** ** The parsers on examples *)

Example parsePaths_example :
  parsePaths (" C:/a.jpg" ++ Js.LF ++ "D:/b.jpg ,," ++ Js.LF) = ["C:/a.jpg"; "D:/b.jpg"].
Proof. reflexivity. Qed.

Example parseExts_example : parseExts ".JPG, tmp  .Bak," = ["jpg"; "tmp"; "bak"].
Proof. reflexivity. Qed.

Example parseExts_two_dots : parseExts "..jpg" = [".jpg"].
Proof. reflexivity. Qed.

Example mergePathText_example :
  mergePathText ("a" ++ Js.LF ++ "b") ["b"; "c"; ""; "a"; "c"]
  = "a" ++ Js.LF ++ "b" ++ Js.LF ++ "c".
Proof. reflexivity. Qed.

Example Number_parseInt_examples :
  Number_parseInt " 42px" = Some 42 /\ Number_parseInt "-7" = Some (-7)
  /\ Number_parseInt "" = None /\ Number_parseInt "abc" = None.
Proof. repeat split. Qed.

Example Math_round_examples :
  Math_round (5 # 2) = 3 /\ Math_round (-5 # 2) = -2 /\ Math_round (12 # 5) = 2.
Proof. repeat split. Qed.

(** ** Characters *)

Lemma lowerChar_idem c : Js.lowerChar (Js.lowerChar c) = Js.lowerChar c.
Proof. destruct c as [[] [] [] [] [] [] [] []]; reflexivity. Qed.

Lemma lowerChar_sep c : Js.isExtSeparator (Js.lowerChar c) = Js.isExtSeparator c.
Proof. destruct c as [[] [] [] [] [] [] [] []]; reflexivity. Qed.

Lemma lowerChar_dot c : Js.isDot (Js.lowerChar c) = Js.isDot c.
Proof. destruct c as [[] [] [] [] [] [] [] []]; reflexivity. Qed.

Lemma toLowerCase_idem s : Js.toLowerCase (Js.toLowerCase s) = Js.toLowerCase s.
Proof. induction s as [|c s IH]; simpl; [reflexivity|]. now rewrite lowerChar_idem, IH. Qed.

Lemma toLowerCase_startsWithDot s : startsWithDot (Js.toLowerCase s) = startsWithDot s.
Proof. destruct s as [|c s]; simpl; [reflexivity|apply lowerChar_dot]. Qed.

Lemma toLowerCase_allChars_sep s :
  allChars (fun c => negb (Js.isExtSeparator c)) (Js.toLowerCase s)
  = allChars (fun c => negb (Js.isExtSeparator c)) s.
Proof. induction s as [|c s IH]; simpl; [reflexivity|]. now rewrite lowerChar_sep, IH. Qed.

(** ** Pieces of a split *)

Lemma push_Forall (P : string -> Prop) c pieces :
  (forall t, P t -> P (String c t)) -> P (String c EmptyString) ->
  Forall P pieces -> Forall P (Js.push c pieces).
Proof.
  intros Hc H1 HF. destruct HF as [|t ts Ht Hts]; simpl.
  - constructor; [exact H1|constructor].
  - constructor; [apply Hc, Ht | exact Hts].
Qed.

Lemma splitExtSeparators_pieces v :
  Forall (fun t => allChars (fun c => negb (Js.isExtSeparator c)) t = true)
         (Js.splitExtSeparators v).
Proof.
  induction v as [|c v IH]; simpl.
  - constructor; [reflexivity|constructor].
  - destruct (Js.isExtSeparator c) eqn:Hc.
    + destruct (Js.startsWithExtSeparator v); [exact IH|].
      constructor; [reflexivity|exact IH].
    + apply push_Forall; [| |exact IH].
      * intros t Ht. simpl. now rewrite Hc, Ht.
      * simpl. now rewrite Hc.
Qed.

(** ** trim *)

Lemma trimEnd_no_space s :
  allChars (fun c => negb (Js.isWhiteSpace c)) s = true -> Js.trimEnd s = s.
Proof.
  induction s as [|c s IH]; simpl; [reflexivity|].
  intros H. apply andb_prop in H as [Hc Hs]. rewrite (IH Hs).
  destruct s; [|reflexivity].
  apply negb_true_iff in Hc. now rewrite Hc.
Qed.

Lemma trimStart_no_space s :
  allChars (fun c => negb (Js.isWhiteSpace c)) s = true -> Js.trimStart s = s.
Proof.
  destruct s as [|c s]; simpl; [reflexivity|].
  intros H. apply andb_prop in H as [Hc _]. apply negb_true_iff in Hc. now rewrite Hc.
Qed.

Lemma allChars_weaken (p q : ascii -> bool) s :
  (forall c, p c = true -> q c = true) -> allChars p s = true -> allChars q s = true.
Proof.
  intros Hpq. induction s as [|c s IH]; simpl; [reflexivity|].
  intros H. apply andb_prop in H as [Hc Hs]. now rewrite (Hpq _ Hc), (IH Hs).
Qed.

Lemma trim_piece t :
  allChars (fun c => negb (Js.isExtSeparator c)) t = true -> Js.trim t = t.
Proof.
  intros H. unfold Js.trim.
  assert (Hw : allChars (fun c => negb (Js.isWhiteSpace c)) t = true).
  { revert H. apply allChars_weaken. intros c. unfold Js.isExtSeparator.
    rewrite negb_orb. intros Hc. now apply andb_prop in Hc as [_ Hc]. }
  now rewrite (trimStart_no_space _ Hw), (trimEnd_no_space _ Hw).
Qed.

Lemma dropLeadingDot_allChars p s :
  allChars p s = true -> allChars p (Js.dropLeadingDot s) = true.
Proof.
  destruct s as [|c s]; simpl; [reflexivity|].
  intros H. destruct (Js.isDot c); [|exact H]. now apply andb_prop in H as [_ H].
Qed.

Lemma dropLeadingDot_startsWithDot s :
  startsWithTwoDots s = false -> startsWithDot (Js.dropLeadingDot s) = false.
Proof.
  destruct s as [|c s]; simpl; [reflexivity|].
  destruct (Js.isDot c) eqn:Hc; simpl; [tauto|]. now rewrite Hc.
Qed.

Lemma truthy_nonempty s : Js.truthy s = true <-> s <> "".
Proof. destruct s; simpl; split; congruence. Qed.

(** What [parseExts] makes of one piece. *)
Lemma parseExts_In v e :
  In e (parseExts v) <->
  e <> "" /\ exists t, In t (Js.splitExtSeparators v)
                       /\ e = Js.toLowerCase (Js.dropLeadingDot (Js.trim t)).
Proof.
  unfold parseExts. rewrite filter_In, in_map_iff, truthy_nonempty.
  split.
  - intros [[t [He Ht]] Hne]. split; [exact Hne|]. exists t. split; [exact Ht|now symmetry].
  - intros [Hne [t [Ht He]]]. split; [|exact Hne]. exists t. split; [now symmetry|exact Ht].
Qed.


(** ** The insertion-ordered set *)


Lemma Set_has_In s x : Js.Set_has s x = true <-> In x s.
Proof.
  unfold Js.Set_has. rewrite existsb_exists. split.
  - intros [y [Hy Heq]]. apply String.eqb_eq in Heq. now subst.
  - intros H. exists x. split; [exact H|apply String.eqb_refl].
Qed.

Lemma filter_filter_comm {A} (p q : A -> bool) l :
  List.filter p (List.filter q l) = List.filter q (List.filter p l).
Proof.
  induction l as [|x l IH]; simpl; [reflexivity|].
  destruct (p x) eqn:Hp, (q x) eqn:Hq; simpl; rewrite ?Hp, ?Hq, IH; reflexivity.
Qed.

Lemma filter_absorb {A} (p q : A -> bool) l :
  (forall x, In x l -> p x = true -> q x = true) ->
  List.filter p (List.filter q l) = List.filter p l.
Proof.
  induction l as [|x l IH]; simpl; intros H; [reflexivity|].
  destruct (q x) eqn:Hq; simpl.
  - destruct (p x); rewrite IH; auto.
  - destruct (p x) eqn:Hp.
    + rewrite (H x (or_introl eq_refl) Hp) in Hq. discriminate.
    + apply IH. auto.
Qed.

Lemma firstOccurrences_In l x : In x (firstOccurrences l) <-> In x l.
Proof.
  induction l as [|y l IH]; simpl; [tauto|].
  rewrite filter_In, IH, negb_true_iff. split.
  - intros [H|[H _]]; auto.
  - intros [H|H]; [auto|]. destruct (String.eqb_spec y x); [auto|]. right. auto.
Qed.

Lemma firstOccurrences_filter p l :
  firstOccurrences (List.filter p l) = List.filter p (firstOccurrences l).
Proof.
  induction l as [|x l IH]; simpl; [reflexivity|].
  destruct (p x) eqn:Hp; simpl.
  - rewrite IH. f_equal. apply filter_filter_comm.
  - rewrite IH. symmetry. apply filter_absorb.
    intros y _ Hy. apply negb_true_iff. destruct (String.eqb_spec x y); [|reflexivity].
    subst. congruence.
Qed.

Lemma fold_Set_add l acc :
  fold_left Js.Set_add l acc = (acc ++ firstOccurrences (List.filter (notIn acc) l))%list.
Proof.
  revert acc. induction l as [|x l IH]; intros acc; simpl.
  - now rewrite app_nil_r.
  - unfold Js.Set_add at 2, notIn at 1. destruct (Js.Set_has acc x) eqn:Hx; simpl.
    + apply IH.
    + rewrite IH, <- app_assoc. simpl. do 2 f_equal.
      rewrite <- firstOccurrences_filter. f_equal.
      rewrite filter_filter_comm.
      assert (E : forall y, notIn (acc ++ [x])%list y = notIn acc y && negb (String.eqb x y)).
      { intros y. unfold notIn, Js.Set_has. rewrite existsb_app. simpl.
        rewrite orb_false_r, negb_orb. f_equal. f_equal. apply String.eqb_sym. }
      clear IH. induction l as [|z l IHl]; simpl; [reflexivity|].
      rewrite E.
      destruct (notIn acc z) eqn:Hz, (negb (String.eqb x z)) eqn:Hxz;
        simpl; rewrite ?Hz, ?IHl; reflexivity.
Qed.

Lemma filter_true {A} (p : A -> bool) l :
  (forall x, In x l -> p x = true) -> List.filter p l = l.
Proof.
  induction l as [|x l IH]; simpl; intros H; [reflexivity|].
  rewrite (H x (or_introl eq_refl)), IH; auto.
Qed.

Lemma filter_false {A} (p : A -> bool) l :
  (forall x, In x l -> p x = false) -> List.filter p l = [].
Proof.
  induction l as [|x l IH]; simpl; intros H; [reflexivity|].
  rewrite (H x (or_introl eq_refl)), IH; auto.
Qed.

Lemma Array_from_Set_firstOccurrences l : Js.Array_from_Set l = firstOccurrences l.
Proof.
  unfold Js.Array_from_Set. rewrite fold_Set_add. simpl. f_equal.
  apply filter_true. reflexivity.
Qed.

Lemma firstOccurrences_NoDup l : List.NoDup (firstOccurrences l).
Proof.
  induction l as [|x l IH]; simpl; constructor.
  - rewrite filter_In, String.eqb_refl. simpl. intros [_ H]. discriminate.
  - now apply List.NoDup_filter.
Qed.

Lemma firstOccurrences_app a b :
  firstOccurrences (a ++ b)%list
  = (firstOccurrences a ++ List.filter (notIn a) (firstOccurrences b))%list.
Proof.
  rewrite <- (Array_from_Set_firstOccurrences (a ++ b)). unfold Js.Array_from_Set.
  rewrite fold_left_app. change (fold_left Js.Set_add a []) with (Js.Array_from_Set a).
  rewrite Array_from_Set_firstOccurrences, fold_Set_add. f_equal.
  rewrite firstOccurrences_filter. apply List.filter_ext. intros y.
  unfold notIn. f_equal. apply eq_true_iff_eq. rewrite !Set_has_In.
  apply firstOccurrences_In.
Qed.

Lemma firstOccurrences_NoDup_id l : List.NoDup l -> firstOccurrences l = l.
Proof.
  induction 1 as [|x l Hx Hl IH]; simpl; [reflexivity|].
  rewrite IH. f_equal. apply filter_true. intros y Hy.
  apply negb_true_iff. destruct (String.eqb_spec x y) as [E|E]; [|reflexivity].
  subst y. contradiction.
Qed.

Lemma firstOccurrences_absorb l l' :
  incl l' l -> firstOccurrences (firstOccurrences l ++ l')%list = firstOccurrences l.
Proof.
  intros Hincl. rewrite firstOccurrences_app.
  rewrite (firstOccurrences_NoDup_id _ (firstOccurrences_NoDup l)).
  rewrite filter_false; [apply app_nil_r|].
  intros y Hy. unfold notIn. apply negb_false_iff. apply Set_has_In.
  apply (proj2 (firstOccurrences_In _ _)). apply Hincl.
  exact (proj1 (firstOccurrences_In _ _) Hy).
Qed.

(** ** Pieces of a path text *)



Lemma splitLinesOrCommas_pieces v :
  Forall (fun t => allChars plainChar t = true) (Js.splitLinesOrCommas v).
Proof.
  induction v as [|c v IH]; simpl.
  - constructor; [reflexivity|constructor].
  - destruct (Js.isComma c || Js.isLF c) eqn:Hc.
    + constructor; [reflexivity|exact IH].
    + destruct (Js.isCR c && Js.startsWithLF v); [exact IH|].
      apply push_Forall; [| |exact IH].
      * intros t Ht. simpl. unfold plainChar at 1. now rewrite Hc, Ht.
      * simpl. unfold plainChar. now rewrite Hc.
Qed.

Lemma trimStart_allChars p s : allChars p s = true -> allChars p (Js.trimStart s) = true.
Proof.
  induction s as [|c s IH]; simpl; [reflexivity|].
  intros H. destruct (Js.isWhiteSpace c); [|exact H].
  apply IH. now apply andb_prop in H as [_ H].
Qed.

Lemma trimEnd_allChars p s : allChars p s = true -> allChars p (Js.trimEnd s) = true.
Proof.
  induction s as [|c s IH]; simpl; [reflexivity|].
  intros H. apply andb_prop in H as [Hc Hs]. specialize (IH Hs).
  destruct (Js.trimEnd s) eqn:E.
  - destruct (Js.isWhiteSpace c); simpl; [reflexivity|now rewrite Hc].
  - simpl. rewrite Hc. exact IH.
Qed.



Lemma trimEnd_tidyEnd s : tidyEnd (Js.trimEnd s) = true.
Proof.
  induction s as [|c s IH]; simpl; [reflexivity|].
  destruct (Js.trimEnd s) eqn:E.
  - destruct (Js.isWhiteSpace c) eqn:Hc; simpl; [reflexivity|now rewrite Hc].
  - exact IH.
Qed.

Lemma trimStart_tidyStart s : tidyStart (Js.trimStart s) = true.
Proof.
  induction s as [|c s IH]; simpl; [reflexivity|].
  destruct (Js.isWhiteSpace c) eqn:Hc; [exact IH|]. simpl. now rewrite Hc.
Qed.

Lemma trimEnd_tidyStart s : tidyStart s = true -> tidyStart (Js.trimEnd s) = true.
Proof.
  destruct s as [|c s]; simpl; [reflexivity|].
  intros Hc. destruct (Js.trimEnd s); [|exact Hc].
  apply negb_true_iff in Hc. rewrite Hc. simpl. now rewrite Hc.
Qed.

Lemma trimEnd_fixed s : tidyEnd s = true -> Js.trimEnd s = s.
Proof.
  induction s as [|c s IH]; simpl; [reflexivity|].
  destruct s as [|d s].
  - simpl. intros Hc. apply negb_true_iff in Hc. now rewrite Hc.
  - intros H. rewrite (IH H). reflexivity.
Qed.

Lemma trimStart_fixed s : tidyStart s = true -> Js.trimStart s = s.
Proof.
  destruct s as [|c s]; simpl; [reflexivity|].
  intros Hc. apply negb_true_iff in Hc. now rewrite Hc.
Qed.

Lemma trim_tidy s : tidyStart (Js.trim s) = true /\ tidyEnd (Js.trim s) = true.
Proof.
  unfold Js.trim. split; [|apply trimEnd_tidyEnd].
  apply trimEnd_tidyStart, trimStart_tidyStart.
Qed.

Lemma trim_fixed s : tidyStart s = true -> tidyEnd s = true -> Js.trim s = s.
Proof.
  intros H1 H2. unfold Js.trim. rewrite (trimStart_fixed _ H1). now apply trimEnd_fixed.
Qed.


Lemma parsePaths_clean v : Forall cleanPath (parsePaths v).
Proof.
  unfold parsePaths. apply List.Forall_forall. intros p Hp.
  apply filter_In in Hp as [Hp Hne]. apply in_map_iff in Hp as [t [<- Ht]].
  pose proof (splitLinesOrCommas_pieces v) as Hall.
  rewrite List.Forall_forall in Hall. specialize (Hall t Ht).
  split; [now apply truthy_nonempty|]. split.
  - unfold Js.trim. now apply trimEnd_allChars, trimStart_allChars.
  - apply trim_tidy.
Qed.

Lemma tidyEnd_not_CR c s : tidyEnd (String c s) = true -> s = "" -> Js.isCR c = false.
Proof.
  intros H ->. simpl in H. apply negb_true_iff in H.
  destruct c as [[] [] [] [] [] [] [] []]; try reflexivity; discriminate H.
Qed.

(** A clean path in front of a line feed is split off whole. *)
Lemma splitLinesOrCommas_line p rest :
  allChars plainChar p = true -> tidyEnd p = true ->
  Js.splitLinesOrCommas (p ++ Js.LF ++ rest) = p :: Js.splitLinesOrCommas rest.
Proof.
  induction p as [|c p IH]; intros Hplain Htidy.
  - reflexivity.
  - simpl in Hplain. apply andb_prop in Hplain as [Hc Hp].
    unfold plainChar in Hc. apply negb_true_iff in Hc.
    assert (Htidy' : tidyEnd p = true).
    { destruct p; [reflexivity|exact Htidy]. }
    change (String c p ++ Js.LF ++ rest) with (String c (p ++ Js.LF ++ rest)).
    cbn [Js.splitLinesOrCommas]. rewrite Hc.
    assert (Hcr : Js.isCR c && Js.startsWithLF (p ++ Js.LF ++ rest) = false).
    { destruct p as [|d p].
      - rewrite (tidyEnd_not_CR c "" Htidy eq_refl). reflexivity.
      - simpl. simpl in Hp. apply andb_prop in Hp as [Hd _].
        unfold plainChar in Hd. apply negb_true_iff in Hd.
        apply orb_false_elim in Hd as [_ Hd]. rewrite Hd. apply andb_false_r. }
    rewrite Hcr, (IH Hp Htidy'). reflexivity.
Qed.

Lemma splitLinesOrCommas_single p :
  allChars plainChar p = true -> tidyEnd p = true ->
  Js.splitLinesOrCommas p = [p].
Proof.
  induction p as [|c p IH]; intros Hplain Htidy.
  - reflexivity.
  - simpl in Hplain. apply andb_prop in Hplain as [Hc Hp].
    unfold plainChar in Hc. apply negb_true_iff in Hc.
    assert (Htidy' : tidyEnd p = true).
    { destruct p; [reflexivity|exact Htidy]. }
    cbn [Js.splitLinesOrCommas]. rewrite Hc.
    assert (Hcr : Js.isCR c && Js.startsWithLF p = false).
    { destruct p as [|d p].
      - apply andb_false_r.
      - simpl. simpl in Hp. apply andb_prop in Hp as [Hd _].
        unfold plainChar in Hd. apply negb_true_iff in Hd.
        apply orb_false_elim in Hd as [_ Hd]. rewrite Hd. apply andb_false_r. }
    rewrite Hcr, (IH Hp Htidy'). reflexivity.
Qed.

Lemma parsePaths_joinLines l : Forall cleanPath l -> parsePaths (Js.joinLines l) = l.
Proof.
  induction 1 as [|p l [Hne [Hplain [Hs He]]] Hl IH]; [reflexivity|].
  unfold Js.joinLines in *. simpl. destruct l as [|q l].
  - unfold parsePaths. rewrite (splitLinesOrCommas_single p Hplain He). simpl.
    rewrite (trim_fixed p Hs He). apply truthy_nonempty in Hne. now rewrite Hne.
  - unfold parsePaths. rewrite (splitLinesOrCommas_line p _ Hplain He). simpl.
    rewrite (trim_fixed p Hs He). apply truthy_nonempty in Hne. rewrite Hne.
    f_equal. exact IH.
Qed.

Lemma holdsPath_clean p : holdsPath p -> cleanPath p.
Proof.
  intros H. pose proof (parsePaths_clean p) as Hc. unfold holdsPath in H.
  rewrite H in Hc. now apply Forall_inv in Hc.
Qed.

(** ** Running handlers *)

(** Unfolds the monad down to the answers of the engine. *)
Ltac run_app :=
  cbv beta iota delta
    [settle run tryCatchFinally bind ret throw update invoke live addToast
     clearProgress
     previewRename executeRename previewDelete executeDelete previewFlatten
     executeFlatten previewCompress executeCompress previewExifOffset
     executeExifOffset previewMetadataStrip executeMetadataStrip saveSettings
     importSettings previewImportConflicts isDirectoryPath];
  cbn [fst snd ui ipc].

(** Case analysis on the next answer of the engine (or the next test). *)
Ltac next_case :=
  match goal with
  | |- context [match ?r with Rejected _ => _ | Resolved _ => _ end] =>
      destruct r eqn:?
  | |- context [if ?b then _ else _] => destruct b eqn:?
  end; cbn [fst snd ui ipc].

Lemma isEmpty_true {A} (l : list A) : isEmpty l = true <-> l = [].
Proof. destruct l; simpl; split; congruence. Qed.

Lemma isEmpty_false {A} (l : list A) : isEmpty l = false <-> l <> [].
Proof. destruct l; simpl; split; congruence. Qed.

(** ** Invariants of handlers *)

Section Preserves.

Context {I : World -> Prop}.

Lemma preserves_ret {A} (a : A) : preserves I (ret a).
Proof. intros w Hw. exact Hw. Qed.

Lemma preserves_throw {A} message : preserves I (@throw A message).
Proof. intros w Hw. exact Hw. Qed.

Lemma preserves_live : preserves I live.
Proof. intros w Hw. exact Hw. Qed.

Lemma preserves_bind {A B} (m : App A) (k : A -> App B) :
  preserves I m -> (forall a, preserves I (k a)) -> preserves I (bind m k).
Proof.
  intros Hm Hk w Hw. unfold bind. specialize (Hm w Hw).
  destruct (m w) as [[a|e] w']; cbn [snd] in *; [now apply Hk|exact Hm].
Qed.

Lemma preserves_tryCatchFinally body handler cleanup :
  preserves I body -> (forall e, preserves I (handler e)) -> preserves I cleanup ->
  preserves I (tryCatchFinally body handler cleanup).
Proof.
  intros Hb Hh Hc w Hw. unfold tryCatchFinally. specialize (Hb w Hw).
  destruct (body w) as [[a|e] w']; cbn [snd] in *; [now apply Hc|].
  apply (preserves_bind (handler e) (fun _ => cleanup)); auto.
Qed.

Lemma preserves_update f :
  (forall w, I w -> I {| ui := f (ui w); ipc := ipc w |}) -> preserves I (update f).
Proof. intros H w Hw. now apply H. Qed.

Lemma preserves_invoke {A} call (answer : nat -> Reply A) :
  (forall w, I w -> I {| ui := ui w; ipc := ipc w ++ [call] |}) ->
  preserves I (invoke call answer).
Proof.
  intros H w Hw. unfold invoke. destruct (answer _); cbn [snd]; now apply H.
Qed.

Lemma preserves_settle (m : App unit) w : preserves I m -> I w -> I (settle m w).
Proof. intros Hm Hw. now apply Hm. Qed.

End Preserves.

(** Invariants that only speak about the log. *)
Section LogInvariant.

Variable Q : IpcCall -> Prop.

Lemma logged_update f : preserves (logged Q) (update f).
Proof. apply preserves_update. intros w Hw. exact Hw. Qed.

Lemma logged_invoke {A} call (answer : nat -> Reply A) :
  Q call -> preserves (logged Q) (invoke call answer).
Proof.
  intros Hq. apply preserves_invoke. intros w Hw. unfold logged in *. cbn [ipc].
  apply Forall_app. split; [exact Hw|]. constructor; [exact Hq|constructor].
Qed.

Lemma logged_addToast type message : preserves (logged Q) (addToast type message).
Proof. apply logged_update. Qed.

Lemma logged_run action label :
  preserves (logged Q) action -> preserves (logged Q) (run action label).
Proof.
  intros Ha. unfold run.
  apply preserves_bind; [apply logged_update|intros _].
  apply preserves_bind; [apply logged_update|intros _].
  apply preserves_tryCatchFinally; [exact Ha|intros e; apply logged_addToast|].
  apply preserves_bind; [apply logged_update|intros _; apply logged_update].
Qed.

Lemma logged_issued (m : App unit) w calls :
  ipc (settle m w) = (ipc w ++ calls)%list -> Forall Q calls ->
  logged Q w -> logged Q (settle m w).
Proof.
  intros E Hc Hw. unfold logged in *. rewrite E. apply Forall_app. now split.
Qed.

End LogInvariant.

(** The listener of the window closes over the first render, in which no
    tab has any input yet: its [previewCurrentTab] stops at the input check
    on every tab. *)
Lemma previewCurrentTab_first_render backend tabKey :
  previewCurrentTab backend initialState tabKey = ret tt.
Proof. destruct tabKey; reflexivity. Qed.

Section DropInvariant.

Variable backend : Backend.
Variable Q : IpcCall -> Prop.
Hypothesis Q_is_directory_path : forall path, Q (is_directory_path path).

Lemma logged_firstDirectory paths : preserves (logged Q) (firstDirectory backend paths).
Proof.
  induction paths as [|path rest IH]; cbn [firstDirectory].
  - apply preserves_throw.
  - apply preserves_bind; [apply logged_invoke, Q_is_directory_path|].
    intros [|]; [|exact IH].
    apply preserves_bind; [apply logged_update|intros _; apply logged_addToast].
Qed.

Lemma logged_applyPathsToCurrentTab incoming :
  preserves (logged Q) (applyPathsToCurrentTab backend incoming).
Proof.
  unfold applyPathsToCurrentTab. destruct (isEmpty _); [apply preserves_ret|].
  apply preserves_bind; [apply preserves_live|]. intros now.
  destruct (tab (shell now));
    try apply preserves_ret;
    try (apply preserves_bind; [apply logged_update|intros _; apply logged_addToast]).
  apply logged_firstDirectory.
Qed.

Lemma logged_onDrop paths : preserves (logged Q) (onDrop backend initialState paths).
Proof.
  unfold onDrop. apply logged_run.
  apply preserves_bind; [apply preserves_live|]. intros now.
  apply preserves_bind; [apply logged_applyPathsToCurrentTab|]. intros _.
  rewrite previewCurrentTab_first_render. apply preserves_ret.
Qed.

End DropInvariant.

(** C1.  On every tab, each preview flow (the form's submit handler,
    [previewCurrentTab] and, on the compress tab, the target-size button)
    makes exactly one call when its input checks pass, and that call is the
    [preview_*] command of the tab, not an [execute_*] and not a
    settings-writing command; the stored execute result of the tab is then
    cleared, whatever the engine answers.  When a check fails the flow
    makes no call and leaves the stored execute result as it was. *)
Theorem C1_preview_invokes_only_preview
    (backend : Backend) (toFixed : Q -> nat -> string)
    (s : AppState) (w : World) (tabKey : TabKey) :
  previewedOnce tabKey (inputsPresent tabKey s) w
    (settle (previewCurrentTab backend s tabKey) w)
  /\ previewedOnce tabKey (submitAccepts tabKey s) w
       (settle (submitPreview backend s tabKey) w)
  /\ previewedOnce tab_compress (targetGiven s) w
       (settle (compressCalc backend toFixed s) w).
Proof.
  unfold previewedOnce, submitAccepts, targetGiven.
  split; [|split]; try destruct tabKey;
    cbv beta iota zeta delta [previewCurrentTab submitPreview renameSubmit deleteSubmit
      compressSubmit flattenSubmit exifOffsetSubmit metadataStripSubmit compressCalc
      inputsPresent];
    repeat match goal with
      | |- context [parsePositiveInt ?v] => destruct (parsePositiveInt v) eqn:?
      | |- context [isEmpty ?l] => destruct (isEmpty l) eqn:?
      | |- context [Js.truthy ?l] => destruct (Js.truthy l) eqn:?
      | |- context [totalOffsetSeconds ?l =? 0] => destruct (totalOffsetSeconds l =? 0) eqn:?
      end;
    cbn [negb andb]; run_app; repeat next_case;
    first [ split; reflexivity
          | split; [eexists; repeat split; reflexivity | reflexivity] ].
Qed.

(** The preview button of the rename tab, pressed on a render that keeps an
    execute result. *)
Example preview_clears_execute_result :
  let before := {| ui := sampleRenameState; ipc := [] |} in
  let after := settle (submitPreview quietEngine sampleRenameState tab_rename) before in
  storedExecResult tab_rename (ui before) = Some emptyExecution
  /\ storedExecResult tab_rename (ui after) = None
  /\ ipc after = [preview_rename (renameRequest sampleRenameState)].
Proof. repeat split. Qed.

Lemma plannerModel_total sources r q :
  plannerModel sources r q
  = (IZR (fold_right Z.add 0%Z sources) * (IZR r / 100) ^ 2 * Rpower (IZR q / 100) 1.25)%R.
Proof.
  induction sources as [|source rest IH]; cbn [plannerModel fold_right].
  - simpl. ring.
  - fold (plannerModel rest r q). rewrite IH, plus_IZR. ring.
Qed.

(** C2.  With the source totals collected and no sampled estimate from the
    engine, the size summary is marked as not sampled and, for a positive
    quality [q], its estimated total is [S * (r/100)^2 * (q/100)^1.25],
    where [S] is the collected total; for any list of source sizes that add
    up to [S] this is the sum of the per-item model of the planner.  For
    [q = 0] the estimate is 0.  (JavaScript doubles are read as real
    numbers.) *)
Theorem C2_client_estimate_follows_model (s : AppState) (info : CompressCollectInfoResponse) :
  compressSourceInfo (compressForm s) = Some info ->
  compressEstimateResult (compressForm s) = None ->
  exists summary,
    compressSizeSummary s = Some summary
    /\ isSampled summary = false
    /\ totalSource summary = IZR (totalSize info)
    /\ (0 < compressQuality (compressForm s) ->
        totalEstimated summary
        = Some (IZR (totalSize info)
                * (IZR (compressResizePercent (compressForm s)) / 100) ^ 2
                * Rpower (IZR (compressQuality (compressForm s)) / 100) 1.25)%R
        /\ (forall sources,
              fold_right Z.add 0 sources = totalSize info ->
              totalEstimated summary
              = Some (plannerModel sources (compressResizePercent (compressForm s))
                                   (compressQuality (compressForm s)))))
    /\ (compressQuality (compressForm s) = 0 -> totalEstimated summary = Some 0%R).
Proof.
  intros Hinfo Hest. unfold compressSizeSummary. rewrite Hinfo, Hest.
  eexists. split; [reflexivity|]. cbn [isSampled totalSource totalEstimated].
  split; [reflexivity|]. split; [reflexivity|]. split.
  - intros Hq.
    assert (Hpos : (0 < IZR (compressQuality (compressForm s)) / 100)%R).
    { apply Rdiv_lt_0_compat; [now apply IZR_lt|lra]. }
    unfold Math_pow. destruct (Rlt_dec _ _) as [_|Hn]; [|contradiction].
    cbn [option_map].
    assert (E : forall S r P : R, (S * r * r * P = S * r ^ 2 * P)%R) by (intros; ring).
    split; [now rewrite E|].
    intros sources Hsum. now rewrite plannerModel_total, Hsum, E.
  - intros Hq. rewrite Hq. unfold Math_pow.
    destruct (Rlt_dec _ _) as [Hlt|_]; [lra|].
    destruct (Req_dec_T _ _) as [_|Hne]; [|lra].
    cbn [option_map]. f_equal. ring.
Qed.

Lemma C2_witness :
  exists summary,
    compressSizeSummary sampleCompressState = Some summary
    /\ totalEstimated summary
       = Some (IZR 1000 * (IZR 100 / 100) ^ 2 * Rpower (IZR 82 / 100) 1.25)%R.
Proof.
  destruct (C2_client_estimate_follows_model sampleCompressState
              {| fileCount := 2; totalSize := 1000 |} eq_refl eq_refl)
    as [summary [H1 [_ [_ [H2 _]]]]].
  exists summary. split; [exact H1|]. apply H2. reflexivity.
Defined.





(** C5.  With an empty path list or an empty parsed extension list, the
    delete form's preview handler and the execute handler log no call and
    end with an error toast.  Whatever the state, every call that one of
    the three delete flows logs is a delete request whose extension list and
    path list are both non-empty. *)
Theorem C5_delete_rejects_empty_inputs (backend : Backend) (s : AppState) (w : World) :
  (deleteFiles s = [] \/ parseExts (deleteExtensions (deleteForm s)) = [] ->
   Forall (fun flow => ipc (settle flow w) = ipc w /\ errorShown w (settle flow w))
          [deleteSubmit backend s; deleteExecute backend s])
  /\ Forall (fun flow =>
       exists calls,
         ipc (settle flow w) = (ipc w ++ calls)%list
         /\ Forall (fun call => exists request,
                      deleteRequestOf call = Some request
                      /\ dl_extensions request <> []
                      /\ dl_inputPaths request <> []) calls)
       [ deleteSubmit backend s;
         deleteExecute backend s;
         previewCurrentTab backend s tab_delete ].
Proof.
  split.
  - intros Hempty.
    assert (Hguard : isEmpty (deleteFiles s) = true
                     \/ isEmpty (parseExts (deleteExtensions (deleteForm s))) = true).
    { destruct Hempty as [H|H]; [left|right]; now apply isEmpty_true. }
    repeat constructor;
      cbv beta iota delta [deleteSubmit deleteExecute]; run_app;
      destruct (isEmpty (deleteFiles s)) eqn:Hfiles;
      try (destruct (isEmpty (parseExts (deleteExtensions (deleteForm s)))) eqn:Hexts);
      try (destruct Hguard; discriminate);
      cbn [fst snd ui ipc]; try reflexivity; eexists; reflexivity.
  - repeat constructor;
      cbv beta iota delta [previewCurrentTab deleteSubmit deleteExecute];
      run_app; repeat next_case;
      first
        [ exists []; rewrite app_nil_r; split; [reflexivity|constructor]
        | eexists [_]; split; [reflexivity|];
          constructor; [|constructor]; eexists; split; [reflexivity|];
          split; now apply isEmpty_false ].
Qed.

Lemma C5_witness :
  Forall (fun flow => ipc (settle flow initialWorld) = ipc initialWorld
                      /\ errorShown initialWorld (settle flow initialWorld))
         [deleteSubmit quietEngine initialState; deleteExecute quietEngine initialState].
Proof.
  apply (C5_delete_rejects_empty_inputs quietEngine initialState initialWorld).
  left. reflexivity.
Defined.




(** ** The autosave *)

Lemma clearOutputSaveTimer_oneTimer rt : oneTimer rt -> timers (clearOutputSaveTimer rt) = [].
Proof.
  unfold clearOutputSaveTimer. intros [H|[tm [H1 H2]]].
  - destruct (outputSaveTimerRef rt); [|exact H]. cbn [clearTimeout timers]. now rewrite H.
  - rewrite H2. cbn [clearTimeout timers]. rewrite H1. cbn [List.filter].
    now rewrite Nat.eqb_refl.
Qed.

Lemma clearOutputSaveTimer_frame rt :
  page (clearOutputSaveTimer rt) = page rt
  /\ settingsRef (clearOutputSaveTimer rt) = settingsRef rt
  /\ settingsLoadedRef (clearOutputSaveTimer rt) = settingsLoadedRef rt
  /\ outputSaveTimerRef (clearOutputSaveTimer rt) = outputSaveTimerRef rt
  /\ clock (clearOutputSaveTimer rt) = clock rt.
Proof.
  unfold clearOutputSaveTimer.
  destruct (outputSaveTimerRef rt) eqn:E;
    cbn [clearTimeout page settingsRef settingsLoadedRef outputSaveTimerRef clock];
    rewrite ?E; repeat (split; try reflexivity).
Qed.

Lemma clearOutputSaveTimer_keeps_oneTimer rt : oneTimer rt -> oneTimer (clearOutputSaveTimer rt).
Proof. intros H. left. now apply clearOutputSaveTimer_oneTimer. Qed.

(** The effect, when the settings are loaded, leaves a save pending. *)
Lemma rerun_pending rt :
  settingsLoadedRef rt = true -> oneTimer rt ->
  let rt' := rerunOutputDirectoriesEffect rt in
  savePending rt' /\ page rt' = page rt /\ settingsRef rt' = settingsRef rt
  /\ clock rt' = clock rt.
Proof.
  intros Hloaded Hone. unfold rerunOutputDirectoriesEffect.
  set (rt0 := if cleanupArmed rt then clearOutputSaveTimer rt else rt).
  assert (H0 : oneTimer rt0 /\ page rt0 = page rt /\ settingsRef rt0 = settingsRef rt
               /\ settingsLoadedRef rt0 = true /\ clock rt0 = clock rt).
  { subst rt0. destruct (cleanupArmed rt).
    - destruct (clearOutputSaveTimer_frame rt) as [E1 [E2 [E3 [_ E5]]]].
      rewrite E1, E2, E3, E5. repeat split; auto.
      now apply clearOutputSaveTimer_keeps_oneTimer.
    - repeat split; auto. }
  destruct H0 as [Hone0 [Ep [Es [El Ec]]]].
  unfold outputDirectoriesEffect. rewrite El. cbn [negb].
  destruct (clearOutputSaveTimer_frame rt0) as [E1 [E2 [E3 [_ E5]]]].
  cbn zeta. unfold savePending.
  cbn [settingsLoadedRef timers timer_due timer_render timer_id outputSaveTimerRef page
       settingsRef clock].
  rewrite (clearOutputSaveTimer_oneTimer rt0 Hone0), E1, E2, E3, E5, Ep, Es, El, Ec.
  repeat split. eexists. repeat split.
Qed.

Lemma rerun_not_loaded rt :
  settingsLoadedRef rt = false -> cleanupArmed rt = false ->
  let rt' := rerunOutputDirectoriesEffect rt in
  timers rt' = timers rt /\ page rt' = page rt /\ settingsLoadedRef rt' = false
  /\ cleanupArmed rt' = false.
Proof.
  intros Hl Hc. unfold rerunOutputDirectoriesEffect, outputDirectoriesEffect.
  rewrite Hc, Hl. repeat split.
Qed.

Lemma onPage_update_frame f rt :
  let rt' := onPage (update f) rt in
  ui (page rt') = f (ui (page rt)) /\ ipc (page rt') = ipc (page rt)
  /\ settingsRef rt' = settingsRef rt /\ settingsLoadedRef rt' = settingsLoadedRef rt
  /\ timers rt' = timers rt /\ outputSaveTimerRef rt' = outputSaveTimerRef rt
  /\ clock rt' = clock rt /\ cleanupArmed rt' = cleanupArmed rt.
Proof. repeat split. Qed.

(** A changing edit of a loaded page leaves a save pending for the new
    render and logs nothing. *)
Lemma edit_pending backend rt field value :
  settingsLoadedRef rt = true -> oneTimer rt ->
  String.eqb (outputField field (ui (page rt))) value = false ->
  let rt' := autosaveStep backend rt (EditOutputDir field value) in
  savePending rt'
  /\ ui (page rt') = setOutputField field value (ui (page rt))
  /\ ipc (page rt') = ipc (page rt)
  /\ settingsRef rt' = settingsRef rt
  /\ clock rt' = clock rt.
Proof.
  intros Hl Hone Hchange. cbn [autosaveStep]. rewrite Hchange.
  set (rt1 := onPage (update (setOutputField field value)) rt).
  destruct (onPage_update_frame (setOutputField field value) rt)
    as [Eu [Ei [Es [El [Et [Er [Ec _]]]]]]]. fold rt1 in Eu, Ei, Es, El, Et, Er, Ec.
  assert (Hone1 : oneTimer rt1).
  { unfold oneTimer. rewrite Et, Er. exact Hone. }
  assert (Hl1 : settingsLoadedRef rt1 = true) by (now rewrite El).
  destruct (rerun_pending rt1 Hl1 Hone1) as [Hp [Epg [Esr Eck]]].
  split; [exact Hp|]. rewrite Epg, Esr, Eck. repeat split; auto.
Qed.

Lemma savePending_oneTimer rt : savePending rt -> oneTimer rt.
Proof. intros [_ [tm [H1 [_ [_ H2]]]]]. right. now exists tm. Qed.

(** While a save is pending, less than 400 ms pass without anything
    happening but the clock. *)
Lemma elapse_short backend rt ms :
  savePending rt -> (ms < 400)%nat ->
  let rt' := elapse backend ms rt in
  page rt' = page rt /\ settingsRef rt' = settingsRef rt
  /\ settingsLoadedRef rt' = true /\ oneTimer rt'.
Proof.
  intros [Hl [tm [Ht [Hdue [_ Href]]]]] Hms. unfold elapse. rewrite Ht. cbn [List.filter].
  assert (E : (timer_due tm <=? clock rt + ms)%nat = false).
  { apply Nat.leb_gt. lia. }
  rewrite E. cbn [negb fold_left page settingsRef settingsLoadedRef].
  repeat split; auto. right. exists tm. split; [reflexivity|exact Href].
Qed.

(** The callback logs one [save_settings], whatever the engine answers. *)
Lemma outputSaveCallback_log backend s rt :
  ipc (page (outputSaveCallback backend s rt))
  = (ipc (page rt) ++ [save_settings (withOutputDirectories (settingsRef rt) s)])%list.
Proof.
  unfold outputSaveCallback. cbn [page]. run_app. next_case; reflexivity.
Qed.

(** Once 400 ms have passed, the pending save has been sent. *)
Lemma elapse_long backend rt ms :
  savePending rt -> (400 <= ms)%nat ->
  ipc (page (elapse backend ms rt))
  = (ipc (page rt)
     ++ [save_settings (withOutputDirectories (settingsRef rt) (ui (page rt)))])%list.
Proof.
  intros [Hl [tm [Ht [Hdue [Hrender Href]]]]] Hms. unfold elapse. rewrite Ht.
  cbn [List.filter].
  assert (E : (timer_due tm <=? clock rt + ms)%nat = true).
  { apply Nat.leb_le. lia. }
  rewrite E. cbn [negb fold_left]. rewrite outputSaveCallback_log.
  cbn [page settingsRef]. now rewrite Hrender.
Qed.

(** The rest of a burst: pauses under 400 ms, each followed by a changing
    edit. *)
Lemma burst_tail backend more : forall rt,
  savePending rt ->
  Forall (fun p => (fst p < 400)%nat) more ->
  allChange (ui (page rt)) (map snd more) = true ->
  let rt' :=
    autosaveRun backend rt
      (flat_map (fun p => [Elapse (fst p); EditOutputDir (fst (snd p)) (snd (snd p))]) more) in
  savePending rt'
  /\ ui (page rt') = applyEdits (ui (page rt)) (map snd more)
  /\ ipc (page rt') = ipc (page rt)
  /\ settingsRef rt' = settingsRef rt.
Proof.
  induction more as [|[ms [field value]] more IH]; intros rt Hp Hgaps Hchange.
  - cbn [flat_map autosaveRun fold_left map applyEdits].
    split; [exact Hp|repeat split].
  - apply Forall_cons_iff in Hgaps as [Hms Hgaps]. cbn [fst] in Hms.
    cbn [map snd allChange] in Hchange. apply andb_prop in Hchange as [Hc Hrest].
    apply negb_true_iff in Hc.
    cbn [flat_map fst snd app autosaveRun fold_left autosaveStep].
    destruct (elapse_short backend rt ms Hp Hms) as [Epage [Esr [El Hone]]].
    set (rt1 := elapse backend ms rt) in *.
    assert (Hc1 : String.eqb (outputField field (ui (page rt1))) value = false)
      by (now rewrite Epage).
    destruct (edit_pending backend rt1 field value El Hone Hc1) as [Hp2 [Eu [Ei [Es Ec]]]].
    cbn [autosaveStep] in Hp2, Eu, Ei, Es, Ec.
    set (rt2 := if String.eqb (outputField field (ui (page rt1))) value then rt1
                else rerunOutputDirectoriesEffect
                       (onPage (update (setOutputField field value)) rt1)) in *.
    assert (Hrest2 : allChange (ui (page rt2)) (map snd more) = true).
    { rewrite Eu, Epage. exact Hrest. }
    destruct (IH rt2 Hp2 Hgaps Hrest2) as [Hp3 [Eu3 [Ei3 Es3]]].
    unfold autosaveRun in Hp3, Eu3, Ei3, Es3.
    split; [exact Hp3|]. rewrite Eu3, Ei3, Es3, Eu, Ei, Es, Epage, Esr.
    repeat split.
Qed.

Lemma rerun_oneTimer rt : oneTimer rt -> oneTimer (rerunOutputDirectoriesEffect rt).
Proof.
  intros Hone. destruct (settingsLoadedRef rt) eqn:Hl.
  - apply savePending_oneTimer. now apply rerun_pending.
  - unfold rerunOutputDirectoriesEffect.
    set (rt0 := if cleanupArmed rt then clearOutputSaveTimer rt else rt).
    assert (H0 : oneTimer rt0 /\ settingsLoadedRef rt0 = false).
    { subst rt0. destruct (cleanupArmed rt); [|now split].
      destruct (clearOutputSaveTimer_frame rt) as [_ [_ [E3 _]]]. rewrite E3.
      split; [now apply clearOutputSaveTimer_keeps_oneTimer|exact Hl]. }
    destruct H0 as [Hone0 Hl0]. unfold outputDirectoriesEffect. rewrite Hl0. exact Hone0.
Qed.

Lemma callbacks_frame backend due : forall rt,
  let rt' := fold_left (fun r tm => outputSaveCallback backend (timer_render tm) r) due rt in
  timers rt' = timers rt /\ outputSaveTimerRef rt' = outputSaveTimerRef rt.
Proof.
  induction due as [|tm due IH]; intros rt; cbn [fold_left]; [now split|].
  destruct (IH (outputSaveCallback backend (timer_render tm) rt)) as [E1 E2].
  cbn zeta in E1, E2. rewrite E1, E2. now split.
Qed.

Lemma elapse_oneTimer backend ms rt : oneTimer rt -> oneTimer (elapse backend ms rt).
Proof.
  intros Hone. unfold elapse.
  match goal with
  | |- oneTimer (fold_left _ ?due ?rt0) =>
      destruct (callbacks_frame backend due rt0) as [E1 E2]
  end.
  cbn zeta in E1, E2. unfold oneTimer. rewrite E1, E2. cbn [timers outputSaveTimerRef].
  destruct Hone as [H|[tm [H1 H2]]].
  - left. now rewrite H.
  - rewrite H1. cbn [List.filter]. destruct (timer_due tm <=? clock rt + ms)%nat; cbn [negb].
    + now left.
    + right. now exists tm.
Qed.

Lemma autosaveStep_oneTimer backend rt e :
  oneTimer rt -> oneTimer (autosaveStep backend rt e).
Proof.
  intros Hone. destruct e as [loaded|field value|ms]; cbn [autosaveStep].
  - match goal with
    | |- oneTimer (if _ then ?a else rerunOutputDirectoriesEffect ?a) =>
        assert (Ha : oneTimer a) by exact Hone
    end.
    destruct (sameOutputDirs _ _); [exact Ha|now apply rerun_oneTimer].
  - destruct (String.eqb _ _); [exact Hone|]. apply rerun_oneTimer. exact Hone.
  - now apply elapse_oneTimer.
Qed.

Lemma autosaveRun_oneTimer backend history : forall rt,
  oneTimer rt -> oneTimer (autosaveRun backend rt history).
Proof.
  induction history as [|e history IH]; intros rt Hone; [exact Hone|].
  cbn [autosaveRun fold_left]. apply IH. now apply autosaveStep_oneTimer.
Qed.

(** Until the settings arrive nothing is queued and nothing is sent. *)
Lemma idle_before_load backend events : forall rt,
  settingsLoadedRef rt = false -> cleanupArmed rt = false -> timers rt = [] ->
  Forall beforeLoad events ->
  ipc (page (autosaveRun backend rt events)) = ipc (page rt).
Proof.
  induction events as [|e events IH]; intros rt Hl Hc Ht Hall; [reflexivity|].
  apply Forall_cons_iff in Hall as [He Hall]. cbn [autosaveRun fold_left].
  destruct e as [loaded|field value|ms]; [contradiction He| |]; cbn [autosaveStep].
  - destruct (String.eqb _ _); [now apply IH|].
    set (rt1 := onPage (update (setOutputField field value)) rt).
    destruct (rerun_not_loaded rt1 Hl Hc) as [Et [Ep [El Ec]]].
    unfold autosaveRun in IH. rewrite (IH _ El Ec); [|now rewrite Et|exact Hall].
    now rewrite Ep.
  - unfold elapse. rewrite Ht. cbn [List.filter fold_left].
    unfold autosaveRun in IH. now rewrite IH.
Qed.

(** C7, as amended.  Once the settings have been loaded, a burst of edits
    to the output-directory fields (each edit changing the field it
    writes, each less than 400 ms after the one before) leaves the log as
    it was for as long as less than 400 ms have passed since the last edit,
    and by 400 ms after the last edit exactly one [save_settings] has been
    added to it.  That call carries the settings of [settingsRef] with the
    four output directories replaced by the trimmed final values of the
    fields.  Before the settings have been loaded no edit and no pause adds
    a call to the log. *)
Theorem C7_autosave_debounce
    (backend : Backend) (history : list AutosaveEvent)
    (first : OutputField * string) (more : list (nat * (OutputField * string)))
    (pause : nat) :
  let rt := autosaveRun backend mounted history in
  let edits := first :: map snd more in
  let final := applyEdits (ui (page rt)) edits in
  let saved := withOutputDirectories (settingsRef rt) final in
  let after := autosaveRun backend rt (burst first more ++ [Elapse pause]) in
  settingsLoadedRef rt = true ->
  Forall (fun p => (fst p < 400)%nat) more ->
  allChange (ui (page rt)) edits = true ->
  ((pause < 400)%nat -> ipc (page after) = ipc (page rt))
  /\ ((400 <= pause)%nat -> ipc (page after) = (ipc (page rt) ++ [save_settings saved])%list)
  /\ outputDirectories saved !! "rename" = Some (Js.trim (renameOutputDir (renameForm final)))
  /\ outputDirectories saved !! "delete_retreat"
     = Some (Js.trim (deleteRetreatDir (deleteForm final)))
  /\ outputDirectories saved !! "compress"
     = Some (Js.trim (compressOutputDir (compressForm final)))
  /\ outputDirectories saved !! "flatten"
     = Some (Js.trim (flattenOutputDir (flattenForm final)))
  /\ (forall events,
        Forall beforeLoad events ->
        ipc (page (autosaveRun backend mounted events)) = ipc (page mounted)).
Proof.
  intros rt edits final saved after Hloaded Hgaps Hchange.
  assert (Hone : oneTimer rt).
  { apply autosaveRun_oneTimer. now left. }
  destruct first as [field value]. subst edits.
  cbn [allChange] in Hchange. apply andb_prop in Hchange as [Hc Hrest].
  apply negb_true_iff in Hc.
  destruct (edit_pending backend rt field value Hloaded Hone Hc) as [Hp [Eu [Ei [Es _]]]].
  set (rt1 := autosaveStep backend rt (EditOutputDir field value)) in *.
  assert (Hrest1 : allChange (ui (page rt1)) (map snd more) = true) by (now rewrite Eu).
  destruct (burst_tail backend more rt1 Hp Hgaps Hrest1) as [Hp2 [Eu2 [Ei2 Es2]]].
  set (rt2 := autosaveRun backend rt1 _) in *.
  assert (Eafter : after = elapse backend pause rt2).
  { subst after. unfold burst, autosaveRun. cbn [fst snd app fold_left].
    rewrite fold_left_app. reflexivity. }
  assert (Efinal : ui (page rt2) = final).
  { rewrite Eu2, Eu. reflexivity. }
  split; [|split].
  - intros Hshort. rewrite Eafter.
    destruct (elapse_short backend rt2 pause Hp2 Hshort) as [Epage _].
    now rewrite Epage, Ei2, Ei.
  - intros Hlong. rewrite Eafter, (elapse_long backend rt2 pause Hp2 Hlong).
    now rewrite Ei2, Ei, Es2, Es, Efinal.
  - subst saved. unfold withOutputDirectories. cbn [outputDirectories].
    repeat split; try (simplify_map_eq; reflexivity).
    intros events Hall. now apply idle_before_load.
Qed.

Lemma C7_witness :
  exists saved,
    ipc (page (autosaveRun quietEngine
                 (autosaveRun quietEngine mounted [SettingsLoaded DEFAULT_SETTINGS])
                 (burst (fieldRename, "D:/o")
                        [ (120%nat, (fieldRename, "D:/ou"));
                          (90%nat, (fieldRename, "D:/out ")) ]
                  ++ [Elapse 400])%list))
    = (ipc (page (autosaveRun quietEngine mounted [SettingsLoaded DEFAULT_SETTINGS]))
       ++ [save_settings saved])%list
    /\ outputDirectories saved !! "rename" = Some "D:/out".
Proof.
  destruct (C7_autosave_debounce quietEngine [SettingsLoaded DEFAULT_SETTINGS]
              (fieldRename, "D:/o")
              [ (120%nat, (fieldRename, "D:/ou")); (90%nat, (fieldRename, "D:/out ")) ]
              400%nat)
    as [_ [Hlong [Hrename _]]].
  - reflexivity.
  - repeat constructor; cbn [fst]; lia.
  - reflexivity.
  - eexists. split; [apply Hlong; lia|exact Hrename].
Defined.

(** C7 as stated fails: before the settings have been loaded the effect
    returns at once, so an edit is followed by no save at all. *)
Lemma C7_counterexample :
  ~ exists next,
      In (save_settings next)
         (ipc (page (autosaveRun quietEngine mounted
                       (burst (fieldRename, "D:/out") [] ++ [Elapse 400])%list))).
Proof. intros [next H]. vm_compute in H. exact H. Qed.

Lemma clamp_percent x : percent (Z.max 1 (Z.min 100 x)).
Proof. unfold percent. lia. Qed.

Lemma compressInvariant_update f :
  (forall s, compressResizePercent (compressForm (f s)) = compressResizePercent (compressForm s)) ->
  (forall s, compressQuality (compressForm (f s)) = compressQuality (compressForm s)) ->
  preserves compressInvariant (update f).
Proof.
  intros Hr Hq. apply preserves_update. intros w [H1 [H2 H3]].
  unfold compressInvariant. cbn [ui ipc]. rewrite Hr, Hq. split; [exact H1|split; [exact H2|exact H3]].
Qed.

Lemma compressInvariant_addToast type message :
  preserves compressInvariant (addToast type message).
Proof. apply compressInvariant_update; reflexivity. Qed.

Lemma compressInvariant_invoke {A} call (answer : nat -> Reply A) :
  percentParameters call -> preserves compressInvariant (invoke call answer).
Proof.
  intros Hc. apply preserves_invoke. intros w [H1 [H2 H3]].
  split; [exact H1|split; [exact H2|]]. unfold logged. cbn [ipc].
  apply Forall_app. split; [exact H3|]. constructor; [exact Hc|constructor].
Qed.

Lemma compressInvariant_run action label :
  preserves compressInvariant action -> preserves compressInvariant (run action label).
Proof.
  intros Ha. unfold run.
  apply preserves_bind; [apply compressInvariant_update; reflexivity|intros _].
  apply preserves_bind; [apply compressInvariant_update; reflexivity|intros _].
  apply preserves_tryCatchFinally;
    [exact Ha|intros e; apply compressInvariant_addToast|].
  apply preserves_bind; apply compressInvariant_update || intros _; try reflexivity.
  apply compressInvariant_update; reflexivity.
Qed.

Lemma compressInvariant_request s targetSizeKb :
  percent (compressResizePercent (compressForm s)) ->
  percent (compressQuality (compressForm s)) ->
  percentParameters (preview_compress (compressRequest s targetSizeKb))
  /\ percentParameters (execute_compress (compressRequest s targetSizeKb)).
Proof. intros Hr Hq. split; intros request [= <-]; split; assumption. Qed.

Lemma compressInvariant_firstDirectory backend paths :
  preserves compressInvariant (firstDirectory backend paths).
Proof.
  induction paths as [|path rest IH]; cbn [firstDirectory].
  - apply preserves_throw.
  - apply preserves_bind.
    + apply compressInvariant_invoke. intros request [=].
    + intros [|]; [|exact IH].
      apply preserves_bind;
        [apply compressInvariant_update; reflexivity
        |intros _; apply compressInvariant_addToast].
Qed.

Lemma compressInvariant_onDrop backend paths :
  preserves compressInvariant (onDrop backend initialState paths).
Proof.
  unfold onDrop. apply compressInvariant_run.
  apply preserves_bind; [apply preserves_live|]. intros now.
  apply preserves_bind.
  - unfold applyPathsToCurrentTab. destruct (isEmpty _); [apply preserves_ret|].
    apply preserves_bind; [apply preserves_live|]. intros now'.
    destruct (tab (shell now'));
      try apply preserves_ret;
      try (apply preserves_bind;
           [apply compressInvariant_update; reflexivity
           |intros _; apply compressInvariant_addToast]).
    apply compressInvariant_firstDirectory.
  - intros _. rewrite previewCurrentTab_first_render. apply preserves_ret.
Qed.

Lemma compressInvariant_buttons backend toFixed w :
  solverInRange backend -> compressInvariant w ->
  compressInvariant (settle (compressSubmit backend (ui w)) w)
  /\ compressInvariant (settle (compressCalc backend toFixed (ui w)) w)
  /\ compressInvariant (settle (compressExecute backend (ui w)) w).
Proof.
  intros Hsolver [Hr [Hq Hl]].
  pose proof (fun t => compressInvariant_request (ui w) t Hr Hq) as Hreq.
  assert (Hext : forall call, percentParameters call ->
                   Forall percentParameters (ipc w ++ [call])).
  { intros call Hc. apply Forall_app. split; [exact Hl|].
    constructor; [exact Hc|constructor]. }
  split; [|split]; unfold compressInvariant, logged;
    cbv beta iota delta [compressSubmit compressCalc compressExecute]; run_app;
    repeat match goal with
      | |- context [match parsePositiveInt ?v with Some _ => _ | None => _ end] =>
          destruct (parsePositiveInt v) eqn:?; cbn [fst snd ui ipc]
      | _ => next_case
      end;
    (split; [|split]);
    try exact Hr; try exact Hq; try exact Hl;
    try (apply Hext; apply Hreq);
    match goal with
    | H : on_preview_compress backend _ _ = Resolved ?p |- _ =>
        eapply (Hsolver _ _ _ p); [|exact H]; reflexivity
    end.
Qed.

(** C8, as amended.  Provided the engine's target-size solver reports
    effective parameters that round to percentages, after every sequence of
    events on the compress tab, starting from the first render, the resize
    percent and the quality in the state lie in 1..100, and so do the two
    parameters of every compress request, preview or execute, in the log.
    A slider handler stores [max(1, min(100, parsed))] for an input that
    parses and 1 for one that does not.  The target-size button stores what
    the engine reports, the resize percent rounded, without clamping. *)
Theorem C8_compress_parameters_in_range
    (backend : Backend) (toFixed : Q -> nat -> string) :
  solverInRange backend ->
  (forall (events : list CompressEvent),
     let w := compressRun backend toFixed events in
     percent (compressResizePercent (compressForm (ui w)))
     /\ percent (compressQuality (compressForm (ui w)))
     /\ logged percentParameters w)
  /\ (forall value s,
        let stored := match Number_parseInt value with
                      | Some parsed => Z.max 1 (Z.min 100 parsed)
                      | None => 1
                      end in
        compressResizePercent (compressForm (onChangeCompressResizePercent value s)) = stored
        /\ compressQuality (compressForm (onChangeCompressQuality value s)) = stored)
  /\ (forall s w parsed preview,
        parsePositiveInt (compressTargetSizeKb (compressForm s)) = Some parsed ->
        on_preview_compress backend (length (ipc w))
          (compressRequest s
             (Some (parsed * UNIT_TO_KB (compressTargetSizeUnit (compressForm s)))))
        = Resolved preview ->
        let after := ui (settle (compressCalc backend toFixed s) w) in
        compressResizePercent (compressForm after)
        = Math_round (cpv_effectiveResizePercent preview)
        /\ compressQuality (compressForm after) = cpv_effectiveQuality preview).
Proof.
  intros Hsolver. split; [|split].
  - intros events. unfold compressRun.
    assert (H0 : compressInvariant initialWorld).
    { split; [|split]; [cbn; unfold percent; lia..|constructor]. }
    revert H0. generalize initialWorld as w.
    induction events as [|e events IH]; intros w Hw; [exact Hw|].
    cbn [fold_left]. apply IH.
    destruct (compressInvariant_buttons backend toFixed w Hsolver Hw) as [Hp [Hc He]].
    destruct e; cbn [compressStep]; try assumption;
      try (apply preserves_settle; [|exact Hw]);
      try (apply compressInvariant_update; reflexivity);
      try apply compressInvariant_onDrop.
    + apply preserves_update. intros w' [H1 [H2 H3]].
      split; [apply clamp_percent|split; [exact H2|exact H3]].
    + apply preserves_update. intros w' [H1 [H2 H3]].
      split; [exact H1|split; [apply clamp_percent|exact H3]].
  - intros value s. cbv zeta.
    unfold onChangeCompressResizePercent, onChangeCompressQuality.
    cbn [setCompressResizePercent setCompressQuality inCompressForm compressForm
         compressResizePercent compressQuality].
    destruct (Number_parseInt value) as [[|p|p]|]; cbn [orNumber]; split; reflexivity.
  - intros s w parsed preview Hparsed Hanswer. cbv zeta.
    unfold compressCalc. rewrite Hparsed. run_app. rewrite Hanswer. split; reflexivity.
Qed.

Lemma quietEngine_solverInRange : solverInRange quietEngine.
Proof.
  intros n request targetSizeKb preview _ [= <-]. split; vm_compute; split; discriminate.
Qed.

Lemma C8_witness :
  let w := compressRun quietEngine (fun _ _ => "")
             [ SlideQuality "0"; SlideResizePercent "250"; EditCompressPaths "C:/in/a.jpg";
               PressPreview; EditTargetSize "20"; PressCalc; PressExecute ] in
  percent (compressResizePercent (compressForm (ui w)))
  /\ percent (compressQuality (compressForm (ui w)))
  /\ logged percentParameters w.
Proof.
  apply (C8_compress_parameters_in_range quietEngine (fun _ _ => "")).
  exact quietEngine_solverInRange.
Defined.

(** C8 as stated fails: the target-size button stores a resize of 0.4 per
    cent as 0, and the next preview sends it. *)
Lemma C8_counterexample :
  let w := compressRun steepSolver (fun _ _ => "")
             [ EditCompressPaths "C:/in/a.jpg"; EditTargetSize "1"; PressCalc;
               PressPreview ] in
  compressResizePercent (compressForm (ui w)) = 0
  /\ ~ percent (compressResizePercent (compressForm (ui w)))
  /\ ~ logged percentParameters w.
Proof.
  cbv zeta. split; [reflexivity|]. split.
  - intros [H _]. vm_compute in H. now apply H.
  - intros H. unfold logged in H. rewrite List.Forall_forall in H.
    assert (Hin : exists request,
              In (preview_compress request)
                 (ipc (compressRun steepSolver (fun _ _ => "")
                         [ EditCompressPaths "C:/in/a.jpg"; EditTargetSize "1"; PressCalc;
                           PressPreview ]))
              /\ cp_resizePercent request = 0).
    { vm_compute. eexists. split; [right; left; reflexivity|reflexivity]. }
    destruct Hin as [request [Hin Hzero]].
    destruct (H _ Hin request eq_refl) as [[Hlow _] _].
    rewrite Hzero in Hlow. now apply Hlow.
Qed.

(** The sliders on some inputs: a position is stored as it is, zero and
    text that is no number become 1, a number beyond the range becomes the
    nearest end. *)
Example slider_inputs :
  map (fun value =>
         compressQuality (compressForm (onChangeCompressQuality value initialState)))
      ["57"; "0"; "250"; "-3"; " 8px"; "high"; ""]
  = [57; 1; 100; 1; 8; 1; 1].
Proof. reflexivity. Qed.

Lemma exifOffset_flows_issue (backend : Backend) (s : AppState) (w : World) :
  Forall (fun flow =>
            exists calls, ipc (settle flow w) = (ipc w ++ calls)%list
                          /\ Forall nonzeroOffset calls)
         [exifOffsetSubmit backend s; exifOffsetExecute backend s].
Proof.
  repeat constructor;
    cbv beta iota delta [exifOffsetSubmit exifOffsetExecute]; run_app; repeat next_case;
    first
      [ exists []; rewrite app_nil_r; split; [reflexivity|constructor]
      | eexists [_]; split; [reflexivity|];
        constructor; [|constructor]; intros request [= <-];
        cbn [ex_offsetSeconds exifOffsetRequest]; now apply Z.eqb_neq ].
Qed.

(** C9.  The total offset is the sign times
    [days*86400 + hours*3600 + minutes*60 + seconds].  When it is zero, the
    form's preview handler and the execute handler log no call and end with
    an error toast.  In every run of the tab from its first render
    (arbitrary state changes, presses of the two buttons, drops on the
    window) every EXIF offset request in the log carries a non-zero
    offset. *)
Theorem C9_exif_offset_never_zero (backend : Backend) :
  (forall s,
     totalOffsetSeconds s
     = (match exifOffsetSign (exifOffsetForm s) with signPlus => 1 | signMinus => -1 end)
       * (exifOffsetDays (exifOffsetForm s) * 86400
          + exifOffsetHours (exifOffsetForm s) * 3600
          + exifOffsetMinutes (exifOffsetForm s) * 60
          + exifOffsetSeconds (exifOffsetForm s)))
  /\ (forall s w,
        totalOffsetSeconds s = 0 ->
        Forall (fun flow => ipc (settle flow w) = ipc w /\ errorShown w (settle flow w))
               [exifOffsetSubmit backend s; exifOffsetExecute backend s])
  /\ (forall events, logged nonzeroOffset (exifOffsetRun backend events)).
Proof.
  split; [|split].
  - intros s. unfold totalOffsetSeconds. destruct (exifOffsetSign _); lia.
  - intros s w Hzero. apply Z.eqb_eq in Hzero.
    repeat constructor;
      cbv beta iota delta [exifOffsetSubmit exifOffsetExecute]; run_app;
      rewrite Hzero; destruct (isEmpty (exifOffsetFiles s));
      cbn [fst snd ui ipc]; try reflexivity; eexists; reflexivity.
  - intros events. unfold exifOffsetRun.
    assert (H0 : logged nonzeroOffset initialWorld) by constructor.
    revert H0. generalize initialWorld as w. induction events as [|e events IH]; intros w Hw.
    + exact Hw.
    + cbn [fold_left]. apply IH. destruct e as [change| | |paths]; cbn [exifOffsetStep].
      * apply preserves_settle; [apply logged_update|exact Hw].
      * pose proof (exifOffset_flows_issue backend (ui w) w) as H.
        apply Forall_inv in H. destruct H as [calls [E Hc]].
        now apply (logged_issued _ _ _ calls).
      * pose proof (exifOffset_flows_issue backend (ui w) w) as H.
        apply Forall_inv_tail, Forall_inv in H. destruct H as [calls [E Hc]].
        now apply (logged_issued _ _ _ calls).
      * apply preserves_settle; [|exact Hw]. apply logged_onDrop.
        intros path request [=].
Qed.

Lemma C9_witness :
  Forall (fun flow => ipc (settle flow initialWorld) = ipc initialWorld
                      /\ errorShown initialWorld (settle flow initialWorld))
         [exifOffsetSubmit quietEngine initialState; exifOffsetExecute quietEngine initialState].
Proof.
  apply (C9_exif_offset_never_zero quietEngine). reflexivity.
Defined.

(** [previewCurrentTab] itself does not look at the offset: called on a
    render that has paths and a zero offset it sends the request.  Its one
    caller is the window's drop listener, whose render is the first one
    ([previewCurrentTab_first_render]). *)
Remark previewCurrentTab_exif_offset_unchecked (backend : Backend) (w : World) :
  let s := setExifOffsetPaths "C:/in/a.jpg" initialState in
  ipc (settle (previewCurrentTab backend s tab_exif_offset) w)
  = (ipc w ++ [ preview_exif_offset
                  {| ex_inputPaths := ["C:/in/a.jpg"]; ex_includeSubfolders := false;
                     ex_offsetSeconds := 0 |} ])%list.
Proof.
  cbv beta iota zeta delta [previewCurrentTab]. run_app.
  change (isEmpty (exifOffsetFiles (setExifOffsetPaths "C:/in/a.jpg" initialState)))
    with false.
  run_app. next_case; reflexivity.
Qed.

Lemma mergePathText_lines current incoming :
  mergePathText current incoming
  = Js.joinLines (firstOccurrences (parsePaths current ++ List.filter Js.truthy incoming)).
Proof. unfold mergePathText. now rewrite Array_from_Set_firstOccurrences. Qed.

(** C10, as amended.  The lines of [mergePathText current incoming] are the
    first occurrences of the paths already in the text followed by the
    non-empty incoming ones: each path once, the existing ones first and in
    their order.  When every incoming path is one the text area can hold
    (parsing it gives it back), parsing the merged text returns exactly
    these lines, and merging the same paths again changes nothing. *)
Theorem C10_mergePathText_dedup_idempotent (current : string) (incoming : list string) :
  let merged :=
    firstOccurrences (parsePaths current ++ List.filter Js.truthy incoming) in
  mergePathText current incoming = Js.joinLines merged
  /\ List.NoDup merged
  /\ (forall p, In p merged <-> In p (parsePaths current) \/ (In p incoming /\ p <> ""))
  /\ merged = (firstOccurrences (parsePaths current)
               ++ List.filter (notIn (parsePaths current))
                              (firstOccurrences (List.filter Js.truthy incoming)))%list
  /\ (Forall (fun p => p <> "" -> holdsPath p) incoming ->
      parsePaths (mergePathText current incoming) = merged
      /\ mergePathText (mergePathText current incoming) incoming
         = mergePathText current incoming).
Proof.
  intros merged. split; [apply mergePathText_lines|].
  split; [apply firstOccurrences_NoDup|]. split; [|split].
  - intros p. unfold merged. rewrite firstOccurrences_In, in_app_iff, filter_In.
    rewrite truthy_nonempty. tauto.
  - apply firstOccurrences_app.
  - intros Hin.
    assert (Hclean : Forall cleanPath merged).
    { apply List.Forall_forall. intros p Hp. unfold merged in Hp.
      apply (proj1 (firstOccurrences_In _ _)) in Hp. apply in_app_iff in Hp as [Hp|Hp].
      - pose proof (parsePaths_clean current) as Hc.
        rewrite List.Forall_forall in Hc. now apply Hc.
      - apply filter_In in Hp as [Hp Hne]. apply holdsPath_clean.
        rewrite List.Forall_forall in Hin. apply (Hin p Hp). now apply truthy_nonempty. }
    assert (Hparse : parsePaths (mergePathText current incoming) = merged).
    { rewrite mergePathText_lines. now apply parsePaths_joinLines. }
    split; [exact Hparse|].
    rewrite (mergePathText_lines (mergePathText current incoming)), Hparse.
    rewrite mergePathText_lines. f_equal. unfold merged.
    apply firstOccurrences_absorb. intros p Hp. apply in_app_iff. now right.
Qed.

Lemma C10_witness :
  Forall (fun p => p <> "" -> holdsPath p) ["b.jpg"; ""; "c.jpg"]
  /\ mergePathText (mergePathText "a.jpg,b.jpg" ["b.jpg"; ""; "c.jpg"]) ["b.jpg"; ""; "c.jpg"]
     = mergePathText "a.jpg,b.jpg" ["b.jpg"; ""; "c.jpg"].
Proof.
  assert (H : Forall (fun p => p <> "" -> holdsPath p) ["b.jpg"; ""; "c.jpg"]).
  { constructor; [intros _; reflexivity|].
    constructor; [intros Hne; now contradiction Hne|].
    constructor; [intros _; reflexivity|]. constructor. }
  split; [exact H|].
  apply (C10_mergePathText_dedup_idempotent "a.jpg,b.jpg" ["b.jpg"; ""; "c.jpg"]).
  exact H.
Defined.

(** C10 as stated fails: a dropped path with a comma in it is kept whole by
    the first merge and cut in two when the text is parsed for the second. *)
Lemma C10_counterexample :
  mergePathText (mergePathText "" ["C:/in/a,b.jpg"]) ["C:/in/a,b.jpg"]
  <> mergePathText "" ["C:/in/a,b.jpg"].
Proof. vm_compute. discriminate. Qed.

(** * Further properties *)

(** ** Round trips of the parsers *)

(** X1.  The paths that [parsePaths] returns are non-empty, trimmed and free
    of commas and line feeds, and writing them back one per line and
    parsing again gives the same list. *)
Theorem X1_parsePaths_round_trip (value : string) :
  Forall cleanPath (parsePaths value)
  /\ parsePaths (Js.joinLines (parsePaths value)) = parsePaths value.
Proof.
  split; [apply parsePaths_clean|]. apply parsePaths_joinLines, parsePaths_clean.
Qed.

Lemma splitExtSeparators_entry e rest :
  separatorFree e = true -> Js.startsWithExtSeparator rest = false ->
  Js.splitExtSeparators (e ++ ", " ++ rest) = e :: Js.splitExtSeparators rest.
Proof.
  intros He Hrest. induction e as [|c e IH].
  - destruct rest as [|r rest]; [reflexivity|]. cbn in Hrest.
    change ("" ++ ", " ++ String r rest) with (String "," (String " " (String r rest))).
    cbn [Js.splitExtSeparators Js.startsWithExtSeparator].
    change (Js.isExtSeparator ",") with true. change (Js.isExtSeparator " ") with true.
    cbv iota. now rewrite Hrest.
  - cbn [separatorFree allChars] in He. apply andb_prop in He as [Hc He].
    apply negb_true_iff in Hc.
    change (String c e ++ ", " ++ rest) with (String c (e ++ ", " ++ rest)).
    cbn [Js.splitExtSeparators]. rewrite Hc, (IH He). reflexivity.
Qed.

Lemma splitExtSeparators_last e :
  separatorFree e = true -> Js.splitExtSeparators e = [e].
Proof.
  induction e as [|c e IH]; intros He; [reflexivity|].
  cbn [separatorFree allChars] in He. apply andb_prop in He as [Hc He].
  apply negb_true_iff in Hc. cbn [Js.splitExtSeparators]. now rewrite Hc, (IH He).
Qed.

Lemma normalised_entry e :
  normalisedExt e -> separatorFree e = true ->
  Js.toLowerCase (Js.dropLeadingDot (Js.trim e)) = e /\ Js.truthy e = true
  /\ Js.startsWithExtSeparator e = false.
Proof.
  intros [Hne [Hlow Hdot]] Hsep. rewrite (trim_piece e Hsep).
  assert (Hdrop : Js.dropLeadingDot e = e).
  { destruct e as [|c e]; [reflexivity|]. cbn in Hdot. cbn. now rewrite Hdot. }
  rewrite Hdrop. split; [exact Hlow|]. split; [now apply truthy_nonempty|].
  destruct e as [|c e]; [reflexivity|]. cbn [separatorFree allChars] in Hsep.
  apply andb_prop in Hsep as [Hc _]. now apply negb_true_iff in Hc.
Qed.

Lemma parseExts_joinCommaSpace (exts : list string) :
  Forall (fun e => normalisedExt e /\ separatorFree e = true) exts ->
  parseExts (joinCommaSpace exts) = exts.
Proof.
  induction 1 as [|e exts [Hn Hs] Hall IH]; [reflexivity|].
  destruct (normalised_entry e Hn Hs) as [Hid [Htruthy _]].
  unfold joinCommaSpace in *. cbn [String.concat]. destruct exts as [|e' exts].
  - unfold parseExts. rewrite (splitExtSeparators_last e Hs). cbn [map List.filter].
    now rewrite Hid, Htruthy.
  - assert (Hstart : Js.startsWithExtSeparator (String.concat ", " (e' :: exts)) = false).
    { apply Forall_inv in Hall. destruct Hall as [Hn' Hs'].
      destruct (normalised_entry e' Hn' Hs') as [_ [Ht' Hst']].
      cbn [String.concat]. destruct e' as [|c e']; [discriminate Ht'|].
      destruct exts; exact Hst'. }
    unfold parseExts. rewrite (splitExtSeparators_entry e _ Hs Hstart).
    cbn [map List.filter]. rewrite Hid, Htruthy. f_equal. exact IH.
Qed.

(** X2.  An extension list whose entries are non-empty, lower-case, without
    a leading dot and free of commas and white space survives being written
    into the extension field with [join(", ")] and parsed back. *)
Theorem X2_parseExts_round_trip (exts : list string) :
  Forall (fun e => normalisedExt e /\ separatorFree e = true) exts ->
  parseExts (joinCommaSpace exts) = exts.
Proof. apply parseExts_joinCommaSpace. Qed.

Lemma X2_witness : parseExts (joinCommaSpace ["jpg"; "tmp"; "bak"]) = ["jpg"; "tmp"; "bak"].
Proof.
  apply X2_parseExts_round_trip.
  repeat (constructor; [split; [repeat split; discriminate|reflexivity]|]). constructor.
Defined.

Lemma parseExts_entries_normalised value :
  Forall (fun t => startsWithTwoDots t = false) (Js.splitExtSeparators value) ->
  Forall (fun e => normalisedExt e /\ separatorFree e = true) (parseExts value).
Proof.
  intros Hdots. apply List.Forall_forall. intros e He.
  apply parseExts_In in He as [Hne [t [Ht ->]]].
  pose proof (splitExtSeparators_pieces value) as Hp.
  rewrite List.Forall_forall in Hp, Hdots. specialize (Hp t Ht). specialize (Hdots t Ht).
  rewrite (trim_piece t Hp) in *. split.
  - split; [exact Hne|]. split; [apply toLowerCase_idem|].
    rewrite toLowerCase_startsWithDot. now apply dropLeadingDot_startsWithDot.
  - unfold separatorFree. rewrite toLowerCase_allChars_sep.
    now apply dropLeadingDot_allChars.
Qed.

(** X3.  Parsing is stable: when no piece of the input begins with two
    dots, writing the parsed extensions back with [join(", ")] and parsing
    again returns the same list. *)
Theorem X3_parseExts_stable (value : string) :
  Forall (fun t => startsWithTwoDots t = false) (Js.splitExtSeparators value) ->
  parseExts (joinCommaSpace (parseExts value)) = parseExts value.
Proof.
  intros Hdots. apply parseExts_joinCommaSpace. now apply parseExts_entries_normalised.
Qed.

Lemma X3_witness :
  parseExts (joinCommaSpace (parseExts ".JPG, tmp  .Bak,")) = parseExts ".JPG, tmp  .Bak,".
Proof. apply X3_parseExts_stable. repeat constructor. Defined.

Lemma mergePathText_batches (current : string) (first second : list string) :
  Forall (fun p => p <> "" -> holdsPath p) first ->
  mergePathText (mergePathText current first) second
  = mergePathText current (first ++ second).
Proof.
  intros Hfirst. rewrite (mergePathText_lines (mergePathText current first)).
  assert (Hparse : parsePaths (mergePathText current first)
                   = firstOccurrences (parsePaths current ++ List.filter Js.truthy first)).
  { rewrite mergePathText_lines. apply parsePaths_joinLines.
    apply List.Forall_forall. intros p Hp.
    apply (proj1 (firstOccurrences_In _ _)) in Hp. apply in_app_iff in Hp as [Hp|Hp].
    - pose proof (parsePaths_clean current) as Hc.
      rewrite List.Forall_forall in Hc. now apply Hc.
    - apply filter_In in Hp as [Hp Hne]. apply holdsPath_clean.
      rewrite List.Forall_forall in Hfirst. apply (Hfirst p Hp). now apply truthy_nonempty. }
  rewrite Hparse, mergePathText_lines. f_equal.
  rewrite List.filter_app, app_assoc.
  set (X := (parsePaths current ++ List.filter Js.truthy first)%list).
  rewrite (firstOccurrences_app (firstOccurrences X)), (firstOccurrences_app X).
  rewrite (firstOccurrences_NoDup_id _ (firstOccurrences_NoDup X)). f_equal.
  apply List.filter_ext. intros y. unfold notIn. f_equal.
  apply eq_true_iff_eq. rewrite !Set_has_In. apply firstOccurrences_In.
Qed.

(** X4.  Paths that arrive in two batches end up as if they had arrived in
    one, provided the paths of the first batch are ones the text area can
    hold. *)
Theorem X4_mergePathText_batches (current : string) (first second : list string) :
  Forall (fun p => p <> "" -> holdsPath p) first ->
  mergePathText (mergePathText current first) second
  = mergePathText current (first ++ second).
Proof. apply mergePathText_batches. Qed.

Lemma X4_witness :
  mergePathText (mergePathText "C:/a.jpg" ["C:/b.jpg"]) ["C:/a.jpg"; "C:/c,d.jpg"]
  = mergePathText "C:/a.jpg" (["C:/b.jpg"] ++ ["C:/a.jpg"; "C:/c,d.jpg"]).
Proof.
  apply X4_mergePathText_batches. constructor; [intros _; reflexivity|constructor].
Defined.

Lemma filter_truthy_idem (l : list string) :
  List.filter Js.truthy (List.filter Js.truthy l) = List.filter Js.truthy l.
Proof. apply filter_true. intros x Hx. now apply filter_In in Hx. Qed.

Lemma mergePathText_filter (current : string) (incoming : list string) :
  mergePathText current (List.filter Js.truthy incoming) = mergePathText current incoming.
Proof. unfold mergePathText. now rewrite filter_truthy_idem. Qed.

(** ** Handlers of the desk *)

Section Keeps.

Context {I : Desk -> Prop}.

Lemma keeps_ret {A} (a : A) : keeps I (Studio.ret a).
Proof. intros d Hd. exact Hd. Qed.

Lemma keeps_throw {A} message : keeps I (@Studio.throw A message).
Proof. intros d Hd. exact Hd. Qed.

Lemma keeps_bind {A B} (m : Studio.t A) (k : A -> Studio.t B) :
  keeps I m -> (forall a, keeps I (k a)) -> keeps I (Studio.bind m k).
Proof.
  intros Hm Hk d Hd. unfold Studio.bind. specialize (Hm d Hd).
  destruct (m d) as [[a|e] d']; cbn [snd] in *; [now apply Hk|exact Hm].
Qed.

Lemma keeps_tryCatchFinally body handler cleanup :
  keeps I body -> (forall e, keeps I (handler e)) -> keeps I cleanup ->
  keeps I (Studio.tryCatchFinally body handler cleanup).
Proof.
  intros Hb Hh Hc d Hd. unfold Studio.tryCatchFinally. specialize (Hb d Hd).
  destruct (body d) as [[a|e] d']; cbn [snd] in *; [now apply Hc|].
  apply (keeps_bind (handler e) (fun _ => cleanup)); auto.
Qed.

Lemma keeps_lift {A} (m : App A) :
  (forall ed, preserves (fun w => I {| editors := ed; world := w |}) m) ->
  keeps I (Studio.lift m).
Proof.
  intros Hm [ed w] Hd. unfold Studio.lift. cbn [world editors].
  specialize (Hm ed w Hd). destruct (m w) as [o w']. exact Hm.
Qed.

Lemma keeps_edit f :
  (forall d, I d -> I {| editors := f (editors d); world := world d |}) ->
  keeps I (Studio.edit f).
Proof. intros H d Hd. now apply H. Qed.

End Keeps.

(** Invariants of the page alone. *)
Section KeepsWorld.

Variable J : World -> Prop.

Lemma keeps_world_lift {A} (m : App A) :
  preserves J m -> keeps (fun d => J (world d)) (Studio.lift m).
Proof. intros Hm. apply keeps_lift. intros ed. exact Hm. Qed.

Lemma keeps_world_edit f : keeps (fun d => J (world d)) (Studio.edit f).
Proof. apply keeps_edit. intros d Hd. exact Hd. Qed.

End KeepsWorld.

(** [Studio.run] on a handler of the page is [run]. *)
Lemma Studio_run_lift (action : App unit) (label : option string) (d : Desk) :
  Studio.run (Studio.lift action) label d = Studio.lift (run action label) d.
Proof.
  destruct d as [ed w].
  cbv beta iota delta [Studio.run Studio.lift Studio.bind Studio.tryCatchFinally run
    bind tryCatchFinally update addToast world editors].
  destruct (action _) as [[a|e] w']; reflexivity.
Qed.

(** Walks through a handler, leaving the setters and the calls. *)
Ltac walk_step :=
  lazymatch goal with
  | |- keeps _ (Studio.bind _ _) => apply keeps_bind; [|intros ?]
  | |- keeps _ (Studio.ret _) => apply keeps_ret
  | |- keeps _ (Studio.throw _) => apply keeps_throw
  | |- keeps _ (Studio.tryCatchFinally _ _ _) =>
      apply keeps_tryCatchFinally; [|intros ?|]
  | |- keeps _ (Studio.run _ _) => unfold Studio.run
  | |- keeps _ (Studio.lift _) => apply keeps_world_lift
  | |- keeps _ (unlessDisabled _ _) => unfold unlessDisabled
  | |- keeps _ (Studio.edit _) => apply keeps_world_edit
  | |- keeps _ (if ?c then _ else _) => destruct c eqn:?
  | |- keeps _ (match ?x with _ => _ end) => destruct x eqn:?
  | |- preserves _ (bind _ _) => apply preserves_bind; [|intros ?]
  | |- preserves _ (ret _) => apply preserves_ret
  | |- preserves _ (throw _) => apply preserves_throw
  | |- preserves _ live => apply preserves_live
  | |- preserves _ (tryCatchFinally _ _ _) =>
      apply preserves_tryCatchFinally; [|intros ?|]
  | |- preserves _ (run _ _) => unfold run
  | |- preserves _ (if ?c then _ else _) => destruct c eqn:?
  | |- preserves _ (match ?x with _ => _ end) => destruct x eqn:?
  | |- preserves _ (let _ := _ in _) => cbv zeta
  | |- preserves _ (previewCurrentTab _ initialState _) =>
      rewrite previewCurrentTab_first_render; apply preserves_ret
  | |- preserves _ (update (onChangeMetadataStripPreset ?v)) => is_var v; destruct v
  | |- keeps _ (let _ := _ in _) => cbv zeta
  end.

Ltac open_handler :=
  lazymatch goal with
  | |- keeps _ ?m =>
      let h := lazymatch m with ?f _ _ _ _ => f | ?f _ _ _ => f | ?f _ _ => f | ?f _ => f | ?f => f end in
      unfold h
  | |- preserves _ ?m =>
      let h := lazymatch m with ?f _ _ _ _ => f | ?f _ _ _ => f | ?f _ _ => f | ?f _ => f | ?f => f end in
      unfold h
  end.

(** An invariant of every step from the first render holds in every
    session. *)
Lemma fold_left_invariant_desk {E} (I : Desk -> Prop) (f : Desk -> E -> Desk)
    (events : list E) (d : Desk) :
  (forall d e, I d -> I (f d e)) -> I d -> I (fold_left f events d).
Proof.
  intros Hf. revert d. induction events as [|e events IH]; intros d Hd; [exact Hd|].
  cbn [fold_left]. apply IH, Hf, Hd.
Qed.

Lemma keeps_step backend toFixed (I : Desk -> Prop) (d : Desk) (e : Event) :
  keeps I (handler backend toFixed (ui (world d)) (editors d) e) ->
  I d -> I (step backend toFixed d e).
Proof. intros Hk Hd. exact (Hk d Hd). Qed.

Lemma Studio_settle_lift (m : App unit) (d : Desk) :
  world (Studio.settle (Studio.lift m) d) = settle m (world d).
Proof.
  unfold Studio.settle, Studio.lift, settle. now destruct (m (world d)).
Qed.

(** Unfolds a handler of the desk down to the answers of the engine. *)
Ltac run_studio :=
  cbv beta iota delta
    [Studio.settle Studio.run Studio.tryCatchFinally Studio.bind Studio.ret Studio.throw
     Studio.lift Studio.edit
     settle run tryCatchFinally bind ret throw update invoke live addToast
     clearProgress applySettingsToInputs saveSettings];
  cbn [fst snd ui ipc world editors].

(** ** The busy wrapper *)

(** X5.  [run] never throws, whatever its action does.  When it is done the
    page is idle again, the calls are those of the action, and an error
    toast has been added exactly if the action threw, with the exception as
    its text. *)
Theorem X5_run_settles (action : App unit) (label : option string) (w : World) :
  let busy := {| ui := setBusyLabel label (setIsBusy true (ui w)); ipc := ipc w |} in
  let after := snd (run action label w) in
  fst (run action label w) = Returned tt
  /\ idle after
  /\ ipc after = ipc (snd (action busy))
  /\ toasts (shell (ui after))
     = (toasts (shell (ui (snd (action busy))))
        ++ match fst (action busy) with
           | Returned _ => []
           | Thrown e =>
               [ {| toast_id := toastIdRef (shell (ui (snd (action busy)))) + 1;
                    toast_type := toastError;
                    toast_message := String_of_exn e |} ]
           end)%list.
Proof.
  cbv zeta. unfold idle. run_app.
  destruct (action _) as [[[]|e] w']; cbn [fst snd ui ipc];
    repeat split; try reflexivity.
  cbn. now rewrite app_nil_r.
Qed.

(** ** Toasts *)

Lemma ascending_weaken b b' ids : b' <= b -> ascending b ids -> ascending b' ids.
Proof. destruct ids as [|id rest]; [easy|]. intros Hb [H1 H2]. split; [lia|exact H2]. Qed.

Lemma ascending_snoc ids : forall b ref,
  b <= ref -> ascending b ids -> Forall (fun id => id <= ref) ids ->
  ascending b (ids ++ [ref + 1]).
Proof.
  induction ids as [|id rest IH]; intros b ref Hb Ha Hall; cbn.
  - split; [lia|exact Logic.I].
  - destruct Ha as [H1 H2]. apply Forall_cons_iff in Hall as [Hid Hrest].
    split; [exact H1|]. now apply IH.
Qed.

Lemma ascending_filter (keep : Z -> bool) ids : forall b,
  ascending b ids -> ascending b (List.filter keep ids).
Proof.
  induction ids as [|id rest IH]; intros b Ha; [exact Ha|].
  destruct Ha as [H1 H2]. cbn [List.filter]. destruct (keep id).
  - split; [exact H1|now apply IH].
  - apply IH. apply (ascending_weaken id); [lia|exact H2].
Qed.

Lemma ascending_above ids : forall b id, ascending b ids -> In id ids -> b < id.
Proof.
  induction ids as [|x rest IH]; intros b id Ha Hin; [easy|].
  destruct Ha as [H1 H2]. destruct Hin as [->|Hin]; [exact H1|].
  specialize (IH x id H2 Hin). lia.
Qed.

Lemma ascending_NoDup ids : forall b, ascending b ids -> List.NoDup ids.
Proof.
  induction ids as [|x rest IH]; intros b Ha; [constructor|].
  destruct Ha as [H1 H2]. constructor; [|now apply (IH x)].
  intros Hin. pose proof (ascending_above rest x x H2 Hin). lia.
Qed.

Lemma map_filter_toast_id (id : Z) (l : list Toast) :
  map toast_id (List.filter (fun t => negb (toast_id t =? id)) l)
  = List.filter (fun x => negb (x =? id)) (map toast_id l).
Proof.
  induction l as [|t l IH]; [reflexivity|]. cbn [List.filter map].
  destruct (toast_id t =? id); cbn [negb map]; now rewrite IH.
Qed.

Lemma toastsFresh_update f :
  (forall s, toasts (shell (f s)) = toasts (shell s)) ->
  (forall s, toastIdRef (shell (f s)) = toastIdRef (shell s)) ->
  preserves toastsFresh (update f).
Proof.
  intros Ht Hr. apply preserves_update. intros w H. unfold toastsFresh in *.
  cbn [ui]. now rewrite Ht, Hr.
Qed.

Lemma toastsFresh_invoke {A} call (answer : nat -> Reply A) :
  preserves toastsFresh (invoke call answer).
Proof. apply preserves_invoke. intros w H. exact H. Qed.

Lemma toastsFresh_addToast type message : preserves toastsFresh (addToast type message).
Proof.
  apply preserves_update. intros w [Ha [Hall Hpos]]. unfold toastsFresh. cbn.
  rewrite map_app. cbn [map toast_id]. split; [|split; [|lia]].
  - apply ascending_snoc; [exact Hpos|exact Ha|].
    apply List.Forall_map. exact Hall.
  - apply Forall_app. split.
    + eapply List.Forall_impl; [|exact Hall]. cbn. intros t Ht. lia.
    + constructor; [cbn; lia|constructor].
Qed.

Lemma toastsFresh_removeToast id : preserves toastsFresh (removeToast id).
Proof.
  apply preserves_update. intros w [Ha [Hall Hpos]]. unfold toastsFresh. cbn.
  split; [|split; [|exact Hpos]].
  - rewrite map_filter_toast_id. now apply ascending_filter.
  - apply List.Forall_forall. intros t Ht. apply filter_In in Ht as [Ht _].
    rewrite List.Forall_forall in Hall. now apply Hall.
Qed.

Lemma toastsFresh_firstDirectory backend paths :
  preserves toastsFresh (firstDirectory backend paths).
Proof.
  induction paths as [|path rest IH]; cbn [firstDirectory].
  - apply preserves_throw.
  - apply preserves_bind; [apply toastsFresh_invoke|]. intros [|]; [|exact IH].
    apply preserves_bind; [|intros _; apply toastsFresh_addToast].
    apply toastsFresh_update; reflexivity.
Qed.

Ltac toasts_leaf :=
  lazymatch goal with
  | |- preserves toastsFresh (addToast _ _) => apply toastsFresh_addToast
  | |- preserves toastsFresh (removeToast _) => apply toastsFresh_removeToast
  | |- preserves toastsFresh (firstDirectory _ _) => apply toastsFresh_firstDirectory
  | |- preserves toastsFresh (invoke _ _) => apply toastsFresh_invoke
  | |- preserves toastsFresh (openDialog _) => intros ? H; unfold openDialog;
        lazymatch goal with |- context [match ?a with _ => _ end] => destruct a end; exact H
  | |- preserves toastsFresh (update _) => apply toastsFresh_update; intros ?; reflexivity
  end.

Lemma toastsFresh_step backend toFixed (d : Desk) (e : Event) :
  toastsFresh (world d) -> toastsFresh (world (step backend toFixed d e)).
Proof.
  apply (keeps_step backend toFixed (fun d => toastsFresh (world d))).
  generalize (ui (world d)), (editors d). intros s ed.
  destruct e as [[]|[]|[]|[]|[]|[]|[]|[]]; cbn [handler];
    repeat first [toasts_leaf | walk_step | open_handler].
Qed.

(** X7.  In every session the toasts that are showing have distinct ids,
    so that dismissing one removes that toast and no other. *)
Theorem X7_session_toast_ids backend toFixed (events : list Event) (id : Z) :
  let w := world (session backend toFixed events) in
  let shown := toasts (shell (ui w)) in
  let left := toasts (shell (ui (settle (removeToast id) w))) in
  List.NoDup (map toast_id shown)
  /\ (forall t, In t left <-> In t shown /\ toast_id t <> id)
  /\ (length shown <= S (length left))%nat.
Proof.
  cbv zeta.
  assert (Hfresh : toastsFresh (world (session backend toFixed events))).
  { unfold session. apply (fold_left_invariant_desk (fun d => toastsFresh (world d))).
    - intros d e. apply toastsFresh_step.
    - repeat split; [constructor|reflexivity]. }
  destruct Hfresh as [Ha _].
  pose proof (ascending_NoDup _ _ Ha) as Hnd.
  set (shown := toasts (shell (ui (world (session backend toFixed events))))) in *.
  change (toasts (shell (ui (settle (removeToast id) (world (session backend toFixed events))))))
    with (List.filter (fun t => negb (toast_id t =? id)) shown).
  split; [exact Hnd|]. split.
  - intros t. rewrite filter_In, negb_true_iff, Z.eqb_neq. reflexivity.
  - clear Ha. induction shown as [|t rest IH]; [cbn; lia|].
    cbn [map] in Hnd. apply List.NoDup_cons_iff in Hnd as [Hnot Hnd].
    cbn [List.filter]. destruct (toast_id t =? id) eqn:E; cbn [negb length].
    + apply Z.eqb_eq in E. rewrite filter_true; [lia|].
      intros x Hx. apply negb_true_iff, Z.eqb_neq. intros Heq. apply Hnot.
      rewrite E, <- Heq. now apply in_map.
    + specialize (IH Hnd). lia.
Qed.

(** ** Paths from a drop or a dialog *)

Lemma firstDirectory_cons (backend : Backend) path rest (w : World) :
  firstDirectory backend (path :: rest) w
  = let w1 := {| ui := ui w; ipc := ipc w ++ [is_directory_path path] |} in
    match on_is_directory_path backend (length (ipc w)) path with
    | Rejected reason => (Thrown (PromiseRejection reason), w1)
    | Resolved true =>
        (update (setFlattenInputDir path) ;;
         addToast toastInfo "入力フォルダを設定しました") w1
    | Resolved false => firstDirectory backend rest w1
    end.
Proof.
  cbn [firstDirectory]. unfold bind at 1, isDirectoryPath, invoke.
  destruct (on_is_directory_path backend (length (ipc w)) path) as [reason|[|]];
    reflexivity.
Qed.

(** X8.  On the flatten tab the paths are put to the engine one by one, in
    order, and the first one that it calls a directory becomes the input
    folder; nothing after it is asked about.  When the loop ends otherwise,
    by running out of paths or by a rejected call, the page is as it was. *)
Theorem X8_firstDirectory_first_wins (backend : Backend) (paths : list string) (w : World) :
  let result := firstDirectory backend paths w in
  exists asked rest,
    paths = (asked ++ rest)%list
    /\ ipc (snd result) = (ipc w ++ map is_directory_path asked)%list
    /\ match fst result with
       | Returned _ =>
           exists before path,
             asked = (before ++ [path])%list
             /\ (forall i p, nth_error before i = Some p ->
                   on_is_directory_path backend (length (ipc w) + i) p = Resolved false)
             /\ on_is_directory_path backend (length (ipc w) + length before) path
                = Resolved true
             /\ flattenInputDir (flattenForm (ui (snd result))) = path
       | Thrown (JsError _) => rest = [] /\ ui (snd result) = ui w
       | Thrown (PromiseRejection _) => ui (snd result) = ui w
       end.
Proof.
  cbv zeta. revert w. induction paths as [|path paths IH]; intros w.
  - exists [], []. cbn. rewrite app_nil_r. repeat split.
  - rewrite firstDirectory_cons. cbv zeta.
    destruct (on_is_directory_path backend (length (ipc w)) path) as [reason|[|]] eqn:E.
    + exists [path], paths. cbn. repeat split.
    + exists [path], paths. cbn. repeat split.
      exists [], path. cbn. rewrite Nat.add_0_r. repeat split; [|exact E].
      intros [|i] p; discriminate.
    + specialize (IH {| ui := ui w; ipc := ipc w ++ [is_directory_path path] |}).
      destruct IH as [asked [rest [Hp [Hlog Hres]]]]. cbn [ui ipc] in *.
      exists (path :: asked), rest. split; [now rewrite Hp|]. split.
      { rewrite Hlog, <- app_assoc. reflexivity. }
      destruct (firstDirectory backend paths _) as [[[]|[msg|reason]] w']; cbn [fst snd] in *.
      * destruct Hres as [before [last [Ha [Hfalse [Htrue Hdir]]]]].
        exists (path :: before), last. rewrite Ha. split; [reflexivity|].
        rewrite length_app in Hfalse, Htrue. cbn [length] in *. split; [|split].
        -- intros [|i] p Hnth.
           ++ cbn in Hnth. injection Hnth as <-. now rewrite Nat.add_0_r.
           ++ cbn in Hnth. specialize (Hfalse i p Hnth).
              now replace (length (ipc w) + S i)%nat with (length (ipc w) + 1 + i)%nat by lia.
        -- now replace (length (ipc w) + S (length before))%nat
             with (length (ipc w) + 1 + length before)%nat by lia.
        -- exact Hdir.
      * exact Hres.
      * exact Hres.
Qed.

(** What a drop leaves in the text area of the tab that is showing. *)
Lemma onDrop_path_tab (backend : Backend) (w : World) (incoming : list string) text :
  pathsField (tab (shell (ui w))) (ui w) = Some text ->
  let w' := settle (onDrop backend initialState incoming) w in
  tab (shell (ui w')) = tab (shell (ui w))
  /\ pathsField (tab (shell (ui w))) (ui w')
     = Some (if isEmpty (List.filter Js.truthy incoming) then text
             else mergePathText text incoming).
Proof.
  intros Htext. cbv zeta. unfold onDrop, applyPathsToCurrentTab.
  destruct (tab (shell (ui w))) eqn:Et; try discriminate Htext;
    cbn [pathsField] in *; injection Htext as <-;
    destruct (isEmpty _) eqn:Ee.
  all: run_app; cbn [shell tab ui setBusyLabel setIsBusy inShell]; rewrite ?Et; run_app;
    rewrite previewCurrentTab_first_render; run_app; cbn;
    rewrite ?Et, ?mergePathText_filter; repeat split; reflexivity.
Qed.

Lemma isEmpty_filter_app (a b : list string) :
  isEmpty (List.filter Js.truthy (a ++ b))
  = isEmpty (List.filter Js.truthy a) && isEmpty (List.filter Js.truthy b).
Proof. rewrite List.filter_app. now destruct (List.filter Js.truthy a). Qed.

(** X9.  On a tab with a path text area, dropping two batches one after the
    other leaves the text that dropping them together leaves, provided the
    text area can hold the paths of the first batch. *)
Theorem X9_drop_batches (backend : Backend) (w : World) (first second : list string)
    (text : string) :
  pathsField (tab (shell (ui w))) (ui w) = Some text ->
  Forall (fun p => p <> "" -> holdsPath p) first ->
  let drop := fun paths => settle (onDrop backend initialState paths) in
  pathsField (tab (shell (ui w))) (ui (drop second (drop first w)))
  = pathsField (tab (shell (ui w))) (ui (drop (first ++ second)%list w)).
Proof.
  intros Htext Hfirst. cbv zeta.
  destruct (onDrop_path_tab backend w first text Htext) as [Ht1 Hp1].
  destruct (onDrop_path_tab backend w (first ++ second) text Htext) as [_ Hp].
  rewrite <- Ht1 in Hp1.
  destruct (onDrop_path_tab backend _ second _ Hp1) as [_ Hp2].
  rewrite Ht1 in Hp2. rewrite Hp2, Hp. f_equal.
  rewrite isEmpty_filter_app.
  destruct (isEmpty (List.filter Js.truthy first)) eqn:E1,
           (isEmpty (List.filter Js.truthy second)) eqn:E2; cbn [andb];
    rewrite ?isEmpty_true in *.
  - reflexivity.
  - unfold mergePathText. now rewrite List.filter_app, E1.
  - unfold mergePathText. now rewrite List.filter_app, E2, app_nil_r.
  - now apply mergePathText_batches.
Qed.

Lemma X9_witness :
  let drop := fun paths => settle (onDrop quietEngine initialState paths) in
  renamePaths (renameForm
    (ui (drop ["C:/in/b.jpg"; "C:/in/a.jpg"] (drop ["C:/in/a.jpg"] initialWorld))))
  = renamePaths (renameForm
      (ui (drop ["C:/in/a.jpg"; "C:/in/b.jpg"; "C:/in/a.jpg"] initialWorld))).
Proof.
  refine (f_equal (default "")
            (X9_drop_batches quietEngine initialWorld ["C:/in/a.jpg"]
               ["C:/in/b.jpg"; "C:/in/a.jpg"] "" eq_refl _)).
  constructor; [intros _; reflexivity|constructor].
Defined.

(** ** Settings import *)

(** X11.  With a path entered, an import that overwrites, and a merge for
    which a conflict report is already kept, go to the engine directly:
    the one call is [import_settings].  What it answers becomes the
    settings and fills the four output folders; a rejection ends in an
    error toast and leaves the settings alone. *)
Theorem X11_import_goes_direct (backend : Backend) (s : AppState) (w : World) :
  let path := Js.trim (importPath (importForm s)) in
  let mode := importMode (importForm s) in
  let policy := importConflictPolicy (importForm s) in
  let after := settle (importClick backend s) w in
  path <> "" ->
  mode = importOverwrite \/ importConflictPreview (importForm s) <> None ->
  ipc after = (ipc w ++ [import_settings path mode policy])%list
  /\ match on_import_settings backend (length (ipc w)) path mode policy with
     | Resolved next =>
         settings (shell (ui after)) = next
         /\ settingsStatus (shell (ui after)) = "設定をインポートしました。"
         /\ renameOutputDir (renameForm (ui after))
            = default "" (outputDirectories next !! "rename")
         /\ deleteRetreatDir (deleteForm (ui after))
            = default "" (outputDirectories next !! "delete_retreat")
         /\ compressOutputDir (compressForm (ui after))
            = default "" (outputDirectories next !! "compress")
         /\ flattenOutputDir (flattenForm (ui after))
            = default "" (outputDirectories next !! "flatten")
     | Rejected reason =>
         settings (shell (ui after)) = settings (shell (ui w)) /\ errorShown w after
     end.
Proof.
  cbv zeta. intros Hpath Hdirect. unfold importClick.
  assert (Htruthy : Js.truthy (Js.trim (importPath (importForm s))) = true).
  { now apply truthy_nonempty. }
  rewrite Htruthy. cbn [negb].
  assert (Hskip :
    match importMode (importForm s), importConflictPreview (importForm s) with
    | importMerge, None =>
        let* checked := refreshImportConflicts backend s in
        if hasImportConflicts checked
        then throw "衝突が見つかりました。方針を確認して再実行してください。"
        else ret tt
    | _, _ => ret tt
    end = ret tt).
  { destruct Hdirect as [->|Hsome]; [reflexivity|].
    destruct (importMode (importForm s)); [reflexivity|].
    destruct (importConflictPreview (importForm s)); [reflexivity|congruence]. }
  rewrite Hskip. unfold applySettingsToInputs. run_app.
  destruct (on_import_settings backend _ _ _ _) as [reason|next]; cbn [fst snd ui ipc].
  - split; [reflexivity|]. split; [reflexivity|]. eexists. reflexivity.
  - repeat split; reflexivity.
Qed.

Lemma X11_witness :
  ipc (settle (importClick quietEngine
                 (setImportMode importOverwrite sampleImportState)) initialWorld)
  = [import_settings "C:/backup/settings.json" importOverwrite keepExisting].
Proof.
  apply (X11_import_goes_direct quietEngine (setImportMode importOverwrite sampleImportState)
           initialWorld); [discriminate|left; reflexivity].
Defined.

(** ** The settings tab *)

Lemma trim_idem s : Js.trim (Js.trim s) = Js.trim s.
Proof. destruct (trim_tidy s) as [H1 H2]. now apply trim_fixed. Qed.

Lemma withOutputDirectories_applied (base : AppSettings) (s s' : AppState) :
  renameOutputDir (renameForm s') = Js.trim (renameOutputDir (renameForm s)) ->
  deleteRetreatDir (deleteForm s') = Js.trim (deleteRetreatDir (deleteForm s)) ->
  compressOutputDir (compressForm s') = Js.trim (compressOutputDir (compressForm s)) ->
  flattenOutputDir (flattenForm s') = Js.trim (flattenOutputDir (flattenForm s)) ->
  withOutputDirectories (withOutputDirectories base s) s' = withOutputDirectories base s.
Proof.
  intros H1 H2 H3 H4. unfold withOutputDirectories. cbn. rewrite H1, H2, H3, H4, !trim_idem.
  f_equal. apply map_eq. intros k.
  destruct (decide (k = "flatten")) as [->|?]; [now simplify_map_eq|].
  destruct (decide (k = "compress")) as [->|?]; [now simplify_map_eq|].
  destruct (decide (k = "delete_retreat")) as [->|?]; [now simplify_map_eq|].
  destruct (decide (k = "rename")) as [->|?]; [now simplify_map_eq|].
  now simplify_map_eq.
Qed.

(** X13.  The save button of the settings tab sends the settings with the
    four output folders as entered, trimmed, and writes the trimmed values
    back into the four inputs before the call is made.  Afterwards, whether
    the engine accepted the call or not, the settings of the page are the
    ones sent and agree with the inputs, so that saving again sends the
    same settings. *)
Theorem X13_settings_save_normalises (backend : Backend) (s : AppState) (w : World) :
  let next := withOutputDirectories (settings (shell s)) s in
  let after := settle (settingsSave backend s) w in
  ipc after = (ipc w ++ [save_settings next])%list
  /\ settings (shell (ui after)) = next
  /\ (forall field, outputField field (ui after) = Js.trim (outputField field s))
  /\ withOutputDirectories (settings (shell (ui after))) (ui after) = next
  /\ match on_save_settings backend (length (ipc w)) next with
     | Resolved _ => settingsStatus (shell (ui after)) = "設定を保存しました。"
     | Rejected _ => errorShown w after
     end.
Proof.
  cbv zeta. unfold settingsSave, applySettingsToInputs. run_app.
  destruct (on_save_settings backend _ _) as [reason|[]]; cbn [fst snd ui ipc].
  all: split; [reflexivity|]; split; [reflexivity|]; split;
    [intros []; cbn; now simplify_map_eq|]; split;
    [apply withOutputDirectories_applied; cbn; now simplify_map_eq|].
  - eexists. reflexivity.
  - reflexivity.
Qed.

(** ** The metadata tab *)

Lemma metadataInvariant_update f :
  (forall s, metadataStripPreset (metadataStripForm (f s)) = custom
             \/ (metadataStripPreset (metadataStripForm (f s))
                 = metadataStripPreset (metadataStripForm s)
                 /\ metadataStripCategories (metadataStripForm (f s))
                    = metadataStripCategories (metadataStripForm s))) ->
  preserves metadataInvariant (update f).
Proof.
  intros Hf. apply preserves_update. intros w [H1 H2]. split; [|exact H2]. cbn [ui].
  destruct (Hf (ui w)) as [->|[-> ->]]; [intros mask [=]|exact H1].
Qed.

Lemma metadataInvariant_preset v :
  preserves metadataInvariant (update (onChangeMetadataStripPreset v)).
Proof.
  apply preserves_update. intros w [H1 H2]. split; [|exact H2]. cbn [ui].
  destruct v; cbn; intros mask E; [injection E as <-; reflexivity ..|discriminate E].
Qed.

Lemma metadataInvariant_invoke {A} call (answer : nat -> Reply A) :
  metadataAgrees call -> preserves metadataInvariant (invoke call answer).
Proof.
  intros Hc. apply preserves_invoke. intros w [H1 H2]. split; [exact H1|].
  unfold logged. cbn [ipc]. apply Forall_app. split; [exact H2|].
  constructor; [exact Hc|constructor].
Qed.

Lemma metadataInvariant_firstDirectory backend paths :
  preserves metadataInvariant (firstDirectory backend paths).
Proof.
  induction paths as [|path rest IH]; cbn [firstDirectory].
  - apply preserves_throw.
  - apply preserves_bind; [apply metadataInvariant_invoke; intros request [=]|].
    intros [|]; [|exact IH].
    apply preserves_bind; [|intros _]; apply metadataInvariant_update;
      intros ?; right; split; reflexivity.
Qed.

Ltac metadata_leaf :=
  lazymatch goal with
  | |- preserves metadataInvariant (firstDirectory _ _) =>
        apply metadataInvariant_firstDirectory
  | |- preserves metadataInvariant (update (onChangeMetadataStripPreset _)) =>
        apply metadataInvariant_preset
  | |- preserves metadataInvariant (invoke _ _) =>
        apply metadataInvariant_invoke;
        let request := fresh "request" in
        let E := fresh "E" in
        intros request E;
        first [discriminate E | injection E as <-; assumption]
  | |- preserves metadataInvariant (openDialog _) => intros ? H; unfold openDialog;
        lazymatch goal with |- context [match ?a with _ => _ end] => destruct a end; exact H
  | |- preserves metadataInvariant (update _) =>
        apply metadataInvariant_update; intros ?;
        first [left; reflexivity | right; split; reflexivity]
  end.

Lemma metadataInvariant_step backend toFixed (d : Desk) (e : Event) :
  metadataInvariant (world d) -> metadataInvariant (world (step backend toFixed d e)).
Proof.
  intros Hd. pose proof (proj1 Hd) as Hs. revert Hd.
  apply (keeps_step backend toFixed (fun d => metadataInvariant (world d))).
  revert Hs. generalize (ui (world d)), (editors d). intros s ed Hs.
  change (presetAgrees (ms_preset (metadataStripRequest s))
                       (ms_categories (metadataStripRequest s))) in Hs.
  destruct e as [[]|[]|[]|[]|[]|[]|[]|[]]; cbn [handler];
    repeat first [metadata_leaf | walk_step | open_handler].
Qed.

(** X14.  In every session each request of the metadata tab that reaches
    the engine names a preset and the categories that go with it: unless
    the preset is the custom one, the categories are exactly those the
    preset ticks. *)
Theorem X14_session_metadata_presets backend toFixed (events : list Event) :
  logged metadataAgrees (world (session backend toFixed events)).
Proof.
  assert (H : metadataInvariant (world (session backend toFixed events))).
  { unfold session. apply (fold_left_invariant_desk (fun d => metadataInvariant (world d))).
    - intros d e. apply metadataInvariant_step.
    - split; [|constructor]. intros mask [= <-]. reflexivity. }
  exact (proj2 H).
Qed.

(** ** The EXIF offset tab *)

Lemma offsetFieldsInRange_update f :
  (forall s, exifOffsetForm (f s) = exifOffsetForm s) ->
  preserves offsetInvariant (update f).
Proof.
  intros Hf. apply preserves_update. intros w H.
  unfold offsetInvariant, offsetFieldsInRange in *. cbn [ui]. now rewrite Hf.
Qed.

Lemma offsetFieldsInRange_field f :
  (forall s, offsetFieldsInRange s -> offsetFieldsInRange (f s)) ->
  preserves offsetInvariant (update f).
Proof. intros Hf. apply preserves_update. intros w H. now apply Hf. Qed.

Lemma offsetFieldsInRange_invoke {A} call (answer : nat -> Reply A) :
  preserves offsetInvariant (invoke call answer).
Proof. apply preserves_invoke. intros w H. exact H. Qed.

Lemma offsetFieldsInRange_firstDirectory backend paths :
  preserves offsetInvariant (firstDirectory backend paths).
Proof.
  induction paths as [|path rest IH]; cbn [firstDirectory].
  - apply preserves_throw.
  - apply preserves_bind; [apply offsetFieldsInRange_invoke|]. intros [|]; [|exact IH].
    apply preserves_bind; [|intros _]; apply offsetFieldsInRange_update; reflexivity.
Qed.

Ltac offset_leaf :=
  lazymatch goal with
  | |- preserves _ (firstDirectory _ _) => apply offsetFieldsInRange_firstDirectory
  | |- preserves _ (invoke _ _) => apply offsetFieldsInRange_invoke
  | |- preserves _ (openDialog _) => intros ? H; unfold openDialog;
        lazymatch goal with |- context [match ?a with _ => _ end] => destruct a end; exact H
  | |- preserves _ (update _) =>
        first [ apply offsetFieldsInRange_update; intros ?; reflexivity
              | apply offsetFieldsInRange_field; unfold offsetFieldsInRange;
                intros ? H; cbn; lia ]
  end.

Lemma offsetFieldsInRange_step backend toFixed (d : Desk) (e : Event) :
  offsetInvariant (world d) -> offsetInvariant (world (step backend toFixed d e)).
Proof.
  apply (keeps_step backend toFixed (fun d => offsetInvariant (world d))).
  generalize (ui (world d)), (editors d). intros s ed.
  destruct e as [[]|[]|[]|[]|[]|[]|[]|[]]; cbn [handler];
    repeat first [offset_leaf | walk_step | open_handler].
Qed.

(** X15.  In every session the four fields of the offset stay within the
    ranges of a clock, whatever is typed into them: days are not negative,
    hours are within 0..23, minutes and seconds within 0..59.  The total is
    therefore zero only when all four fields are zero, positive under the
    plus sign and negative under the minus sign otherwise. *)
Theorem X15_session_offset_fields backend toFixed (events : list Event) :
  let s := ui (world (session backend toFixed events)) in
  let f := exifOffsetForm s in
  offsetFieldsInRange s
  /\ (totalOffsetSeconds s = 0 <->
      exifOffsetDays f = 0 /\ exifOffsetHours f = 0
      /\ exifOffsetMinutes f = 0 /\ exifOffsetSeconds f = 0)
  /\ match exifOffsetSign f with
     | signPlus => 0 <= totalOffsetSeconds s
     | signMinus => totalOffsetSeconds s <= 0
     end.
Proof.
  cbv zeta.
  assert (H : offsetFieldsInRange (ui (world (session backend toFixed events)))).
  { unfold session.
    apply (fold_left_invariant_desk (fun d => offsetInvariant (world d))).
    - intros d e. apply offsetFieldsInRange_step.
    - unfold offsetInvariant, offsetFieldsInRange. cbn. lia. }
  split; [exact H|]. unfold offsetFieldsInRange in H. unfold totalOffsetSeconds.
  destruct (exifOffsetSign _); split; lia.
Qed.

(** ** The compress tab *)

Lemma parsePositiveInt_positive value parsed :
  parsePositiveInt value = Some parsed -> 0 < parsed.
Proof.
  unfold parsePositiveInt. destruct (Number_parseInt _) as [n|]; [|discriminate].
  destruct (0 <? n) eqn:E; [|discriminate]. intros [= <-]. now apply Z.ltb_lt.
Qed.

Lemma UNIT_TO_KB_positive unit : 0 < UNIT_TO_KB unit.
Proof. destruct unit; reflexivity. Qed.

(** X16.  The target-size button sends no call unless the target parses as
    a positive integer.  When it does, the target it sends is that integer
    in the unit selected, a positive number of kilobytes, and the size
    summary shows the same target, in bytes. *)
Theorem X16_compress_target (backend : Backend) (toFixed : Q -> nat -> string)
    (s : AppState) (w : World) :
  let after := settle (compressCalc backend toFixed s) w in
  match parsePositiveInt (compressTargetSizeKb (compressForm s)) with
  | None => ipc after = ipc w /\ errorShown w after
  | Some parsed =>
      let targetSizeKb := parsed * UNIT_TO_KB (compressTargetSizeUnit (compressForm s)) in
      ipc after = (ipc w ++ [preview_compress (compressRequest s (Some targetSizeKb))])%list
      /\ parsed <= targetSizeKb
      /\ 0 < targetSizeKb
      /\ (forall summary, compressSizeSummary s = Some summary ->
            targetBytes summary = Some (targetSizeKb * 1024))
  end.
Proof.
  cbv zeta. unfold compressCalc.
  destruct (parsePositiveInt (compressTargetSizeKb (compressForm s))) as [parsed|] eqn:E.
  - pose proof (parsePositiveInt_positive _ _ E) as Hp.
    pose proof (UNIT_TO_KB_positive (compressTargetSizeUnit (compressForm s))) as Hu.
    split; [|split; [nia|split; [nia|]]].
    + run_app. next_case; reflexivity.
    + unfold compressSizeSummary. destruct (compressSourceInfo _); [|discriminate].
      intros summary [= <-]. cbn [targetBytes]. now rewrite E.
  - run_app. split; [reflexivity|]. eexists. reflexivity.
Qed.

Lemma Rpower_le_1 (x y : R) : (0 < x <= 1)%R -> (0 <= y)%R -> (Rpower x y <= 1)%R.
Proof.
  intros Hx Hy.
  assert (E : Rpower 1 y = 1%R) by (unfold Rpower; now rewrite ln_1, Rmult_0_r, exp_0).
  rewrite <- E. now apply Rle_Rpower_l.
Qed.

Lemma Rpower_pos (x y : R) : (0 < Rpower x y)%R.
Proof. unfold Rpower. apply exp_pos. Qed.

Lemma estimate_formula (s : AppState) (info : CompressCollectInfoResponse) :
  compressSourceInfo (compressForm s) = Some info ->
  compressEstimateResult (compressForm s) = None ->
  0 < compressQuality (compressForm s) ->
  exists summary,
    compressSizeSummary s = Some summary
    /\ totalSource summary = IZR (totalSize info)
    /\ totalEstimated summary
       = Some (IZR (totalSize info)
               * (IZR (compressResizePercent (compressForm s)) / 100)
               * (IZR (compressResizePercent (compressForm s)) / 100)
               * Rpower (IZR (compressQuality (compressForm s)) / 100) 1.25)%R.
Proof.
  intros Hinfo Hest Hq. unfold compressSizeSummary. rewrite Hinfo, Hest.
  eexists. split; [reflexivity|]. cbn [totalSource totalEstimated]. split; [reflexivity|].
  assert (Hpos : (0 < IZR (compressQuality (compressForm s)) / 100)%R).
  { apply Rdiv_lt_0_compat; [now apply IZR_lt|lra]. }
  unfold Math_pow. destruct (Rlt_dec _ _) as [_|Hn]; [reflexivity|contradiction].
Qed.

Lemma percent_ratio (x : Z) : percent x -> (0 < IZR x / 100 <= 1)%R.
Proof.
  intros [H1 H2]. apply IZR_le in H1, H2. split.
  - apply Rdiv_lt_0_compat; lra.
  - apply (Rmult_le_reg_r 100); [lra|]. unfold Rdiv.
    rewrite Rmult_assoc, Rinv_l; lra.
Qed.

Lemma ratio_le (x y : Z) : x <= y -> (IZR x / 100 <= IZR y / 100)%R.
Proof. intros H. apply IZR_le in H. unfold Rdiv. apply Rmult_le_compat_r; lra. Qed.

(** X17.  While the engine has not sampled, the estimate of the size
    summary is the client's own.  For sources that are not of negative size
    and sliders within 1..100 it is never more than the source total, and
    lowering either slider never raises it. *)
Theorem X17_estimate_bounds (s : AppState) (info : CompressCollectInfoResponse) (r q : Z) :
  compressSourceInfo (compressForm s) = Some info ->
  compressEstimateResult (compressForm s) = None ->
  0 <= totalSize info ->
  percent (compressResizePercent (compressForm s)) ->
  percent (compressQuality (compressForm s)) ->
  1 <= r <= compressResizePercent (compressForm s) ->
  1 <= q <= compressQuality (compressForm s) ->
  exists summary estimate lowered loweredEstimate,
    compressSizeSummary s = Some summary
    /\ totalEstimated summary = Some estimate
    /\ compressSizeSummary (setCompressQuality q (setCompressResizePercent r s))
       = Some lowered
    /\ totalEstimated lowered = Some loweredEstimate
    /\ (0 <= loweredEstimate <= estimate)%R
    /\ (estimate <= totalSource summary)%R.
Proof.
  intros Hinfo Hest Hsize Hr Hq Hr' Hq'.
  destruct (estimate_formula s info Hinfo Hest) as [summary [H1 [H2 H3]]];
    [unfold percent in Hq; lia|].
  destruct (estimate_formula (setCompressQuality q (setCompressResizePercent r s)) info)
    as [lowered [L1 [L2 L3]]]; [exact Hinfo|exact Hest|cbn; lia|].
  cbn [compressForm setCompressQuality setCompressResizePercent inCompressForm
       compressResizePercent compressQuality] in L3.
  eexists summary, _, lowered, _. split; [exact H1|]. split; [exact H3|].
  split; [exact L1|]. split; [exact L3|]. rewrite H2.
  set (S := IZR (totalSize info)).
  assert (HS : (0 <= S)%R) by (now apply IZR_le).
  pose proof (percent_ratio _ Hr) as [Hr0 Hr1].
  pose proof (percent_ratio _ Hq) as [Hq0 Hq1].
  assert (Hr'p : percent r) by (unfold percent in *; lia).
  assert (Hq'p : percent q) by (unfold percent in *; lia).
  pose proof (percent_ratio _ Hr'p) as [Hr'0 _].
  pose proof (percent_ratio _ Hq'p) as [Hq'0 _].
  pose proof (ratio_le _ _ (proj2 Hr')) as Hrle.
  pose proof (ratio_le _ _ (proj2 Hq')) as Hqle.
  set (R := (IZR (compressResizePercent (compressForm s)) / 100)%R) in *.
  set (R' := (IZR r / 100)%R) in *.
  assert (HP : (Rpower (IZR q / 100) 1.25
                <= Rpower (IZR (compressQuality (compressForm s)) / 100) 1.25)%R).
  { apply Rle_Rpower_l; [lra|]. split; assumption. }
  assert (HP1 : (Rpower (IZR (compressQuality (compressForm s)) / 100) 1.25 <= 1)%R).
  { apply Rpower_le_1; [split; assumption|lra]. }
  pose proof (Rpower_pos (IZR q / 100) 1.25) as HP'0.
  pose proof (Rpower_pos (IZR (compressQuality (compressForm s)) / 100) 1.25) as HP0.
  set (P := Rpower (IZR (compressQuality (compressForm s)) / 100) 1.25) in *.
  set (P' := Rpower (IZR q / 100) 1.25) in *.
  assert (HRR : (R' * R' <= R * R)%R) by nra.
  assert (HRR1 : (R * R <= 1)%R) by nra.
  assert (HRR0 : (0 <= R' * R')%R) by nra.
  assert (HRP : (R' * R' * P' <= R * R * P)%R) by nra.
  assert (HRP1 : (R * R * P <= 1)%R) by nra.
  assert (HRP0 : (0 <= R' * R' * P')%R) by nra.
  split; [split|].
  - rewrite !Rmult_assoc. apply Rmult_le_pos; [exact HS|]. rewrite <- Rmult_assoc. exact HRP0.
  - rewrite !Rmult_assoc. apply Rmult_le_compat_l; [exact HS|].
    rewrite <- !Rmult_assoc. exact HRP.
  - rewrite !Rmult_assoc. rewrite <- (Rmult_1_r S) at 2.
    apply Rmult_le_compat_l; [exact HS|]. rewrite <- Rmult_assoc. exact HRP1.
Qed.

Lemma X17_witness :
  exists summary estimate lowered loweredEstimate,
    compressSizeSummary sampleCompressState = Some summary
    /\ totalEstimated summary = Some estimate
    /\ compressSizeSummary
         (setCompressQuality 40 (setCompressResizePercent 50 sampleCompressState))
       = Some lowered
    /\ totalEstimated lowered = Some loweredEstimate
    /\ (0 <= loweredEstimate <= estimate)%R
    /\ (estimate <= totalSource summary)%R.
Proof.
  apply (X17_estimate_bounds sampleCompressState {| fileCount := 2; totalSize := 1000 |} 50 40);
    first [reflexivity | unfold percent; cbn; lia | cbn; lia].
Defined.

(** ** Progress and the clear buttons *)

(** X18.  A progress event of one of the six operations shows in the banner
    of exactly one tab and leaves the banner of every other tab as it was;
    on that tab both the close button of the banner and the clear button
    take it away again. *)
Theorem X18_progress_banner (w : World) (p : OperationProgressEvent) :
  In (operation p) operationNames ->
  let arrived := settle (onOperationProgress p) w in
  exists tabKey,
    In tabKey operationTabs
    /\ banner tabKey (ui arrived) = Some p
    /\ (forall other, other <> tabKey -> banner other (ui arrived) = banner other (ui w))
    /\ banner tabKey (ui (settle (closeProgressBanner (setTab tabKey (ui arrived))) arrived))
       = None
    /\ banner tabKey (ui (settle (clearTab tabKey) arrived)) = None.
Proof.
  intros Hop. cbv zeta. unfold banner, onOperationProgress, closeProgressBanner.
  cbn in Hop.
  destruct Hop as [E|[E|[E|[E|[E|[E|[]]]]]]];
    [exists tab_rename | exists tab_delete | exists tab_flatten | exists tab_compress
    |exists tab_exif_offset | exists tab_metadata_strip];
    (split; [cbn; tauto|]); run_app; cbn; rewrite <- E;
    (split; [now simplify_map_eq|]);
    (split; [intros [] Hne; try congruence; cbn; now simplify_map_eq|]);
    split; now simplify_map_eq.
Qed.

Lemma X18_witness :
  let p := {| operation := "exifOffset"; processed := 3; total := 8; done := false;
              canceled := false |} in
  exists tabKey,
    In tabKey operationTabs
    /\ banner tabKey (ui (settle (onOperationProgress p) initialWorld)) = Some p.
Proof.
  cbv zeta.
  destruct (X18_progress_banner initialWorld
              {| operation := "exifOffset"; processed := 3; total := 8; done := false;
                 canceled := false |}) as [tabKey [H1 [H2 _]]].
  - cbn. tauto.
  - exists tabKey. split; [exact H1|exact H2].
Defined.

(** X19.  The clear button of a tab calls nothing and forgets the result of
    the last execution; right after it neither the preview button, nor the
    execute button, nor a preview after a drop reaches the engine, since
    the input of the tab is empty. *)
Theorem X19_clear_disarms (backend : Backend) (tabKey : TabKey) (w : World) :
  let cleared := settle (clearTab tabKey) w in
  ipc cleared = ipc w
  /\ storedExecResult tabKey (ui cleared) = None
  /\ Forall (fun flow => ipc (settle flow cleared) = ipc w)
       [ previewCurrentTab backend (ui cleared) tabKey;
         submitPreview backend (ui cleared) tabKey;
         executeTab backend (ui cleared) tabKey ].
Proof.
  cbv zeta. destruct tabKey; cbn [clearTab storedExecResult]; run_app;
    (split; [reflexivity|]); (split; [reflexivity|]);
    repeat (constructor; [reflexivity|]); constructor.
Qed.

(** ** The pattern and template editors *)

Lemma NoDup_snoc {A} (l : list A) (x : A) :
  List.NoDup l -> ~ In x l -> List.NoDup (l ++ [x]).
Proof.
  induction l as [|a l IH]; intros Hnd Hx; cbn.
  - constructor; [intros []|constructor].
  - apply List.NoDup_cons_iff in Hnd as [Ha Hnd]. constructor.
    + intros Hin. apply in_app_iff in Hin as [Hin|[<-|[]]]; [now apply Ha|].
      apply Hx. now left.
    + apply IH; [exact Hnd|]. intros Hin. apply Hx. now right.
Qed.

Section Names.

Context {A : Type} (name : A -> string).

Lemma existsb_sameName_false (l : list A) (x : string) :
  existsb (fun a => sameName (name a) x) l = false ->
  ~ In (Js.toLowerCase x) (map Js.toLowerCase (map name l)).
Proof.
  intros H Hin. apply in_map_iff in Hin as [n [Hn Hin]].
  apply in_map_iff in Hin as [a [<- Ha]].
  assert (Ht : existsb (fun a => sameName (name a) x) l = true).
  { apply existsb_exists. exists a. split; [exact Ha|]. unfold sameName.
    now apply String.eqb_eq. }
  congruence.
Qed.

Lemma distinctNames_snoc (l : list A) (a : A) :
  distinctNames (map name l) ->
  existsb (fun b => sameName (name b) (name a)) l = false ->
  distinctNames (map name (l ++ [a])).
Proof.
  unfold distinctNames. intros Hnd Hex. rewrite !map_app. cbn [map].
  apply NoDup_snoc; [exact Hnd|]. now apply existsb_sameName_false.
Qed.

Lemma distinctNames_replace (l : list A) (selected : string) (updated : A) :
  name updated = selected ->
  map Js.toLowerCase
      (map name (map (fun a => if sameName (name a) selected then updated else a) l))
  = map Js.toLowerCase (map name l).
Proof.
  intros Hu. induction l as [|a l IH]; [reflexivity|]. cbn [map]. rewrite IH. f_equal.
  unfold sameName. destruct (String.eqb _ _) eqn:E; [|reflexivity].
  apply String.eqb_eq in E. now rewrite Hu.
Qed.

Lemma distinctNames_filter (keep : A -> bool) (l : list A) :
  distinctNames (map name l) -> distinctNames (map name (List.filter keep l)).
Proof.
  unfold distinctNames. induction l as [|a l IH]; [easy|]. cbn [map List.filter].
  intros Hnd. apply List.NoDup_cons_iff in Hnd as [Hnot Hnd].
  destruct (keep a); [|now apply IH]. cbn [map]. constructor; [|now apply IH].
  intros Hin. apply Hnot. apply in_map_iff in Hin as [n [Hn Hin]].
  apply in_map_iff in Hin as [b [<- Hb]]. apply filter_In in Hb as [Hb _].
  rewrite <- Hn. now apply in_map, in_map.
Qed.

End Names.

Lemma namesInvariant_keep f :
  (forall s, settings (shell (f s)) = settings (shell s)) ->
  preserves namesInvariant (update f).
Proof.
  intros Hf. apply preserves_update. intros w H. unfold namesInvariant in *.
  cbn [ui]. now rewrite Hf.
Qed.

Lemma namesInvariant_setSettings next :
  namesDistinct next -> preserves namesInvariant (update (setSettings next)).
Proof. intros Hn. apply preserves_update. intros w _. exact Hn. Qed.

Lemma namesInvariant_theme v : preserves namesInvariant (update (onChangeTheme v)).
Proof. apply preserves_update. intros w H. exact H. Qed.

Lemma namesInvariant_invoke {A} call (answer : nat -> Reply A) :
  preserves namesInvariant (invoke call answer).
Proof. apply preserves_invoke. intros w H. exact H. Qed.

Lemma namesInvariant_firstDirectory backend paths :
  preserves namesInvariant (firstDirectory backend paths).
Proof.
  induction paths as [|path rest IH]; cbn [firstDirectory].
  - apply preserves_throw.
  - apply preserves_bind; [apply namesInvariant_invoke|]. intros [|]; [|exact IH].
    apply preserves_bind; [|intros _]; apply namesInvariant_keep; reflexivity.
Qed.

Lemma namesInvariant_importClick backend w :
  importsDistinct backend ->
  namesInvariant w -> namesInvariant (settle (importClick backend (ui w)) w).
Proof.
  intros Himp H. unfold importClick, refreshImportConflicts, applySettingsToInputs.
  unfold namesInvariant in *.
  destruct (negb _); [exact H|].
  destruct (importMode (importForm (ui w))); [|destruct (importConflictPreview _)];
    run_app; repeat (next_case; try exact H);
    match goal with
    | E : on_import_settings backend _ _ _ _ = Resolved _ |- _ => exact (Himp _ _ _ _ _ E)
    end.
Qed.

Ltac names_settings :=
  unfold namesDistinct in *; cbn;
  match goal with Hs : _ /\ _ |- _ => destruct Hs as [Hpatterns Htemplates] end;
  split;
  first [ assumption
        | now apply distinctNames_snoc
        | now apply distinctNames_filter
        | unfold distinctNames; now rewrite distinctNames_replace ].

Ltac names_leaf :=
  lazymatch goal with
  | |- preserves namesInvariant (firstDirectory _ _) => apply namesInvariant_firstDirectory
  | |- preserves namesInvariant (invoke _ _) => apply namesInvariant_invoke
  | |- preserves namesInvariant (openDialog _) => intros ? H; unfold openDialog;
        lazymatch goal with |- context [match ?a with _ => _ end] => destruct a end; exact H
  | |- preserves namesInvariant (update (onChangeTheme _)) => apply namesInvariant_theme
  | |- preserves namesInvariant (update (setSettings _)) =>
        apply namesInvariant_setSettings; names_settings
  | |- preserves namesInvariant (update _) =>
        apply namesInvariant_keep; intros ?; reflexivity
  end.

Lemma namesInvariant_onMount (loaded : AppSettings) (ffprobe : bool) :
  namesDistinct loaded ->
  keeps (fun d => namesInvariant (world d)) (onMount (Resolved (loaded, ffprobe))).
Proof.
  intros Hloaded. unfold onMount.
  apply keeps_bind; [apply keeps_world_lift, namesInvariant_setSettings, Hloaded|intros _].
  repeat first [names_leaf | walk_step].
Qed.

Lemma namesInvariant_step backend toFixed (d : Desk) (e : Event) :
  importsDistinct backend -> loadsDistinct e ->
  namesInvariant (world d) -> namesInvariant (world (step backend toFixed d e)).
Proof.
  intros Himp Hload.
  destruct e as [[]|[]|[]|[]|[]|[]|[]|[]];
    lazymatch goal with
    | |- _ -> namesInvariant (world (step _ _ _ (onSettings ev_importClick))) =>
        intros Hd; unfold step; cbn [handler]; rewrite Studio_settle_lift;
        now apply namesInvariant_importClick
    | |- _ -> namesInvariant (world (step _ _ _ (onShell (ev_mount ?answer)))) =>
        apply (keeps_step backend toFixed (fun d => namesInvariant (world d)));
        cbn [handler]; destruct answer as [loadError|[loaded ffprobe]];
        [ unfold onMount; repeat first [names_leaf | walk_step | open_handler]
        | apply namesInvariant_onMount; now apply (Hload loaded ffprobe) ]
    | |- _ =>
        intros Hd; pose proof Hd as Hs; revert Hd;
        apply (keeps_step backend toFixed (fun d => namesInvariant (world d)));
        unfold namesInvariant in Hs;
        revert Hs; generalize (ui (world d)), (editors d); intros s ed Hs; cbn [handler];
        repeat first [names_leaf | walk_step | open_handler]
    end.
Qed.

(** X20.  As long as the settings that are loaded at the start and those
    that an import returns have distinct names, the delete patterns and the
    rename templates of the page have distinct names, case ignored, in
    every session: no handler of the two editors stores a second entry
    under a name that is taken. *)
Theorem X20_session_names_distinct backend toFixed (events : list Event) :
  importsDistinct backend -> Forall loadsDistinct events ->
  namesDistinct (settings (shell (ui (world (session backend toFixed events))))).
Proof.
  intros Himp Hloads. unfold session.
  assert (H0 : namesInvariant (world initialDesk))
    by (split; cbn; repeat constructor; intros []).
  revert H0. generalize initialDesk.
  induction Hloads as [|e events He Hloads IH]; intros d Hd; [exact Hd|].
  cbn [fold_left]. apply IH. now apply namesInvariant_step.
Qed.

Lemma quietEngine_importsDistinct : importsDistinct quietEngine.
Proof.
  intros n inputPath mode policy next [= <-]. split; cbn; repeat constructor; intros [].
Qed.

Lemma X20_witness :
  namesDistinct
    (settings (shell (ui (world (session quietEngine (fun _ _ => "")
       [ onShell (ev_mount (Resolved (DEFAULT_SETTINGS, false)));
         onRename (ev_templateSelect "__new__");
         onRename (ev_newTemplateName " 日付通番 ");
         onRename ev_saveNewTemplate;
         onRename (ev_newTemplateName "by date");
         onRename ev_saveNewTemplate ]))))).
Proof.
  apply X20_session_names_distinct; [exact quietEngine_importsDistinct|].
  apply List.Forall_cons;
    [intros loaded ffprobe [= <- _]; split; cbn; repeat constructor; intros []|].
  repeat (apply List.Forall_cons; [intros loaded ffprobe [=]|]). apply List.Forall_nil.
Defined.




Lemma differs_same (a : list string) : differs a a = false.
Proof.
  unfold differs. rewrite Nat.eqb_refl. cbn [negb orb].
  induction a as [|x a IH]; [reflexivity|]. cbn. now rewrite String.eqb_refl, IH.
Qed.

Lemma DeleteMode_eqb_same (mode : DeleteMode) : DeleteMode_eqb mode mode = true.
Proof. now destruct mode. Qed.

Lemma patternOfForm_readsBack (s : AppState) (name : string) :
  Forall (fun t => startsWithTwoDots t = false)
         (Js.splitExtSeparators (deleteExtensions (deleteForm s))) ->
  readsBack (patternOfForm s name (parseExts (deleteExtensions (deleteForm s)))).
Proof.
  intros Hdots. split; cbn.
  - now apply parseExts_entries_normalised.
  - destruct (isRetreat _); cbn; [apply trim_idem|reflexivity].
Qed.

(** X22.  Selecting a stored pattern fills the form from it and shows it as
    unmodified, provided the pattern reads back as it was written: its
    extensions are normalised and its retreat folder is trimmed.  A pattern
    that the editor stores reads back in this way unless a piece of the
    extension input begins with two dots. *)
Theorem X22_selected_pattern_unmodified (s s0 : AppState) (d : Desk) (val name : string)
    (p : DeletePattern) :
  val <> "__new__" -> val <> "" ->
  List.find (fun pattern => sameName (dp_name pattern) val)
            (deletePatterns (settings (shell s))) = Some p ->
  readsBack p ->
  Forall (fun t => startsWithTwoDots t = false)
         (Js.splitExtSeparators (deleteExtensions (deleteForm s0))) ->
  let after := Studio.settle (onChangePatternSelect s val) d in
  patternOriginal (editors after) = Some p
  /\ patternSelected (editors after) = val
  /\ patternModified (ui (world after)) (editors after) = false
  /\ readsBack (patternOfForm s0 name (parseExts (deleteExtensions (deleteForm s0)))).
Proof.
  intros Hnew Hval Hfind [Hexts Hdir] Hdots. cbv zeta.
  split; [|split; [|split; [|now apply patternOfForm_readsBack]]].
  all: unfold onChangePatternSelect, applyDeletePattern.
  all: apply String.eqb_neq in Hnew; rewrite Hnew.
  all: apply truthy_nonempty in Hval; rewrite Hval, Hfind; run_studio.
  - reflexivity.
  - reflexivity.
  - unfold patternModified. cbn -[parseExts joinCommaSpace Js.trim differs].
    rewrite (parseExts_joinCommaSpace _ Hexts), differs_same, DeleteMode_eqb_same, Hdir.
    rewrite String.eqb_refl. cbn. now rewrite andb_false_r.
Qed.

Lemma X22_witness :
  let stored := {| dp_name := "raw"; dp_extensions := ["cr2"; "nef"]; dp_mode := retreat;
                   dp_retreatDir := Some "D:/keep" |} in
  let s := setSettings (withDeletePatterns [stored] DEFAULT_SETTINGS) initialState in
  let after := Studio.settle (onChangePatternSelect s "RAW") initialDesk in
  patternOriginal (editors after) = Some stored
  /\ patternModified (ui (world after)) (editors after) = false.
Proof.
  cbv zeta.
  destruct (X22_selected_pattern_unmodified
              (setSettings
                 (withDeletePatterns
                    [ {| dp_name := "raw"; dp_extensions := ["cr2"; "nef"];
                         dp_mode := retreat; dp_retreatDir := Some "D:/keep" |} ]
                    DEFAULT_SETTINGS) initialState)
              initialState initialDesk "RAW" "jpeg"
              {| dp_name := "raw"; dp_extensions := ["cr2"; "nef"]; dp_mode := retreat;
                 dp_retreatDir := Some "D:/keep" |})
    as [H1 [_ [H2 _]]].
  - discriminate.
  - discriminate.
  - reflexivity.
  - split; [|reflexivity].
    repeat (constructor; [split; [repeat split; discriminate|reflexivity]|]). constructor.
  - repeat constructor.
  - split; [exact H1|exact H2].
Defined.

Lemma find_filter_negb {A} (f : A -> bool) (l : list A) :
  List.find f (List.filter (fun a => negb (f a)) l) = None.
Proof.
  induction l as [|a l IH]; [reflexivity|]. cbn [List.filter].
  destruct (f a) eqn:E; cbn [negb]; [exact IH|]. cbn [List.find]. now rewrite E.
Qed.

(** X23.  The delete button of either editor takes every entry whose name
    is the selected one, case ignored, out of the settings of the page, and
    leaves the other entries in their order.  It does so before the engine
    has answered: after the handler the name is gone from the page whether
    the save was accepted or not, and selecting it again only brings an
    error toast. *)
Theorem X23_deleted_names_are_gone (backend : Backend) (s : AppState) (ed : Editors)
    (d : Desk) :
  patternSelected ed <> "" -> patternSelected ed <> "__new__" ->
  templateSelected ed <> "" -> templateSelected ed <> "__new__" ->
  let afterP := Studio.settle (deletePatternByName backend s ed) d in
  let afterT := Studio.settle (deleteTemplateByName backend s ed) d in
  let againP :=
    Studio.settle (onChangePatternSelect (ui (world afterP)) (patternSelected ed)) afterP in
  let againT :=
    Studio.settle (onChangeTemplateSelect (ui (world afterT)) (templateSelected ed)) afterT in
  deletePatterns (settings (shell (ui (world afterP))))
  = List.filter (fun p => negb (sameName (dp_name p) (patternSelected ed)))
                (deletePatterns (settings (shell s)))
  /\ renameTemplates (settings (shell (ui (world afterT))))
     = List.filter (fun t => negb (sameName (rt_name t) (templateSelected ed)))
                   (renameTemplates (settings (shell s)))
  /\ errorShown (world afterP) (world againP)
  /\ deleteForm (ui (world againP)) = deleteForm (ui (world afterP))
  /\ errorShown (world afterT) (world againT)
  /\ renameForm (ui (world againT)) = renameForm (ui (world afterT)).
Proof.
  intros HP HPnew HT HTnew. cbv zeta.
  apply truthy_nonempty in HP, HT. apply String.eqb_neq in HPnew, HTnew.
  assert (EP : deletePatterns (settings (shell (ui (world
                 (Studio.settle (deletePatternByName backend s ed) d)))))
               = List.filter (fun p => negb (sameName (dp_name p) (patternSelected ed)))
                             (deletePatterns (settings (shell s)))).
  { unfold deletePatternByName. rewrite HP. cbn [negb]. run_studio. next_case; reflexivity. }
  assert (ET : renameTemplates (settings (shell (ui (world
                 (Studio.settle (deleteTemplateByName backend s ed) d)))))
               = List.filter (fun t => negb (sameName (rt_name t) (templateSelected ed)))
                             (renameTemplates (settings (shell s)))).
  { unfold deleteTemplateByName. rewrite HT. cbn [negb]. run_studio. next_case; reflexivity. }
  split; [exact EP|]. split; [exact ET|].
  unfold onChangePatternSelect, onChangeTemplateSelect, applyDeletePattern,
    applyRenameTemplate.
  rewrite HP, HT, HPnew, HTnew, EP, ET.
  rewrite (find_filter_negb (fun p => sameName (dp_name p) (patternSelected ed))).
  rewrite (find_filter_negb (fun t => sameName (rt_name t) (templateSelected ed))).
  run_studio. repeat split; eexists; reflexivity.
Qed.

Lemma X23_witness :
  let stored := {| dp_name := "raw"; dp_extensions := ["cr2"; "nef"]; dp_mode := trash;
                   dp_retreatDir := None |} in
  let s := setSettings (withDeletePatterns [stored] DEFAULT_SETTINGS) initialState in
  let ed := setTemplateSelected "日付通番" (setPatternSelected "Raw" initialEditors) in
  deletePatterns
    (settings (shell (ui (world
       (Studio.settle (deletePatternByName quietEngine s ed) initialDesk))))) = []
  /\ renameTemplates
       (settings (shell (ui (world
          (Studio.settle (deleteTemplateByName quietEngine s ed) initialDesk))))) = [].
Proof.
  cbv zeta.
  destruct (X23_deleted_names_are_gone quietEngine
              (setSettings
                 (withDeletePatterns
                    [ {| dp_name := "raw"; dp_extensions := ["cr2"; "nef"]; dp_mode := trash;
                         dp_retreatDir := None |} ] DEFAULT_SETTINGS) initialState)
              (setTemplateSelected "日付通番" (setPatternSelected "Raw" initialEditors))
              initialDesk) as [H1 [H2 _]]; try discriminate.
  split; [exact H1|exact H2].
Defined.


(** ** Preview and execution *)

(** X25.  On every tab the execute button passes the checks that the
    preview button passes and sends the payload that the preview button
    sends: from one and the same render, what is executed is what a
    preview shows.  Either button makes at most one call. *)
Theorem X25_execute_what_is_previewed (backend : Backend) (s : AppState)
    (tabKey : TabKey) (w : World) :
  exists calls,
    (length calls <= 1)%nat
    /\ ipc (settle (submitPreview backend s tabKey) w) = (ipc w ++ calls)%list
    /\ ipc (settle (executeTab backend s tabKey) w) = (ipc w ++ map asExecute calls)%list.
Proof.
  destruct tabKey; cbn [submitPreview executeTab];
    unfold renameSubmit, renameExecute, deleteSubmit, deleteExecute, compressSubmit,
      compressExecute, flattenSubmit, flattenExecute, exifOffsetSubmit, exifOffsetExecute,
      metadataStripSubmit, metadataStripExecute;
    repeat match goal with
           | |- context [if ?c then throw _ else _] => destruct c
           end;
    first [ exists []; cbn [length map]; rewrite app_nil_r; split; [lia|];
            split; run_app; reflexivity
          | eexists [_]; cbn [length map asExecute]; split; [lia|];
            split; run_app; repeat next_case; reflexivity ].
Qed.

(** ** The sampled estimate *)

Lemma In_firstn {A} (n : nat) : forall (l : list A) (x : A), In x (firstn n l) -> In x l.
Proof.
  induction n as [|n IH]; intros [|a l] x H; cbn in *; try contradiction.
  destruct H as [->|H]; [now left|right; now apply IH].
Qed.

Lemma In_skipn {A} (n : nat) : forall (l : list A) (x : A), In x (skipn n l) -> In x l.
Proof.
  induction n as [|n IH]; intros [|a l] x H; cbn in *; try contradiction; try exact H.
  right. now apply IH.
Qed.

Lemma estimatorInvariant_step compressEstimate (st : Estimator) (e : EstimateEvent) :
  estimatorInvariant compressEstimate st ->
  estimatorInvariant compressEstimate (estimateStep compressEstimate st e).
Proof.
  intros [Ht [Hf Hr]]. destruct e as [deps| |index]; cbn [estimateStep].
  - unfold estimateEffect. destruct (isEmpty (est_files deps)) eqn:E.
    + apply isEmpty_true in E. split; [intros r [=]|]. split; [|intros result [=]].
      eapply List.Forall_impl; [|exact Hf]. intros r [H1 H2]. split; [exact H1|].
      cbn. intros _ Hne. contradiction.
    + split; [|split; [|intros result [=]]].
      * intros r [= <-]. split; cbn; [lia|]. reflexivity.
      * eapply List.Forall_impl; [|exact Hf]. intros r [H1 H2]. split; cbn; [lia|].
        intros Heq. lia.
  - unfold estimateTimerFires. destruct (estimateTimer st) as [r|] eqn:E.
    + split; [intros r' [=]|]. split; [|exact Hr]. cbn.
      apply Forall_app. split; [exact Hf|]. constructor; [|constructor]. now apply Ht.
    + split; [intros r Hr'; rewrite E in Hr'; discriminate Hr'|].
      split; [exact Hf|exact Hr].
  - unfold estimateSettles. destruct (nth_error _ index) as [r|] eqn:E.
    + assert (Hin : latestRun st r).
      { rewrite List.Forall_forall in Hf. apply Hf. eapply nth_error_In, E. }
      split; [exact Ht|]. split.
      * cbn. apply Forall_app. rewrite List.Forall_forall in Hf. split;
          apply List.Forall_forall; intros x Hx; apply Hf.
        -- eapply In_firstn, Hx.
        -- eapply In_skipn, Hx.
      * cbn. intros result. destruct (Nat.eqb_spec (estimateSeqRef st) (run_seq r)) as [Heq|Hne].
        -- destruct Hin as [_ Hdeps]. intros Hres Hfiles.
           rewrite Heq, <- (Hdeps (eq_sym Heq) Hfiles). revert Hres.
           destruct (compressEstimate (run_seq r) (run_deps r)); intros Hres; congruence.
        -- apply Hr.
    + split; [exact Ht|]. split; [exact Hf|exact Hr].
Qed.

(** X27.  While paths are entered, a sampled estimate that the page holds
    is the answer of the engine to the latest run of the effect, and that
    run was made with the paths, the subfolder flag and the two sliders as
    the page shows them: an answer to an earlier run is never shown in
    their place, in whatever order the answers arrive. *)
Theorem X27_estimate_is_current compressEstimate (events : list EstimateEvent)
    (result : CompressEstimateResponse) :
  let st := estimateRun compressEstimate events in
  estimateResult st = Some result ->
  est_files (est_deps st) <> [] ->
  compressEstimate (estimateSeqRef st) (est_deps st) = Resolved result.
Proof.
  cbv zeta.
  assert (H : estimatorInvariant compressEstimate (estimateRun compressEstimate events)).
  { unfold estimateRun.
    assert (H0 : estimatorInvariant compressEstimate estimatorMounted).
    { split; [intros r [=]|]. split; [constructor|intros r [=]]. }
    revert H0. generalize estimatorMounted.
    induction events as [|e events IH]; intros st Hst; [exact Hst|].
    cbn [fold_left]. apply IH. now apply estimatorInvariant_step. }
  destruct H as [_ [_ H]]. exact (H result).
Qed.

Lemma X27_witness :
  let answer := fun (seq : nat) (d : EstimateDeps) =>
    Resolved {| est_fileCount := 1; totalSourceSize := 1000;
                estimatedTotalSize := 10 * est_resizePercent d |} in
  let st :=
    estimateRun answer
      [ est_render {| est_files := ["C:/in/a.jpg"]; est_subfolders := false;
                      est_resizePercent := 100; est_quality := 82 |};
        est_timer;
        est_render {| est_files := ["C:/in/a.jpg"]; est_subfolders := false;
                      est_resizePercent := 50; est_quality := 82 |};
        est_timer; est_settle 1; est_settle 0 ] in
  answer (estimateSeqRef st) (est_deps st)
  = Resolved {| est_fileCount := 1; totalSourceSize := 1000; estimatedTotalSize := 500 |}.
Proof.
  cbv zeta.
  apply (X27_estimate_is_current
    (fun (seq : nat) (d : EstimateDeps) =>
       Resolved {| est_fileCount := 1; totalSourceSize := 1000;
                   estimatedTotalSize := 10 * est_resizePercent d |})
    [ est_render {| est_files := ["C:/in/a.jpg"]; est_subfolders := false;
                    est_resizePercent := 100; est_quality := 82 |};
      est_timer;
      est_render {| est_files := ["C:/in/a.jpg"]; est_subfolders := false;
                    est_resizePercent := 50; est_quality := 82 |};
      est_timer; est_settle 1; est_settle 0 ]);
    [reflexivity|discriminate].
Defined.

(** The guard compares run numbers, and a run without paths takes no
    number: an answer that arrives after the paths have been cleared is
    written into the hook. *)
Example estimate_after_clearing :
  let answer := fun (seq : nat) (d : EstimateDeps) =>
    Resolved {| est_fileCount := 1; totalSourceSize := 1000; estimatedTotalSize := 500 |} in
  let st :=
    estimateRun answer
      [ est_render {| est_files := ["C:/in/a.jpg"]; est_subfolders := false;
                      est_resizePercent := 100; est_quality := 82 |};
        est_timer;
        est_render {| est_files := []; est_subfolders := false;
                      est_resizePercent := 100; est_quality := 82 |};
        est_settle 0 ] in
  est_files (est_deps st) = []
  /\ estimateResult st
     = Some {| est_fileCount := 1; totalSourceSize := 1000; estimatedTotalSize := 500 |}.
Proof. split; reflexivity. Qed.

(** ** What reaches the engine *)

Lemma withOutputDirectories_trimmed (base : AppSettings) (s : AppState) :
  trimmedFolders (withOutputDirectories base s).
Proof.
  unfold trimmedFolders, outputKeys, withOutputDirectories. cbn.
  repeat (constructor; [eexists; split; [now simplify_map_eq|apply trim_idem]|]).
  constructor.
Qed.

Ltac saves_leaf :=
  lazymatch goal with
  | |- preserves (logged savesTrimmed) (firstDirectory _ _) =>
        apply logged_firstDirectory; intros ? ? [=]
  | |- preserves (logged savesTrimmed) (invoke _ _) =>
        apply logged_invoke;
        let v := fresh "v" in
        let E := fresh "E" in
        intros v E;
        first [discriminate E | injection E as <-; apply withOutputDirectories_trimmed]
  | |- preserves (logged savesTrimmed) (openDialog _) => intros ? H; unfold openDialog;
        lazymatch goal with |- context [match ?a with _ => _ end] => destruct a end; exact H
  | |- preserves (logged savesTrimmed) (update _) => apply logged_update
  end.

Lemma savesTrimmed_step backend toFixed (d : Desk) (e : Event) :
  logged savesTrimmed (world d) -> logged savesTrimmed (world (step backend toFixed d e)).
Proof.
  apply (keeps_step backend toFixed (fun d => logged savesTrimmed (world d))).
  generalize (ui (world d)), (editors d). intros s ed.
  destruct e as [[]|[]|[]|[]|[]|[]|[]|[]]; cbn [handler];
    repeat first [saves_leaf | walk_step | open_handler].
Qed.

(** X28.  In every session the settings that are saved carry a folder
    under each of the four output keys, and the folder is trimmed: every
    handler that saves takes the output folders from the inputs, as the
    autosave does. *)
Theorem X28_session_saves_trimmed backend toFixed (events : list Event) :
  logged savesTrimmed (world (session backend toFixed events)).
Proof.
  unfold session. apply (fold_left_invariant_desk (fun d => logged savesTrimmed (world d))).
  - intros d e. apply savesTrimmed_step.
  - constructor.
Qed.

Lemma inputsGiven_parsePaths (value : string) :
  isEmpty (parsePaths value) = false -> inputsGiven (parsePaths value).
Proof. intros H. split; [now apply isEmpty_false|apply parsePaths_clean]. Qed.

Lemma trimmed_given (value : string) :
  negb (Js.truthy (Js.trim value)) = false ->
  Js.trim value <> "" /\ Js.trim (Js.trim value) = Js.trim value.
Proof.
  intros H. apply negb_false_iff in H. split; [now apply truthy_nonempty|apply trim_idem].
Qed.

Lemma calcDisabled_files (s : AppState) :
  calcDisabled s = false -> isEmpty (parsePaths (compressPaths (compressForm s))) = false.
Proof.
  unfold calcDisabled. intros H. apply orb_false_iff in H as [H _].
  now apply orb_false_iff in H as [_ H].
Qed.

Ltac inputs_facts :=
  repeat match goal with
         | H : calcDisabled _ = false |- _ => apply calcDisabled_files in H
         | H : isEmpty (parsePaths _) = false |- _ => apply inputsGiven_parsePaths in H
         | H : isEmpty (parseExts _) = false |- _ => apply isEmpty_false in H
         | H : negb (Js.truthy (Js.trim _)) = false |- _ => apply trimmed_given in H
         | H : (_ =? 0) = false |- _ => apply Z.eqb_neq in H
         end.

Ltac inputs_leaf :=
  lazymatch goal with
  | |- preserves (logged hasInputs) (firstDirectory _ _) =>
        apply logged_firstDirectory; intros ?; exact Logic.I
  | |- preserves (logged hasInputs) (invoke _ _) =>
        apply logged_invoke;
        unfold renameFiles, deleteFiles, compressFiles, exifOffsetFiles,
          metadataStripFiles in *;
        inputs_facts; cbn; first [exact Logic.I | assumption | split; assumption]
  | |- preserves (logged hasInputs) (openDialog _) => intros ? H; unfold openDialog;
        lazymatch goal with |- context [match ?a with _ => _ end] => destruct a end; exact H
  | |- preserves (logged hasInputs) (update _) => apply logged_update
  end.

Lemma hasInputs_step backend toFixed (d : Desk) (e : Event) :
  logged hasInputs (world d) -> logged hasInputs (world (step backend toFixed d e)).
Proof.
  apply (keeps_step backend toFixed (fun d => logged hasInputs (world d))).
  generalize (ui (world d)), (editors d). intros s ed.
  destruct e as [[]|[]|[]|[]|[]|[]|[]|[]]; cbn [handler];
    repeat first [inputs_leaf | walk_step | open_handler].
Qed.

(** X29.  In every session each call names what it is to work on.  A
    preview or an execution has input paths, each of them non-empty,
    trimmed and free of commas and line feeds, or a trimmed, non-empty
    input folder; a delete has extensions; an offset is not zero; an import
    and a conflict check have a trimmed, non-empty path. *)
Theorem X29_session_calls_have_inputs backend toFixed (events : list Event) :
  logged hasInputs (world (session backend toFixed events)).
Proof.
  unfold session. apply (fold_left_invariant_desk (fun d => logged hasInputs (world d))).
  - intros d e. apply hasInputs_step.
  - constructor.
Qed.

Ltac compress_leaf :=
  lazymatch goal with
  | |- preserves compressInvariant (firstDirectory _ _) =>
        apply compressInvariant_firstDirectory
  | |- preserves compressInvariant (invoke _ _) =>
        apply compressInvariant_invoke;
        let request := fresh "request" in
        let E := fresh "E" in
        intros request E;
        first [discriminate E | injection E as <-; split; assumption]
  | |- preserves compressInvariant (openDialog _) => intros ? H; unfold openDialog;
        lazymatch goal with |- context [match ?a with _ => _ end] => destruct a end; exact H
  | |- preserves compressInvariant (update (onChangeCompressResizePercent _)) =>
        apply preserves_update; intros ? [? [? ?]];
        split; [apply clamp_percent|split; assumption]
  | |- preserves compressInvariant (update (onChangeCompressQuality _)) =>
        apply preserves_update; intros ? [? [? ?]];
        split; [assumption|split; [apply clamp_percent|assumption]]
  | |- preserves compressInvariant (update _) =>
        apply compressInvariant_update; intros ?; reflexivity
  end.

Lemma compressInvariant_step backend toFixed (d : Desk) (e : Event) :
  solverInRange backend ->
  compressInvariant (world d) -> compressInvariant (world (step backend toFixed d e)).
Proof.
  intros Hsolver.
  destruct e as [[]|[]|[]|[]|[]|[]|[]|[]];
    lazymatch goal with
    | |- _ -> compressInvariant (world (step _ _ _ (onCompress ev_compressCalc))) =>
        intros Hd; unfold step; cbn [handler]; unfold unlessDisabled;
        destruct (calcDisabled _); [exact Hd|];
        rewrite Studio_settle_lift; now apply compressInvariant_buttons
    | |- _ =>
        intros Hd; destruct Hd as [Hr [Hq Hl]];
        generalize (conj Hr (conj Hq Hl));
        apply (keeps_step backend toFixed (fun d => compressInvariant (world d)));
        clear Hl; revert Hr Hq; generalize (ui (world d)), (editors d);
        intros s ed Hr Hq;
        change (percent (cp_resizePercent (compressRequest s None))) in Hr;
        change (percent (cp_quality (compressRequest s None))) in Hq;
        cbn [handler]; repeat first [compress_leaf | walk_step | open_handler]
    end.
Qed.

(** X30.  The bounds of the two sliders hold in the whole window, not only
    under the events of the compress tab: provided the engine's target-size
    solver reports effective parameters that round to percentages, in every
    session the resize percent and the quality of the page lie in 1..100,
    and so do the two parameters of every compress request in the log. *)
Theorem X30_session_compress_parameters backend toFixed (events : list Event) :
  solverInRange backend ->
  compressInvariant (world (session backend toFixed events)).
Proof.
  intros Hsolver. unfold session.
  apply (fold_left_invariant_desk (fun d => compressInvariant (world d))).
  - intros d e. now apply compressInvariant_step.
  - split; [|split]; [cbn; unfold percent; lia..|constructor].
Qed.

Lemma X30_witness :
  compressInvariant
    (world (session quietEngine (fun _ _ => "")
       [ onShell (ev_nav tab_compress);
         onCompress (ev_compressQuality "0");
         onCompress (ev_compressResizePercent "250");
         onCompress (ev_compressPaths "C:/in/a.jpg");
         onShell ev_preview;
         onCompress (ev_compressTargetSizeKb "20");
         onCompress ev_compressCalc;
         onShell ev_execute ])).
Proof. apply X30_session_compress_parameters. exact quietEngine_solverInRange. Defined.
